(** * trendcsv-scraper: the normalisation pipelines of the four scrapers

    A shallow embedding of the pure part of

      - scripts/python/scrape_google_trends.py   (search trends)
      - scripts/ingest_wikipedia_trends.py        (encyclopedia page views)
      - scripts/ingest_youtube_trends.py          (video views)
      - scripts/python/scrape_reddit_enhanced.py  (forum posts)

    Python values are modelled as follows.
      - [str] is [string], and the functions on strings are those of
        Python on ASCII texts ([s.isascii()]).  On other texts Python
        folds the case of more letters, at times into more or fewer
        characters, and knows more letters, digits and white space, so a
        property that depends on these classes is stated for ASCII texts.
      - [int] is [Z]; [int] of a text raises [ValueError] when the text has
        more than 4300 digits, the default limit of the interpreter.
      - [float] is IEEE 754 binary64, given by [spec_float] with the rounding
        functions of [SpecFloat] at precision 53 and maximal exponent 1024.
      - a raised exception is the [Raise] branch of [result].
      - the wall clock is a component of the [world] that is threaded through
        every function that reads it; a time is a number of microseconds
        since the epoch.
      - requests to the services, the reading of the downloaded file and the
        writing of the result are left out: a pipeline takes the answer of
        its service and gives the records that it writes. *)

From Stdlib Require Import ZArith Ascii String List Bool Lia Sorting.Permutation Sorting.Sorted.
From Stdlib Require Import Floats.SpecFloat DecimalString DecimalPos.
From stdpp Require Import base decidable countable gmap strings.

Open Scope string_scope.
Open Scope list_scope.
Open Scope Z_scope.

(** ** Exceptions *)

Inductive exn :=
| OverflowError
| ValueError
| ZeroDivisionError
| AttributeError
| TypeError.

Inductive result (A : Type) :=
| Ok (a : A)
| Raise (e : exn).
Arguments Ok {A} a.
Arguments Raise {A} e.

Definition rbind {A B} (m : result A) (f : A -> result B) : result B :=
  match m with
  | Ok a => f a
  | Raise e => Raise e
  end.

Notation "'let!' x ':=' m 'in' k" := (rbind m (fun x => k))
  (at level 10, x pattern, m at level 100, k at level 200).

(** ** The wall clock and the monad of the scripts *)

(** The clock gives the time, in microseconds since the epoch, of its
    [n]-th reading; [reads] counts the readings made so far. *)
Record world := {
  clock : nat -> Z;
  reads : nat
}.

Definition tick (w : world) : world :=
  {| clock := clock w; reads := S (reads w) |}.

(** A computation reads and advances the clock, and returns or raises. *)
Definition io (A : Type) : Type := world -> result A * world.

Definition ret {A} (a : A) : io A := fun w => (Ok a, w).

Definition lift {A} (r : result A) : io A := fun w => (r, w).

Definition bind {A B} (m : io A) (f : A -> io B) : io B :=
  fun w =>
    match m w with
    | (Ok a, w') => f a w'
    | (Raise e, w') => (Raise e, w')
    end.

Notation "'let*' x ':=' m 'in' k" := (bind m (fun x => k))
  (at level 10, x pattern, m at level 100, k at level 200).

(** [datetime.now()], [datetime.utcnow()] and [time.time()] *)
Definition now : io Z := fun w => (Ok (clock w (reads w)), tick w).

(** [try: ... except Exception: ...], with [None] for a caught exception *)
Definition catch {A} (m : io A) : io (option A) :=
  fun w =>
    match m w with
    | (Ok a, w') => (Ok (Some a), w')
    | (Raise _, w') => (Ok None, w')
    end.

(** ** Python strings *)

Module PyStr.

Definition code (c : ascii) : nat := nat_of_ascii c.

Definition between (lo hi : nat) (c : ascii) : bool :=
  (Nat.leb lo (code c)) && (Nat.leb (code c) hi).

(** [c.isdigit()] for an ASCII character; also the class [\d]. *)
Definition isdigit (c : ascii) : bool := between 48 57 c.

Definition isupper (c : ascii) : bool := between 65 90 c.
Definition islower (c : ascii) : bool := between 97 122 c.

(** [c.isalnum()], for an ASCII character *)
Definition isalnum (c : ascii) : bool := isdigit c || isupper c || islower c.

(** [c.isspace()], for an ASCII character: TAB, LF, VT, FF, CR, FS, GS, RS,
    US and the space. *)
Definition isspace (c : ascii) : bool := between 9 13 c || between 28 32 c.

(** [c.isalnum() or c.isspace()] *)
Definition kept (c : ascii) : bool := isalnum c || isspace c.

Definition lower_char (c : ascii) : ascii :=
  if isupper c then ascii_of_nat (code c + 32) else c.

(** [s.lower()], for an ASCII text *)
Fixpoint lower (s : string) : string :=
  match s with
  | EmptyString => EmptyString
  | String c s' => String (lower_char c) (lower s')
  end.

(** [s.upper()] *)
Definition upper_char (c : ascii) : ascii :=
  if islower c then ascii_of_nat (code c - 32) else c.

Fixpoint upper (s : string) : string :=
  match s with
  | EmptyString => EmptyString
  | String c s' => String (upper_char c) (upper s')
  end.

Definition is_empty (s : string) : bool :=
  match s with EmptyString => true | _ => false end.

(** [s.lstrip()] *)
Fixpoint lstrip (s : string) : string :=
  match s with
  | EmptyString => EmptyString
  | String c s' => if isspace c then lstrip s' else s
  end.

(** [s.rstrip()] *)
Fixpoint rstrip (s : string) : string :=
  match s with
  | EmptyString => EmptyString
  | String c s' =>
      let r := rstrip s' in
      if isspace c && is_empty r then EmptyString else String c r
  end.

(** [s.strip()] *)
Definition strip (s : string) : string := rstrip (lstrip s).

(** [c in s] for a one-character string [c] *)
Fixpoint contains_char (c : ascii) (s : string) : bool :=
  match s with
  | EmptyString => false
  | String d s' => Ascii.eqb c d || contains_char c s'
  end.

(** [s.startswith(p)] *)
Fixpoint startswith (s p : string) : bool :=
  match p, s with
  | EmptyString, _ => true
  | String a p', String b s' => Ascii.eqb a b && startswith s' p'
  | String _ _, EmptyString => false
  end.

(** [w in s] *)
Fixpoint contains (w s : string) : bool :=
  startswith s w ||
  match s with
  | EmptyString => false
  | String _ s' => contains w s'
  end.

(** [s.replace(a, b)] for one-character strings [a] and [b] *)
Fixpoint replace_char (a b : ascii) (s : string) : string :=
  match s with
  | EmptyString => EmptyString
  | String c s' => String (if Ascii.eqb c a then b else c) (replace_char a b s')
  end.

(** [''.join(c for c in s if p(c))] *)
Fixpoint filter_chars (p : ascii -> bool) (s : string) : string :=
  match s with
  | EmptyString => EmptyString
  | String c s' => if p c then String c (filter_chars p s') else filter_chars p s'
  end.

(** [s.split()]: the maximal runs of characters that are not white
    space.  A character that is not white space starts a word when it is
    the last one or white space follows it, and otherwise joins the word
    that starts behind it. *)
Fixpoint split (s : string) : list string :=
  match s with
  | EmptyString => nil
  | String c s' =>
      if isspace c then split s'
      else
        match s' with
        | EmptyString => String c EmptyString :: nil
        | String d _ =>
            if isspace d then String c EmptyString :: split s'
            else
              match split s' with
              | w :: ws => String c w :: ws
              | nil => String c EmptyString :: nil
              end
        end
  end.

(** [c * n] for a one-character string [c] *)
Fixpoint times (c : ascii) (n : nat) : string :=
  match n with
  | O => EmptyString
  | S n' => String c (times c n')
  end.

(** [sep.join(ws)] *)
Fixpoint join (sep : string) (ws : list string) : string :=
  match ws with
  | nil => EmptyString
  | w :: nil => w
  | w :: ws' => w +:+ sep +:+ join sep ws'
  end.

(** [s[:n]] for [n >= 0] *)
Fixpoint take (n : nat) (s : string) : string :=
  match n, s with
  | O, _ => EmptyString
  | _, EmptyString => EmptyString
  | S n', String c s' => String c (take n' s')
  end.

Fixpoint drop (n : nat) (s : string) : string :=
  match n, s with
  | O, _ => s
  | _, EmptyString => EmptyString
  | S n', String _ s' => drop n' s'
  end.

Fixpoint all_chars (p : ascii -> bool) (s : string) : bool :=
  match s with
  | EmptyString => true
  | String c s' => p c && all_chars p s'
  end.

Definition digit_value (c : ascii) : Z := Z.of_nat (code c) - 48.

(** The value of a string of decimal digits, most significant first. *)
Fixpoint digits_value_from (acc : Z) (s : string) : Z :=
  match s with
  | EmptyString => acc
  | String c s' => digits_value_from (10 * acc + digit_value c) s'
  end.

Definition digits_value (s : string) : Z := digits_value_from 0 s.

Definition starts_with_space (s : string) : bool :=
  match s with
  | String c _ => isspace c
  | EmptyString => false
  end.


(** The digits of an integer literal: single underscores may separate
    digits. *)
Fixpoint int_body (after_digit : bool) (s : string) : bool :=
  match s with
  | EmptyString => after_digit
  | String c s' =>
      if isdigit c then int_body true s'
      else if Ascii.eqb c "_" then after_digit && int_body false s'
      else false
  end.

(** [sys.get_int_max_str_digits()]: the default limit on the number of
    digits of a decimal text that [int] reads or [str] writes. *)
Definition MAX_STR_DIGITS : nat := 4300.

(** [int(s)] for a text [s] of decimal digits *)
Definition int_of_digits (s : string) : result Z :=
  if Nat.ltb MAX_STR_DIGITS (String.length s) then Raise ValueError
  else Ok (digits_value s).

(** The white space that [int] skips around a number: TAB, LF, VT, FF, CR
    and the space, but not FS, GS, RS and US, which [strip] removes. *)
Definition int_space (c : ascii) : bool := between 9 13 c || Ascii.eqb c " ".

Fixpoint int_lskip (s : string) : string :=
  match s with
  | EmptyString => EmptyString
  | String c s' => if int_space c then int_lskip s' else s
  end.

Fixpoint int_rskip (s : string) : string :=
  match s with
  | EmptyString => EmptyString
  | String c s' =>
      let r := int_rskip s' in
      if int_space c && is_empty r then EmptyString else String c r
  end.

(** [int(s)] for a string: white space around the number, a sign, and
    decimal digits, at most [MAX_STR_DIGITS] of them. *)
Definition int_of_str (s : string) : result Z :=
  let s := int_rskip (int_lskip s) in
  let '(negative, body) :=
    match s with
    | String "-" s' => (true, s')
    | String "+" s' => (false, s')
    | _ => (false, s)
    end in
  if int_body false body then
    let v := int_of_digits (filter_chars isdigit body) in
    match v with
    | Ok v => Ok (if negative then - v else v)
    | Raise e => Raise e
    end
  else Raise ValueError.

(** [s.isascii()] *)
Definition isascii (s : string) : bool := all_chars (between 0 127) s.

End PyStr.

(** ** The fragment of [re] that the scrapers use *)

Module Re.

(** Patterns.  [Digits lo hi] is [\d{lo,hi}], and [\d+] when [hi] is [None].
    [Eos] is [$], which matches at the end of the text and also just before
    a line feed that ends the text. *)
Inductive regex :=
| Lit (s : string)
| Digits (lo : nat) (hi : option nat)
| Seq (r1 r2 : regex)
| Alt (r1 r2 : regex)
| Opt (r : regex)
| Eos.

(** The comparison of a character of the pattern with a character of the
    text; with [re.I] the case of ASCII letters is ignored. *)
Definition char_eq (ignorecase : bool) (a b : ascii) : bool :=
  if ignorecase then Ascii.eqb (PyStr.lower_char a) (PyStr.lower_char b)
  else Ascii.eqb a b.

(** A literal, read off the front of the text. *)
Fixpoint lit (ignorecase : bool) (p s : string) : option string :=
  match p, s with
  | EmptyString, _ => Some s
  | String a p', String b s' =>
      if char_eq ignorecase a b then lit ignorecase p' s' else None
  | String _ _, EmptyString => None
  end.

Definition dec (hi : option nat) : option nat :=
  match hi with
  | Some n => Some (Nat.pred n)
  | None => None
  end.

Definition exhausted (hi : option nat) : bool :=
  match hi with
  | Some O => true
  | _ => false
  end.

(** Greedy repetition of [\d], on an ASCII text the digits 0 to 9, with
    backtracking: the longest run is tried first, and a shorter one when
    the continuation [k] rejects it. *)
Fixpoint digits {A} (lo : nat) (hi : option nat) (s : string)
         (k : string -> option A) : option A :=
  let stop := match lo with O => k s | S _ => None end in
  match s with
  | EmptyString => stop
  | String c s' =>
      if PyStr.isdigit c && negb (exhausted hi) then
        match digits (Nat.pred lo) (dec hi) s' k with
        | Some a => Some a
        | None => stop
        end
      else stop
  end.

Definition at_end (s : string) : bool :=
  match s with
  | EmptyString => true
  | String c EmptyString => Ascii.eqb c "010"%char
  | _ => false
  end.

(** The backtracking matcher, in continuation-passing style: [k] receives
    the text that is left after the pattern. *)
Fixpoint run {A} (ignorecase : bool) (r : regex) (s : string)
         (k : string -> option A) : option A :=
  match r with
  | Lit p =>
      match lit ignorecase p s with
      | Some s' => k s'
      | None => None
      end
  | Digits lo hi => digits lo hi s k
  | Seq r1 r2 => run ignorecase r1 s (fun s' => run ignorecase r2 s' k)
  | Alt r1 r2 =>
      match run ignorecase r1 s k with
      | Some a => Some a
      | None => run ignorecase r2 s k
      end
  | Opt r1 =>
      match run ignorecase r1 s k with
      | Some a => Some a
      | None => k s
      end
  | Eos => if at_end s then k s else None
  end.

(** [pattern.match(s)]: the text matched at the start of [s], if any. *)
Definition match_ (ignorecase : bool) (r : regex) (s : string) : option string :=
  match run ignorecase r s (fun rest => Some rest) with
  | Some rest => Some (PyStr.take (String.length s - String.length rest) s)
  | None => None
  end.

(** [re.search(pattern, s)]: the leftmost match. *)
Fixpoint search (ignorecase : bool) (r : regex) (s : string) : option string :=
  match match_ ignorecase r s with
  | Some m => Some m
  | None =>
      match s with
      | EmptyString => None
      | String _ s' => search ignorecase r s'
      end
  end.

Definition truthy {A} (m : option A) : bool :=
  match m with Some _ => true | None => false end.

(** What a pattern accepts: [accepts ignorecase r s rest] tells that [r]
    matches a text at the start of [s] that is followed by [rest]. *)
Fixpoint accepts (ignorecase : bool) (r : regex) (s rest : string) : Prop :=
  match r with
  | Lit p => lit ignorecase p s = Some rest
  | Digits lo hi =>
      exists d,
        s = d +:+ rest /\ PyStr.all_chars PyStr.isdigit d = true /\
        (lo <= String.length d)%nat /\
        (forall h, hi = Some h -> (String.length d <= h)%nat)
  | Seq r1 r2 =>
      exists mid, accepts ignorecase r1 s mid /\ accepts ignorecase r2 mid rest
  | Alt r1 r2 => accepts ignorecase r1 s rest \/ accepts ignorecase r2 s rest
  | Opt r1 => accepts ignorecase r1 s rest \/ rest = s
  | Eos => rest = s /\ at_end s = true
  end.

End Re.

(** ** Python floats and numbers *)

Module PyFloat.

Definition prec : Z := 53.
Definition emax : Z := 1024.

Definition float := spec_float.

(** The binary64 number nearest to [a / b] for integers [a > 0] and
    [b > 0], ties to even, with sign [s]; an infinity when the quotient is
    too large. *)
Definition round_quotient (s : bool) (a b : Z) : float :=
  let '(q, e, l) := SFdiv_core_binary prec emax a 0 b 0 in
  binary_round_aux prec emax s q e l.

(** The binary64 number nearest to an integer. *)
Definition nearest (z : Z) : float := binary_normalize prec emax z 0 false.

(** [float(z)] for an [int]: it raises where the nearest number would be
    an infinity. *)
Definition of_int (z : Z) : result float :=
  match nearest z with
  | S754_infinity _ => Raise OverflowError
  | f => Ok f
  end.

(** [a / b] on two [int]s: the quotient is rounded once. *)
Definition int_true_divide (a b : Z) : result float :=
  if b =? 0 then Raise ZeroDivisionError
  else if a =? 0 then Ok (S754_zero (b <? 0))
  else
    match round_quotient (xorb (a <? 0) (b <? 0)) (Z.abs a) (Z.abs b) with
    | S754_infinity _ => Raise OverflowError
    | f => Ok f
    end.

(** The part of a text before and after its first full stop. *)
Fixpoint split_point (s : string) : string * string :=
  match s with
  | EmptyString => (EmptyString, EmptyString)
  | String c s' =>
      if Ascii.eqb c "."%char then (EmptyString, s')
      else let '(i, f) := split_point s' in (String c i, f)
  end.

(** [float(text)] for a text of the form [\d+(\.\d+)?]: the conversion is
    correctly rounded and gives [inf], without an exception, when the
    number is too large. *)
Definition of_decimal (text : string) : float :=
  let '(i, f) := split_point text in
  let m := PyStr.digits_value (i +:+ f) in
  if m =? 0 then S754_zero false
  else round_quotient false m (10 ^ Z.of_nat (String.length f)).

Definition mul (x y : float) : float := SFmul prec emax x y.

(** [x / y] on floats *)
Definition div (x y : float) : result float :=
  match y with
  | S754_zero _ => Raise ZeroDivisionError
  | _ => Ok (SFdiv prec emax x y)
  end.

Definition ltb (x y : float) : bool := SFltb x y.

(** [x < 0] *)
Definition negative (x : float) : bool := ltb x (S754_zero false).

Definition is_nan (x : float) : bool :=
  match x with
  | S754_nan => true
  | _ => false
  end.

(** [x] is a number, not a NaN, and its sign bit is [s]. *)
Definition has_sign (s : bool) (x : float) : Prop :=
  match x with
  | S754_zero s' | S754_infinity s' | S754_finite s' _ _ => s' = s
  | S754_nan => False
  end.

(** [max(x, y)] on floats: the first argument unless the second is greater *)
Definition max (x y : float) : float := if ltb x y then y else x.

(** [int(x)]: truncation towards zero *)
Definition to_int (x : float) : result Z :=
  match x with
  | S754_zero _ => Ok 0
  | S754_infinity _ => Raise OverflowError
  | S754_nan => Raise ValueError
  | S754_finite s m e =>
      let v := match e with
               | Zneg p => Zpos m / 2 ^ Zpos p
               | _ => Zpos m * 2 ^ e
               end in
      Ok (if s then - v else v)
  end.

(** The integer nearest to [num / den], ties to even, for [num >= 0] and
    [den > 0]. *)
Definition round_half_even (num den : Z) : Z :=
  let q := num / den in
  match 2 * (num mod den) ?= den with
  | Lt => q
  | Gt => q + 1
  | Eq => if Z.even q then q else q + 1
  end.

(** [round(x, ndigits)] for [ndigits >= 0]: the exact value of [x] is
    rounded to [ndigits] decimal places, ties to even, and the decimal
    result is converted back to a float. *)
Definition round_ndigits (x : float) (ndigits : nat) : float :=
  match x with
  | S754_finite s m e =>
      let scale := 10 ^ Z.of_nat ndigits in
      let n := match e with
               | Zneg p => round_half_even (Zpos m * scale) (2 ^ Zpos p)
               | _ => Zpos m * 2 ^ e * scale
               end in
      if n =? 0 then S754_zero s else round_quotient s n scale
  | _ => x
  end.

(** A Python number: the score of a record is an [int] or a [float]. *)
Inductive number :=
| Int (z : Z)
| Float (f : float).

(** [z < f] for an [int] and a [float]; Python compares the exact values. *)
Definition int_lt_float (z : Z) (f : float) : bool :=
  match f with
  | S754_nan => false
  | S754_infinity s => negb s
  | S754_zero _ => z <? 0
  | S754_finite s m e =>
      let v := if s then Zneg m else Zpos m in
      match e with
      | Zneg p => z * 2 ^ Zpos p <? v
      | _ => z <? v * 2 ^ e
      end
  end.

Definition float_lt_int (f : float) (z : Z) : bool :=
  match f with
  | S754_nan => false
  | S754_infinity s => s
  | S754_zero _ => 0 <? z
  | S754_finite s m e =>
      let v := if s then Zneg m else Zpos m in
      match e with
      | Zneg p => v <? z * 2 ^ Zpos p
      | _ => v * 2 ^ e <? z
      end
  end.

Definition number_lt (a b : number) : bool :=
  match a, b with
  | Int x, Int y => x <? y
  | Int x, Float g => int_lt_float x g
  | Float f, Int y => float_lt_int f y
  | Float f, Float g => ltb f g
  end.

(** [min(a, b)]: the first argument unless the second is smaller *)
Definition min (a b : number) : number := if number_lt b a then b else a.

(** [lo <= x <= hi] for a number [x] that is not a NaN *)
Definition within (lo hi : Z) (x : number) : Prop :=
  number_lt x (Int lo) = false /\ number_lt (Int hi) x = false /\
  match x with
  | Float f => is_nan f = false
  | Int _ => True
  end.

Definition f_1000 : float := Eval vm_compute in nearest 1000.
Definition f_3600 : float := Eval vm_compute in nearest 3600.
Definition f_1000000 : float := Eval vm_compute in nearest 1000000.
Definition f_0_25 : float := Eval vm_compute in of_decimal "0.25".

End PyFloat.

(** ** Dictionaries read from CSV and JSON *)

(** A cell of a [csv.DictReader] row, or a field of a JSON object: the key
    may be missing, may hold [None], or may hold a text. *)
Inductive cell :=
| Absent
| Null
| Text (s : string).

(** [d.get(key, default)] *)
Definition get (c : cell) (default : string) : option string :=
  match c with
  | Absent => Some default
  | Null => None
  | Text s => Some s
  end.

(** [d.get(key) or ""] *)
Definition get_or_empty (c : cell) : string :=
  match c with
  | Text s => s
  | _ => EmptyString
  end.

(** ** [list.sort(key=..., reverse=True)] *)

(** Python's sort is stable, and with [reverse=True] records with equal
    keys still keep their original order.  Whenever [<] is a strict weak
    order on the keys this determines the outcome, which is computed here by
    insertion from the right: a record moves behind the records with a
    strictly greater key, and stays in front of all others. *)
Section Sort.
Context {A K : Type} (key : A -> K) (lt : K -> K -> bool).

Fixpoint insert_desc (x : A) (l : list A) : list A :=
  match l with
  | nil => x :: nil
  | y :: l' => if lt (key x) (key y) then y :: insert_desc x l' else x :: l
  end.

Definition sort_reverse (l : list A) : list A :=
  List.fold_right insert_desc nil l.

(** No record is followed, anywhere behind it, by one with a strictly
    greater key. *)
Definition descending (l : list A) : Prop :=
  StronglySorted (fun a b => lt (key a) (key b) = false) l.

(** The key of [r] is neither smaller nor greater than [k]. *)
Definition same_rank (k : K) (r : A) : bool :=
  negb (lt k (key r)) && negb (lt (key r) k).

(** The records of every rank are in the same order in [l] and [l']. *)
Definition stable (l l' : list A) : Prop :=
  forall r, In r l ->
    List.filter (same_rank (key r)) l' = List.filter (same_rank (key r)) l.
End Sort.

(** ** scripts/python/scrape_google_trends.py *)

Module GoogleTrends.

Definition MIN_SEARCH_VOLUME : Z := 5000.

(** [(\d+(?:\.\d+)?)] *)
Definition NUMBER_RE : Re.regex :=
  Re.Seq (Re.Digits 1 None) (Re.Opt (Re.Seq (Re.Lit ".") (Re.Digits 1 None))).

(** [(\d+)] *)
Definition DIGITS_RE : Re.regex := Re.Digits 1 None.


(** [parse_search_volume]; the argument is [None] where the cell of the
    row holds Python's [None]. *)
Definition parse_search_volume (volume_str : option string) : result Z :=
  match volume_str with
  | None => Ok 0
  | Some volume_str =>
      if PyStr.is_empty volume_str || PyStr.is_empty (PyStr.strip volume_str)
      then Ok 0
      else
        let volume_str := PyStr.lower (PyStr.strip volume_str) in
        if PyStr.contains_char "m" volume_str then
          match Re.search false NUMBER_RE volume_str with
          | Some number =>
              PyFloat.to_int (PyFloat.mul (PyFloat.of_decimal number) PyFloat.f_1000000)
          | None => Ok 0
          end
        else if PyStr.contains_char "k" volume_str then
          match Re.search false NUMBER_RE volume_str with
          | Some number =>
              PyFloat.to_int (PyFloat.mul (PyFloat.of_decimal number) PyFloat.f_1000)
          | None => Ok 0
          end
        else
          match Re.search false DIGITS_RE volume_str with
          | Some number => PyStr.int_of_digits number
          | None => Ok 0
          end
  end.

Record csv_row := {
  Trends : cell;
  Search_volume : cell
}.

Record trend := {
  source : string;
  title : string;
  url : string;
  region : string;
  observed_at : Z;
  raw_metric : Z
}.

(** The search volume that the loop reads in a row, and whether it
    reaches the threshold. *)
Definition search_volume_of (row : csv_row) : result Z :=
  parse_search_volume (get (Search_volume row) "0").

Definition reaches_threshold (row : csv_row) : bool :=
  match search_volume_of row with
  | Ok v => MIN_SEARCH_VOLUME <=? v
  | Raise _ => false
  end.

(** A row that the loop reads without an exception. *)
Definition readable (row : csv_row) : Prop :=
  (exists v, search_volume_of row = Ok v) /\
  (reaches_threshold row = true -> Trends row <> Null).

(** What the loop appends for a row that it keeps. *)
Definition emitted (region_ : string) (row : csv_row) (t : trend) : Prop :=
  get (Trends row) "Unknown" = Some (title t) /\
  source t = "google_trends" /\
  region t = region_ /\
  raw_metric t = 1.

(** The loop of [process_csv_to_schema].  The clock is read, by
    [datetime.now()], in the dictionary display of every row that is
    kept. *)
Fixpoint process_rows (region : string) (rows : list csv_row) (trends : list trend)
  : io (list trend) :=
  match rows with
  | nil => ret trends
  | row :: rows' =>
      let volume_str := get (Search_volume row) "0" in
      let* search_volume := lift (parse_search_volume volume_str) in
      if MIN_SEARCH_VOLUME <=? search_volume then
        let* trend_name :=
          lift match get (Trends row) "Unknown" with
               | Some name => Ok name
               | None => Raise AttributeError
               end in
        let* observed_at := now in
        process_rows region rows'
          (trends ++ [{| source := "google_trends";
                         title := trend_name;
                         url := "https://www.google.com/search?q="
                                +:+ PyStr.replace_char " " "+" trend_name;
                         region := region;
                         observed_at := observed_at;
                         raw_metric := 1 |}])
      else process_rows region rows' trends
  end.

(** [process_csv_to_schema]: [file] is [None] when the path does not exist.
    Every exception is caught and turned into [None], which is also the
    result when no row is kept. *)
Definition process_csv_to_schema (file : option (list csv_row)) (region : string)
  : io (option (list trend)) :=
  match file with
  | None => ret None
  | Some rows =>
      let* r := catch (process_rows region rows nil) in
      match r with
      | Some (t :: trends) => ret (Some (t :: trends))
      | _ => ret None
      end
  end.

(** The link of a record is made from its title. *)
Definition linked (t : trend) : Prop :=
  url t = "https://www.google.com/search?q=" +:+ PyStr.replace_char " " "+" (title t).

(** A row at which the loop raises: the search volume cannot be converted,
    or the row is kept and its cell [Trends] holds [None]. *)
Definition unreadable (row : csv_row) : Prop :=
  (exists e, search_volume_of row = Raise e) \/
  (reaches_threshold row = true /\ Trends row = Null).

End GoogleTrends.

(** ** scripts/ingest_wikipedia_trends.py *)

Module Wikipedia.

Definition MONTHS : Re.regex :=
  Re.Alt (Re.Lit "January") (Re.Alt (Re.Lit "February") (Re.Alt (Re.Lit "March")
  (Re.Alt (Re.Lit "April") (Re.Alt (Re.Lit "May") (Re.Alt (Re.Lit "June")
  (Re.Alt (Re.Lit "July") (Re.Alt (Re.Lit "August") (Re.Alt (Re.Lit "September")
  (Re.Alt (Re.Lit "October") (Re.Alt (Re.Lit "November") (Re.Lit "December"))))))))))).

(** The patterns are only used with [match], which anchors them at the
    start of the title, so their leading [^] is left out.  All but
    [YEAR_RE] are compiled with [re.I]. *)

(** [^(January|...|December)_(\d{1,2})(,_\d{4})?$] *)
Definition DATE_RE : Re.regex :=
  Re.Seq MONTHS (Re.Seq (Re.Lit "_") (Re.Seq (Re.Digits 1 (Some 2%nat))
    (Re.Seq (Re.Opt (Re.Seq (Re.Lit ",_") (Re.Digits 4 (Some 4%nat)))) Re.Eos))).

(** [^\d{4}$] *)
Definition YEAR_RE : Re.regex := Re.Seq (Re.Digits 4 (Some 4%nat)) Re.Eos.

(** [^\d{4}_in_] *)
Definition YEAR_IN_RE : Re.regex := Re.Seq (Re.Digits 4 (Some 4%nat)) (Re.Lit "_in_").

(** [^List_of_] *)
Definition LIST_RE : Re.regex := Re.Lit "List_of_".

(** [^Deaths_in_\d{4}$] *)
Definition DEATHS_RE : Re.regex :=
  Re.Seq (Re.Lit "Deaths_in_") (Re.Seq (Re.Digits 4 (Some 4%nat)) Re.Eos).

Definition STOP_TITLES : gset string := {[ "Main_Page" ]}.
Definition STOP_PREFIXES : list string := [ "Special:" ].
Definition STOP_NAMESPACES : list string :=
  [ "Wikipedia:"; "Help:"; "Category:"; "Talk:"; "Portal:"; "File:"; "Template:";
    "User:"; "Draft:"; "Module:"; "MediaWiki:"; "TimedText:"; "Book:"; "Gadget:";
    "Topic:" ].

Definition INAPPROPRIATE_WORDS : gset string :=
  {[ "xxx"; ".xxx"; "porn"; "sex"; "adult"; "nsfw"; "explicit"; "mature" ]}.

Definition looks_like_noise (title : string) : bool :=
  if bool_decide (title ∈ STOP_TITLES) then true
  else if existsb (PyStr.startswith title) STOP_PREFIXES then true
  else if existsb (fun ns => PyStr.startswith title ns) STOP_NAMESPACES then true
  else if PyStr.contains_char ":" title then true
  else if Re.truthy (Re.match_ true DATE_RE title) then true
  else if Re.truthy (Re.match_ false YEAR_RE title) then true
  else if Re.truthy (Re.match_ true YEAR_IN_RE title) then true
  else if Re.truthy (Re.match_ true LIST_RE title) then true
  else if Re.truthy (Re.match_ true DEATHS_RE title) then true
  else
    let title_lower := PyStr.lower title in
    if existsb (fun word => PyStr.contains word title_lower) (elements INAPPROPRIATE_WORDS)
    then true
    else false.

(** [to_slug] *)
Definition to_slug (text : string) : string :=
  PyStr.replace_char "_" "-" (PyStr.replace_char " " "-" (PyStr.lower text)).

(** What [wiki_summary] returns for a page. *)
Record summary := {
  s_type : option string;
  s_title : option string;
  s_canonical : option string;
  s_description : option string;
  s_thumbnail : option string
}.

(** An entry of the page view listing: [a["article"]] and
    [a.get("views", 0)]. *)
Record pageview := {
  article : string;
  views : Z
}.

Record item := {
  i_title : string;
  i_views : Z
}.

(** A record of [fetch_wiki_top_real] *)
Record real_article := {
  a_source : string;
  a_title : option string;
  a_url : string;
  a_region : string;
  a_raw_metric : Z;
  a_description : option string;
  a_thumbnail : option string;
  a_lang : string
}.

(** A record of [extract_trending_topics] *)
Record topic := {
  source : string;
  title : option string;
  slug : string;
  url : string;
  region : string;
  observed_at : Z;
  raw_metric : string;
  score : PyFloat.number;
  description : option string;
  thumbnail : option string;
  lang : string
}.

(** [str(z)], for an integer of at most [PyStr.MAX_STR_DIGITS] digits;
    beyond that the interpreter raises.  The normalizer applies it to a raw
    metric only after the division by 1000 has given a float, so to an
    integer of less than 312 digits. *)
Definition str (z : Z) : string := NilZero.string_of_int (Z.to_int z).

Definition nonempty (o : option string) : option string :=
  match o with
  | Some EmptyString => None
  | _ => o
  end.

Section Fetch.
(** The summary service, which answers [None] where the request fails,
    and [urllib.parse.quote]. *)
Variable wiki_summary : string -> string -> option summary.
Variable quote : string -> string.

(** Step 1 of [fetch_wiki_top_real]: the titles that are not noise. *)
Definition candidates (days : list (list pageview)) : list item :=
  List.map (fun a => {| i_title := article a; i_views := views a |})
    (List.filter (fun a => negb (looks_like_noise (article a))) (List.concat days)).

(** Step 2: one request for each of the first candidates; only the
    standard pages are kept. *)
Definition verify (lang : string) (it : item) : list real_article :=
  match wiki_summary (i_title it) lang with
  | None => nil
  | Some s =>
      if bool_decide (s_type s = Some "standard") then
        [ {| a_source := "wikipedia";
             a_title := s_title s;
             a_url := match nonempty (s_canonical s) with
                      | Some u => u
                      | None => "https://" +:+ lang +:+ ".wikipedia.org/wiki/"
                                 +:+ quote (i_title it)
                      end;
             a_region := "GLOBAL";
             a_raw_metric := i_views it;
             a_description := s_description s;
             a_thumbnail := s_thumbnail s;
             a_lang := lang |} ]
      else nil
  end.

Definition verified (lang : string) (max_items max_summaries : nat)
           (days : list (list pageview)) : list real_article :=
  List.concat
    (List.map (verify lang)
       (List.firstn max_summaries (List.firstn max_items (candidates days)))).

(** [fetch_wiki_top_real], on the answer [days] of the page view
    service. *)
Definition fetch_wiki_top_real (lang : string) (max_items max_summaries : nat)
           (days : list (list pageview)) : list real_article :=
  sort_reverse a_raw_metric Z.ltb (verified lang max_items max_summaries days).
End Fetch.

(** The score of an article with [raw_metric] views:
    [min(raw_metric / 1000, 1000)] *)
Definition score_of (raw_metric : Z) : result PyFloat.number :=
  let! q := PyFloat.int_true_divide raw_metric 1000 in
  Ok (PyFloat.min (PyFloat.Float q) (PyFloat.Int 1000)).

Definition normalize (observed_at : Z) (a : real_article) : result topic :=
  let! score := score_of (a_raw_metric a) in
  match a_title a with
  | None => Raise AttributeError
  | Some t =>
      Ok {| source := a_source a;
            title := a_title a;
            slug := to_slug t;
            url := a_url a;
            region := a_region a;
            observed_at := observed_at;
            raw_metric := str (a_raw_metric a);
            score := score;
            description := a_description a;
            thumbnail := a_thumbnail a;
            lang := a_lang a |}
  end.

Fixpoint normalize_all (observed_at : Z) (articles : list real_article)
         (topics : list topic) : result (list topic) :=
  match articles with
  | nil => Ok topics
  | a :: articles' =>
      let! t := normalize observed_at a in
      normalize_all observed_at articles' (topics ++ [t])
  end.

(** [extract_trending_topics]: the clock is read once, before the loop. *)
Definition extract_trending_topics (articles : list real_article) : io (list topic) :=
  let* observed_at := now in
  lift (normalize_all observed_at articles nil).

End Wikipedia.

(** ** scripts/ingest_youtube_trends.py *)

Module YouTube.

(** An item of the API answer: [video.get('id')], and the fields of
    [video.get('snippet', {})] and [video.get('statistics', {})] that are
    read. *)
Record video := {
  id : option string;
  snippet_title : cell;
  snippet_channelTitle : cell;
  snippet_publishedAt : cell;
  snippet_description : cell;
  statistics_viewCount : cell
}.

Record topic := {
  source : string;
  title : string;
  slug : string;
  url : string;
  region : string;
  observed_at : Z;
  raw_metric : Z;
  score : PyFloat.number;
  channel : option string;
  published_at : option string;
  description : string
}.

(** The slug of a title, for an ASCII title: the first five words of its
    letters and digits. *)
Definition slug_of (title : string) : string :=
  let slug := PyStr.lower title in
  let slug := PyStr.filter_chars (fun c => PyStr.isalnum c || PyStr.isspace c) slug in
  PyStr.join "-" (List.firstn 5 (PyStr.split slug)).

(** [int(statistics.get('viewCount', 0))] *)
Definition view_count_of (c : cell) : result Z :=
  match c with
  | Absent => Ok 0
  | Null => Raise TypeError
  | Text s => PyStr.int_of_str s
  end.

(** [f"{video.get('id')}"] *)
Definition format_id (i : option string) : string :=
  match i with
  | Some s => s
  | None => "None"
  end.

(** The body of the [try] block of the loop: [Ok None] stands for
    [continue]. *)
Definition normalize (observed_at : Z) (v : video) : result (option topic) :=
  match get (snippet_title v) "" with
  | None => Raise AttributeError
  | Some t =>
      let title := PyStr.strip t in
      if PyStr.is_empty title then Ok None
      else
        let! view_count := view_count_of (statistics_viewCount v) in
        let slug := slug_of title in
        let! q := PyFloat.int_true_divide view_count 1000 in
        let score := PyFloat.min (PyFloat.Float q) (PyFloat.Int 1000) in
        match get (snippet_description v) "" with
        | None => Raise TypeError
        | Some d =>
            Ok (Some {| source := "youtube";
                        title := title;
                        slug := slug;
                        url := "https://www.youtube.com/watch?v=" +:+ format_id (id v);
                        region := "US";
                        observed_at := observed_at;
                        raw_metric := view_count;
                        score := score;
                        channel := get (snippet_channelTitle v) "";
                        published_at := get (snippet_publishedAt v) "";
                        description := PyStr.take 200 d |})
        end
  end.

(** The topics that the loop appends for a video: one, or none. *)
Definition appended (observed_at : Z) (v : video) : list topic :=
  match normalize observed_at v with
  | Ok (Some t) => t :: nil
  | _ => nil
  end.

(** The loop: an exception in the body is caught, and the video skipped. *)
Fixpoint normalize_all (observed_at : Z) (videos : list video) (topics : list topic)
  : list topic :=
  match videos with
  | nil => topics
  | v :: videos' =>
      match normalize observed_at v with
      | Ok (Some t) => normalize_all observed_at videos' (topics ++ [t])
      | Ok None | Raise _ => normalize_all observed_at videos' topics
      end
  end.

(** [extract_trending_topics]: the clock is read once, before the loop. *)
Definition extract_trending_topics (videos : list video) : io (list topic) :=
  let* observed_at := now in
  ret (normalize_all observed_at videos nil).

End YouTube.

(** ** scripts/python/scrape_reddit_enhanced.py *)

Module Reddit.

(** The fields of [child.get("data", {})] that are read.  Times are in
    microseconds since the epoch. *)
Record post := {
  p_title : cell;
  p_permalink : cell;
  p_url_overridden_by_dest : cell;
  p_subreddit : cell;
  p_created_utc : option Z;
  p_score : option Z;
  p_num_comments : option Z;
  p_stickied : bool;
  p_removed_by_category : cell
}.

Record row := {
  source : string;
  title : string;
  url : string;
  region : string;
  observed_at : Z;
  raw_metric : PyFloat.float;
  subreddit : string;
  score : Z;
  age_hours : PyFloat.float;
  num_comments : Z;
  listing_type : string
}.

Definition truthy (c : cell) : bool :=
  match c with
  | Text (String _ _) => true
  | _ => false
  end.

Definition default (o : option Z) (d : Z) : Z :=
  match o with
  | Some z => z
  | None => d
  end.

(** The fields of a row that are computed from the age and the score of a
    post: [age_h], [score] and [velocity].  The times of the interpreter
    are bounded, see [MAX_TIMESTAMP], and between such times the division
    is far from an overflow. *)
Definition age_h_of (now created_utc : Z) : result PyFloat.float :=
  let! total_seconds := PyFloat.int_true_divide (now - created_utc) 1000000 in
  let! hours := PyFloat.div total_seconds PyFloat.f_3600 in
  Ok (PyFloat.max hours PyFloat.f_0_25).

Definition velocity_of (score age_h : PyFloat.float) : result PyFloat.float :=
  PyFloat.div score age_h.

(** The body of the loop of [normalize_items], behind the [continue]. *)
Definition normalize (now_ : Z) (kind : string) (d : post) : io row :=
  let title := get_or_empty (p_title d) in
  let permalink := get_or_empty (p_permalink d) in
  let url := if PyStr.is_empty permalink
             then get_or_empty (p_url_overridden_by_dest d)
             else "https://reddit.com" +:+ permalink in
  let subreddit := get_or_empty (p_subreddit d) in
  let* time_time := now in
  let created_utc := default (p_created_utc d) time_time in
  let* age_h := lift (age_h_of now_ created_utc) in
  let* score := lift (PyFloat.of_int (default (p_score d) 0)) in
  let comments := default (p_num_comments d) 0 in
  let* velocity := lift (velocity_of score age_h) in
  let* int_score := lift (PyFloat.to_int score) in
  ret {| source := "reddit";
         title := title;
         url := url;
         region := "GLOBAL";
         observed_at := now_ - now_ mod 1000000;
         raw_metric := PyFloat.round_ndigits velocity 4;
         subreddit := subreddit;
         score := int_score;
         age_hours := PyFloat.round_ndigits age_h 2;
         num_comments := comments;
         listing_type := kind |}.

Fixpoint normalize_children (now_ : Z) (kind : string) (children : list (option post))
         (out : list row) : io (list row) :=
  match children with
  | nil => ret out
  | child :: children' =>
      match child with
      | None => normalize_children now_ kind children' out
      | Some d =>
          if p_stickied d || truthy (p_removed_by_category d)
          then normalize_children now_ kind children' out
          else
            let* r := normalize now_ kind d in
            normalize_children now_ kind children' (out ++ [r])
      end
  end.

(** [normalize_items]: a child is [None] where it has no data. *)
Definition normalize_items (children : list (option post)) (kind : string)
  : io (list row) :=
  let* now_ := now in
  normalize_children now_ kind children nil.



Definition key_of (r : row) : string * string :=
  (PyStr.lower (title r), PyStr.lower (subreddit r)).

Definition has_key (k : string * string) (r : row) : bool :=
  bool_decide (key_of r = k).

(** The loop of [write_combined_csv] that removes the duplicates *)
Definition dedup_step (st : gset (string * string) * list row) (r : row)
  : gset (string * string) * list row :=
  let '(seen, unique_rows) := st in
  let key := key_of r in
  if bool_decide (key ∈ seen) then st
  else ({[ key ]} ∪ seen, unique_rows ++ [r]).

Definition unique (all_rows : list row) : list row :=
  snd (List.fold_left dedup_step all_rows (∅, nil)).

(** The invariant of the loop: [seen] holds the keys of [unique_rows], which
    are pairwise distinct. *)
Definition dedup_invariant (st : gset (string * string) * list row) : Prop :=
  (forall k, k ∈ fst st <-> exists r, In r (snd st) /\ key_of r = k) /\
  List.NoDup (List.map key_of (snd st)).

(** [write_combined_csv]: the rows that are written, in order.  The clock
    is read for the name of the file. *)
Definition write_combined_csv (all_rows : list row) : io (list row) :=
  let* ts := now in
  ret (sort_reverse raw_metric PyFloat.ltb (unique all_rows)).

(** One listing of [main]: a failed request and an exception in
    [normalize_items] both leave [all_rows] as it is. *)
Definition listing_rows (answer : option (list (option post))) (kind : string)
  : io (list row) :=
  match answer with
  | None => ret nil
  | Some children =>
      let* r := catch (normalize_items children kind) in
      match r with
      | Some rows => ret rows
      | None => ret nil
      end
  end.

(** [all_rows], once both listings are read *)
Definition fetch_all (rising hot : option (list (option post))) : io (list row) :=
  let* rising_rows := listing_rows rising "rising" in
  let* hot_rows := listing_rows hot "hot" in
  ret (rising_rows ++ hot_rows).

(** [main], behind the token: the rows of the file, or [None] where no
    file is written. *)
Definition main (rising hot : option (list (option post))) : io (option (list row)) :=
  let* all_rows := fetch_all rising hot in
  match all_rows with
  | nil => ret None
  | _ => let* rows := write_combined_csv all_rows in ret (Some rows)
  end.

(** The fields of a row that are copied from its post. *)
Definition copied (kind : string) (d : post) (r : row) : Prop :=
  source r = "reddit" /\
  title r = get_or_empty (p_title d) /\
  url r = (if PyStr.is_empty (get_or_empty (p_permalink d))
           then get_or_empty (p_url_overridden_by_dest d)
           else "https://reddit.com" +:+ get_or_empty (p_permalink d)) /\
  region r = "GLOBAL" /\
  subreddit r = get_or_empty (p_subreddit d) /\
  num_comments r = default (p_num_comments d) 0 /\
  listing_type r = kind.

(** A child that the loop of [normalize_items] does not skip. *)
Definition passes (child : option post) : bool :=
  match child with
  | None => false
  | Some d => negb (p_stickied d || truthy (p_removed_by_category d))
  end.

(** [len([r for r in all_rows if r["listing_type"] == kind])], the counts
    of the summary that [main] prints *)
Definition count_listing (kind : string) (all_rows : list row) : nat :=
  length (List.filter (fun r => String.eqb (listing_type r) kind) all_rows).

(** [sorted(all_rows, key=lambda x: x["raw_metric"], reverse=True)[:5]],
    the top five that [main] prints *)
Definition top_5 (all_rows : list row) : list row :=
  List.firstn 5 (sort_reverse raw_metric PyFloat.ltb all_rows).

End Reddit.

(** ** The specification, in its own words *)

Module Spec.

(** A separator of the slug: white space or an underscore. *)
Definition separator (c : ascii) : bool := PyStr.isspace c || Ascii.eqb c "_".

(** Every run of separators becomes one hyphen; [in_run] tells that the
    previous character was a separator. *)
Fixpoint hyphenate (in_run : bool) (s : string) : string :=
  match s with
  | EmptyString => EmptyString
  | String c s' =>
      if separator c then
        if in_run then hyphenate true s' else String "-" (hyphenate true s')
      else String c (hyphenate false s')
  end.

(** "lower-casing the title and replacing whitespace and underscore runs
    with a single hyphen" *)
Definition slug (title : string) : string := hyphenate false (PyStr.lower title).

(** "min(raw_metric / 1000, 1000)", with Python's division and minimum *)
Definition score (raw_metric : Z) : result PyFloat.number :=
  let! ratio := PyFloat.int_true_divide raw_metric 1000 in
  Ok (PyFloat.min (PyFloat.Float ratio) (PyFloat.Int 1000)).

(** Every separator of [s] is a space or an underscore, and no two
    separators are next to each other; [after_separator] tells that the
    previous character was one. *)
Fixpoint singly (after_separator : bool) (s : string) : bool :=
  match s with
  | EmptyString => true
  | String c s' =>
      if separator c then
        (Ascii.eqb c " " || Ascii.eqb c "_") && negb after_separator && singly true s'
      else singly false s'
  end.

(** [s] is made of letters, digits and white space, and neither starts nor
    ends with white space. *)
Definition plain (s : string) : Prop :=
  PyStr.all_chars (fun c => PyStr.isalnum c || PyStr.isspace c) s = true /\
  PyStr.strip s = s.

(** "identical across all records of that run" *)
Definition same_snapshot {A} (observed_at : A -> Z) (records : list A) : Prop :=
  forall a b, In a records -> In b records -> observed_at a = observed_at b.

(** "title: non-empty after trimming" *)
Definition titled (title : string) : Prop := PyStr.strip title <> "".

(** [s] is [n] decimal digits. *)
Definition digits (n : nat) (s : string) : Prop :=
  String.length s = n /\ PyStr.all_chars PyStr.isdigit s = true.

(** [s] is the text [p] up to the case of its letters. *)
Definition written (p s : string) : Prop := PyStr.lower s = PyStr.lower p.

Definition months : list string :=
  [ "January"; "February"; "March"; "April"; "May"; "June"; "July"; "August";
    "September"; "October"; "November"; "December" ].

(** "exact match against a fixed stoplist" *)
Definition in_stoplist (title : string) : Prop := title ∈ Wikipedia.STOP_TITLES.

(** "starts with a fixed hard-stop prefix" or "with any of a fixed set of
    meta-namespace prefixes" *)
Definition has_stop_prefix (title : string) : Prop :=
  exists p rest,
    In p (Wikipedia.STOP_PREFIXES ++ Wikipedia.STOP_NAMESPACES) /\ title = p +:+ rest.

(** "contains a namespace separator character anywhere" *)
Definition has_namespace_separator (title : string) : Prop :=
  exists a b, title = a +:+ ":" +:+ b.

(** "Month_Day optionally followed by ,_Year" *)
Definition is_date (title : string) : Prop :=
  exists month m day,
    In month months /\ written month m /\ (digits 1 day \/ digits 2 day) /\
    (title = m +:+ "_" +:+ day \/
     exists year, digits 4 year /\ title = m +:+ "_" +:+ day +:+ ",_" +:+ year).

(** "a bare 4-digit year" *)
Definition is_year (title : string) : Prop := digits 4 title.

(** "Year_in_..." *)
Definition is_year_in (title : string) : Prop :=
  exists year w rest, digits 4 year /\ written "_in_" w /\ title = year +:+ w +:+ rest.

(** "List_of_..." *)
Definition is_list_of (title : string) : Prop :=
  exists w rest, written "List_of_" w /\ title = w +:+ rest.

(** "Deaths_in_<year>" *)
Definition is_deaths_in (title : string) : Prop :=
  exists w year, written "Deaths_in_" w /\ digits 4 year /\ title = w +:+ year.

(** "lower-cased title contains any of a fixed small set of
    profanity/adult terms" *)
Definition has_inappropriate_word (title : string) : Prop :=
  exists word a b,
    word ∈ Wikipedia.INAPPROPRIATE_WORDS /\ PyStr.lower title = a +:+ word +:+ b.

Definition noise (title : string) : Prop :=
  in_stoplist title \/ has_stop_prefix title \/ has_namespace_separator title \/
  is_date title \/ is_year title \/ is_year_in title \/ is_list_of title \/
  is_deaths_in title \/ has_inappropriate_word title.

End Spec.

(** ** The titles that the noise classifier rejects *)

Module Shape.

(** The end of a text for [$]: the end itself, or a line feed before it. *)
Definition line_end (e : string) : Prop := e = "" \/ e = String "010" "".

Definition stop_title (title : string) : Prop := title ∈ Wikipedia.STOP_TITLES.

Definition prefixed (title : string) : Prop :=
  exists p rest,
    In p (Wikipedia.STOP_PREFIXES ++ Wikipedia.STOP_NAMESPACES) /\ title = p +:+ rest.

Definition separated (title : string) : Prop :=
  exists a b, title = a +:+ ":" +:+ b.

(** A month, an underscore, one or two digits, and perhaps a comma, an
    underscore and four digits; the letters in any case. *)
Definition date (title : string) : Prop :=
  exists month m day e,
    In month Spec.months /\ Spec.written month m /\
    (Spec.digits 1 day \/ Spec.digits 2 day) /\ line_end e /\
    (title = m +:+ "_" +:+ day +:+ e \/
     exists year, Spec.digits 4 year /\ title = m +:+ "_" +:+ day +:+ ",_" +:+ year +:+ e).

Definition year (title : string) : Prop :=
  exists y e, Spec.digits 4 y /\ line_end e /\ title = y +:+ e.

Definition year_in (title : string) : Prop :=
  exists y w rest, Spec.digits 4 y /\ Spec.written "_in_" w /\ title = y +:+ w +:+ rest.

Definition list_of (title : string) : Prop :=
  exists w rest, Spec.written "List_of_" w /\ title = w +:+ rest.

Definition deaths_in (title : string) : Prop :=
  exists w y e,
    Spec.written "Deaths_in_" w /\ Spec.digits 4 y /\ line_end e /\ title = w +:+ y +:+ e.

Definition worded (title : string) : Prop :=
  exists word a b,
    word ∈ Wikipedia.INAPPROPRIATE_WORDS /\ PyStr.lower title = a +:+ word +:+ b.

Definition noise (title : string) : Prop :=
  stop_title title \/ prefixed title \/ separated title \/ date title \/ year title \/
  year_in title \/ list_of title \/ deaths_in title \/ worded title.

End Shape.

(** * Properties *)

#[local] Arguments String.append !s1 s2 : simpl nomatch.

(** ** Rounding never produces a NaN and keeps the sign *)

Section Rounding.
Import PyFloat.

Lemma iter_pos_invariant {A} (P : A -> Prop) (f : A -> A) :
  (forall x, P x -> P (f x)) -> forall p x, P x -> P (SpecFloat.iter_pos f p x).
Proof.
  intros Hf p. induction p as [p IH | p IH | ]; intros x Hx; simpl.
  - apply IH, IH, Hf, Hx.
  - apply IH, IH, Hx.
  - apply Hf, Hx.
Qed.

Lemma shr_1_nonneg mrs : 0 <= shr_m mrs -> 0 <= shr_m (shr_1 mrs).
Proof.
  destruct mrs as [m r t]. simpl. intros Hm.
  destruct m as [ | [p | p | ] | p ]; simpl; lia.
Qed.

Lemma shr_nonneg mrs e n : 0 <= shr_m mrs -> 0 <= shr_m (fst (shr mrs e n)).
Proof.
  intros Hm. unfold shr. destruct n as [ | p | p ]; simpl; try assumption.
  apply (iter_pos_invariant (fun x => 0 <= shr_m x)); auto using shr_1_nonneg.
Qed.

Lemma shr_record_of_loc_m m l : shr_m (shr_record_of_loc m l) = m.
Proof. destruct l as [ | [ | | ] ]; reflexivity. Qed.

Lemma shr_fexp_nonneg m e l : 0 <= m -> 0 <= shr_m (fst (shr_fexp prec emax m e l)).
Proof.
  intros Hm. unfold shr_fexp. apply shr_nonneg.
  rewrite shr_record_of_loc_m. exact Hm.
Qed.

Lemma round_nearest_even_nonneg m l : 0 <= m -> 0 <= round_nearest_even m l.
Proof.
  intros Hm. unfold round_nearest_even.
  destruct l as [ | [ | | ] ]; try destruct (Z.even m); lia.
Qed.

Lemma binary_round_aux_sign s m e l :
  0 <= m -> has_sign s (binary_round_aux prec emax s m e l).
Proof.
  intros Hm. unfold binary_round_aux.
  pose proof (shr_fexp_nonneg m e l Hm) as H1.
  destruct (shr_fexp prec emax m e l) as [mrs' e'] eqn:E1. simpl in H1.
  pose proof (shr_fexp_nonneg _ e' loc_Exact
                (round_nearest_even_nonneg _ (loc_of_shr_record mrs') H1)) as H2.
  destruct (shr_fexp prec emax _ e' loc_Exact) as [mrs'' e''] eqn:E2. simpl in H2.
  destruct (shr_m mrs'') as [ | q | q ]; simpl.
  - reflexivity.
  - destruct (e'' <=? emax - prec); reflexivity.
  - lia.
Qed.

Lemma round_quotient_sign s a b :
  0 < a -> 0 < b -> has_sign s (round_quotient s a b).
Proof.
  intros Ha Hb. unfold round_quotient, SFdiv_core_binary.
  set (e' := Z.min _ _). set (m' := match (0 - 0 - e') with Z0 => a | Zpos _ => _ | Zneg _ => _ end).
  assert (Hm' : 0 <= m').
  { subst m'. destruct (0 - 0 - e'); try lia. apply Z.shiftl_nonneg. lia. }
  pose proof (Z.div_pos m' b Hm' Hb) as Hq.
  unfold Z.div in Hq. destruct (Z.div_eucl m' b) as [q r]. simpl in Hq.
  apply binary_round_aux_sign. exact Hq.
Qed.

Lemma nearest_sign z : has_sign (z <? 0) (nearest z).
Proof.
  unfold nearest, binary_normalize. destruct z as [ | p | p ]; simpl.
  - reflexivity.
  - unfold binary_round. destruct (shl_align _ _ _) as [mz ez].
    apply binary_round_aux_sign. lia.
  - unfold binary_round. destruct (shl_align _ _ _) as [mz ez].
    apply binary_round_aux_sign. lia.
Qed.

Lemma of_int_sign z f : of_int z = Ok f -> has_sign (z <? 0) f.
Proof.
  unfold of_int. pose proof (nearest_sign z) as H.
  destruct (nearest z); intros [= <-] || discriminate; exact H.
Qed.

Lemma int_true_divide_sign a b f :
  int_true_divide a b = Ok f -> has_sign (xorb (a <? 0) (b <? 0)) f.
Proof.
  unfold int_true_divide.
  destruct (Z.eqb_spec b 0) as [ | Hb ]; [ discriminate | ].
  destruct (Z.eqb_spec a 0) as [ -> | Ha ].
  - intros [= <-]. simpl. reflexivity.
  - pose proof (round_quotient_sign (xorb (a <? 0) (b <? 0)) (Z.abs a) (Z.abs b)) as H.
    destruct (round_quotient _ _ _); intros [= <-] || discriminate; apply H; lia.
Qed.

Lemma SFdiv_sign sx sy x y :
  has_sign sx x -> has_sign sy y ->
  (forall s, x <> S754_infinity s) -> (forall s, y <> S754_zero s) ->
  has_sign (xorb sx sy) (SFdiv prec emax x y).
Proof.
  intros Hx Hy Hi Hz.
  destruct x as [ s1 | s1 | | s1 m1 e1 ], y as [ s2 | s2 | | s2 m2 e2 ];
    simpl in Hx, Hy; try contradiction; subst;
    try (exfalso; eapply Hz; reflexivity); try (exfalso; eapply Hi; reflexivity);
    try reflexivity.
  unfold SFdiv, SFdiv_core_binary.
  set (e' := Z.min _ _).
  set (m' := match (e1 - e2 - e') with Z0 => _ | Zpos _ => _ | Zneg _ => _ end).
  assert (Hm' : 0 <= m').
  { subst m'. destruct (e1 - e2 - e'); try lia. apply Z.shiftl_nonneg. lia. }
  pose proof (Z.div_pos m' (Zpos m2) Hm' ltac:(lia)) as Hq.
  unfold Z.div in Hq. destruct (Z.div_eucl m' (Zpos m2)) as [q r]. simpl in Hq.
  apply binary_round_aux_sign. exact Hq.
Qed.

Lemma SFmul_sign sx sy x y :
  has_sign sx x -> has_sign sy y ->
  (forall s, x <> S754_infinity s) -> (forall s, y <> S754_infinity s) ->
  has_sign (xorb sx sy) (mul x y).
Proof.
  intros Hx Hy Hxi Hyi.
  destruct x as [ s1 | s1 | | s1 m1 e1 ], y as [ s2 | s2 | | s2 m2 e2 ];
    simpl in Hx, Hy; try contradiction; subst;
    try (exfalso; eapply Hxi; reflexivity); try (exfalso; eapply Hyi; reflexivity);
    try reflexivity.
  unfold mul, SFmul. apply binary_round_aux_sign. lia.
Qed.

Lemma round_half_even_nonneg num den : 0 <= num -> 0 < den -> 0 <= round_half_even num den.
Proof.
  intros Hn Hd. unfold round_half_even.
  pose proof (Z.div_pos num den Hn Hd).
  destruct (_ ?= _); try destruct (Z.even _); lia.
Qed.

Lemma round_ndigits_sign s x n : has_sign s x -> has_sign s (round_ndigits x n).
Proof.
  destruct x as [ s1 | s1 | | s1 m e ]; simpl; try tauto.
  intros ->. set (v := match e with Z0 => _ | Zpos _ => _ | Zneg _ => _ end).
  assert (H10 : 0 < 10 ^ Z.of_nat n) by (apply Z.pow_pos_nonneg; lia).
  assert (Hv : 0 <= v).
  { subst v. destruct e as [ | p | p ].
    - lia.
    - assert (0 < 2 ^ Zpos p) by (apply Z.pow_pos_nonneg; lia).
      apply Z.mul_nonneg_nonneg; [ apply Z.mul_nonneg_nonneg | ]; lia.
    - apply round_half_even_nonneg.
      + apply Z.mul_nonneg_nonneg; lia.
      + apply Z.pow_pos_nonneg; lia. }
  destruct (Z.eqb_spec v 0) as [ | Hne ]; [ reflexivity | ].
  apply round_quotient_sign; lia.
Qed.

Lemma has_sign_not_negative x : has_sign false x -> negative x = false.
Proof.
  destruct x as [ s | s | | s m e ]; simpl; try tauto; intros ->; reflexivity.
Qed.

Lemma has_sign_not_nan s x : has_sign s x -> is_nan x = false.
Proof. destruct x; simpl; tauto. Qed.

End Rounding.

(** ** The stable descending sort *)

Section SortFacts.
Context {A K : Type} (key : A -> K) (lt : K -> K -> bool).

Lemma insert_desc_perm x l : Permutation (insert_desc key lt x l) (x :: l).
Proof.
  induction l as [ | y l IH ]; simpl.
  - reflexivity.
  - destruct (lt (key x) (key y)).
    + rewrite IH. apply perm_swap.
    + reflexivity.
Qed.

Lemma sort_reverse_perm l : Permutation (sort_reverse key lt l) l.
Proof.
  induction l as [ | x l IH ]; simpl.
  - reflexivity.
  - rewrite insert_desc_perm. now apply perm_skip.
Qed.

(** The keys that occur are ordered by a strict weak order. *)
Variable good : K -> Prop.
Hypothesis lt_asym :
  forall a b, good a -> good b -> lt a b = true -> lt b a = false.
Hypothesis lt_negtrans :
  forall a b c, good a -> good b -> good c ->
                lt a b = false -> lt b c = false -> lt a c = false.

Let goods (l : list A) : Prop := Forall (fun r => good (key r)) l.

Lemma insert_desc_good x l : good (key x) -> goods l -> goods (insert_desc key lt x l).
Proof.
  intros Hx Hl. induction Hl as [ | y l Hy Hl IH ]; simpl.
  - repeat constructor. exact Hx.
  - destruct (lt (key x) (key y)); repeat constructor; auto.
Qed.

Lemma sort_reverse_good l : goods l -> goods (sort_reverse key lt l).
Proof.
  induction 1 as [ | x l Hx Hl IH ]; simpl.
  - constructor.
  - now apply insert_desc_good.
Qed.

Lemma insert_desc_descending x l :
  good (key x) -> goods l ->
  descending key lt l -> descending key lt (insert_desc key lt x l).
Proof.
  intros Hx Hg Hl. induction Hl as [ | y l Hl IH Hy ]; simpl.
  - repeat constructor.
  - apply Forall_cons_iff in Hg as [Hgy Hg].
    destruct (lt (key x) (key y)) eqn:E.
    + constructor; [ now apply IH | ].
      eapply Permutation_Forall.
      * symmetry. apply insert_desc_perm.
      * constructor; [ now apply lt_asym | exact Hy ].
    + constructor; [ now constructor | ].
      constructor; [ exact E | ].
      rewrite Forall_forall in Hy, Hg |- *. intros z Hz.
      apply (lt_negtrans _ (key y)); auto.
Qed.

Lemma sort_reverse_descending l : goods l -> descending key lt (sort_reverse key lt l).
Proof.
  induction 1 as [ | x l Hx Hl IH ]; simpl.
  - constructor.
  - apply insert_desc_descending; auto. now apply sort_reverse_good.
Qed.

Lemma insert_desc_filter k x l :
  good k -> good (key x) -> goods l ->
  List.filter (same_rank key lt k) (insert_desc key lt x l)
  = List.filter (same_rank key lt k) (x :: l).
Proof.
  intros Hk Hx Hl. induction Hl as [ | y l Hy Hl IH ]; simpl.
  - reflexivity.
  - destruct (lt (key x) (key y)) eqn:E; [ | reflexivity ].
    simpl. rewrite IH. simpl.
    destruct (same_rank key lt k x) eqn:Ex; [ | reflexivity ].
    assert (Ey : same_rank key lt k y = false); [ | now rewrite Ey ].
    unfold same_rank in *.
    apply andb_true_iff in Ex as [E1 E2].
    apply negb_true_iff in E1, E2.
    destruct (lt k (key y)) eqn:Eky; [ reflexivity | ].
    rewrite (lt_negtrans (key x) k (key y)) in E; auto. discriminate.
Qed.

Lemma sort_reverse_filter l : goods l -> forall k, good k ->
  List.filter (same_rank key lt k) (sort_reverse key lt l)
  = List.filter (same_rank key lt k) l.
Proof.
  intros Hl k Hk. induction Hl as [ | x l Hx Hl IH ]; simpl.
  - reflexivity.
  - rewrite insert_desc_filter; auto using sort_reverse_good.
    simpl. now rewrite IH.
Qed.

Lemma sort_reverse_stable l : goods l -> stable key lt l (sort_reverse key lt l).
Proof.
  intros Hl r Hr. apply sort_reverse_filter; [ exact Hl | ].
  exact (proj1 (List.Forall_forall _ _) Hl r Hr).
Qed.

End SortFacts.

(** ** The order of the floats that are numbers *)

Section FloatOrder.
Import PyFloat.

Ltac compare_cases :=
  repeat match goal with
    | H : context [ Z.compare ?a ?b ] |- _ => destruct (Z.compare_spec a b); simpl in H
    | H : context [ Pos.compare ?a ?b ] |- _ => destruct (Pos.compare_spec a b); simpl in H
    | |- context [ Z.compare ?a ?b ] => destruct (Z.compare_spec a b); simpl
    | |- context [ Pos.compare ?a ?b ] => destruct (Pos.compare_spec a b); simpl
    end;
  try reflexivity; try discriminate; try lia.

Ltac by_cases x := destruct x as [ [ | ] | [ | ] | | [ | ] ? ? ].

Lemma ltb_asym a b :
  is_nan a = false -> is_nan b = false -> ltb a b = true -> ltb b a = false.
Proof.
  unfold ltb, SFltb, SFcompare.
  by_cases a; by_cases b; simpl; try discriminate; try reflexivity;
    change (Pos.compare_cont Eq) with Pos.compare; intros _ _ H; compare_cases.
Qed.

Lemma ltb_negtrans a b c :
  is_nan a = false -> is_nan b = false -> is_nan c = false ->
  ltb a b = false -> ltb b c = false -> ltb a c = false.
Proof.
  unfold ltb, SFltb, SFcompare.
  by_cases a; by_cases b; by_cases c; simpl; try discriminate; try reflexivity;
    change (Pos.compare_cont Eq) with Pos.compare; intros _ _ _ H1 H2; compare_cases.
Qed.

End FloatOrder.

(** ** Strings *)

Section StringFacts.
Import PyStr.

Lemma append_empty_r s : s +:+ "" = s.
Proof. induction s as [ | c s IH ]; simpl; congruence. Qed.



Lemma startswith_append p rest : startswith (p +:+ rest) p = true.
Proof.
  induction p as [ | c p IH ]; simpl.
  - now destruct rest.
  - now rewrite Ascii.eqb_refl.
Qed.

Lemma contains_char_append c a b : contains_char c (a +:+ String c b) = true.
Proof.
  induction a as [ | d a IH ]; simpl.
  - now rewrite Ascii.eqb_refl.
  - rewrite IH. apply orb_true_r.
Qed.

Lemma contains_prefix w s : startswith s w = true -> contains w s = true.
Proof. intros H. destruct s; cbn [contains]; now rewrite H. Qed.

Lemma contains_append w a b : contains w (a +:+ w +:+ b) = true.
Proof.
  induction a as [ | d a IH ].
  - change ("" +:+ w +:+ b) with (w +:+ b).
    apply contains_prefix, startswith_append.
  - change (String d a +:+ w +:+ b) with (String d (a +:+ w +:+ b)).
    cbn [contains]. rewrite IH. apply orb_true_r.
Qed.

Lemma lower_append s t : lower (s +:+ t) = lower s +:+ lower t.
Proof. induction s as [ | c s IH ]; simpl; congruence. Qed.

End StringFacts.

(** ** The matcher accepts the texts that a pattern describes *)

Section MatcherFacts.
Import Re.

Lemma lit_written p : forall w rest,
  Spec.written p w -> lit true p (w +:+ rest) = Some rest.
Proof.
  unfold Spec.written.
  induction p as [ | a p IH ]; intros [ | b w ] rest H; simpl in *; try discriminate.
  - reflexivity.
  - injection H as Hc Hw. unfold char_eq. rewrite Hc, Ascii.eqb_refl. now apply IH.
Qed.

Lemma run_lit_written {A} p w rest (k : string -> option A) :
  Spec.written p w -> run true (Lit p) (w +:+ rest) k = k rest.
Proof. intros H. simpl. now rewrite (lit_written p w rest H). Qed.

Lemma digits_complete {A} d : forall lo hi rest (k : string -> option A),
  PyStr.all_chars PyStr.isdigit d = true ->
  (lo <= String.length d)%nat ->
  (forall h, hi = Some h -> (String.length d <= h)%nat) ->
  is_Some (k rest) ->
  is_Some (digits lo hi (d +:+ rest) k).
Proof.
  induction d as [ | c d IH ]; intros lo hi rest k Hd Hlo Hhi Hk; simpl in *.
  - assert (lo = O) as -> by lia.
    destruct rest as [ | c s ]; simpl; [ exact Hk | ].
    destruct (PyStr.isdigit c && negb (exhausted hi)); [ | exact Hk ].
    destruct (digits _ _ _ _); [ eauto | exact Hk ].
  - apply andb_true_iff in Hd as [Hc Hd]. rewrite Hc. simpl.
    assert (He : exhausted hi = false).
    { destruct hi as [ [ | h ] | ]; try reflexivity.
      specialize (Hhi O eq_refl). lia. }
    rewrite He. simpl.
    assert (Hin : is_Some (digits (Nat.pred lo) (dec hi) (d +:+ rest) k)).
    { apply IH; auto; [ lia | ].
      intros h Hh. destruct hi as [ h' | ]; [ | discriminate ].
      injection Hh as <-. specialize (Hhi h' eq_refl). lia. }
    destruct Hin as [a ->]. eauto.
Qed.

Lemma run_digits_exact {A} n year rest (k : string -> option A) :
  Spec.digits n year -> is_Some (k rest) ->
  is_Some (run false (Digits n (Some n)) (year +:+ rest) k)
  /\ is_Some (run true (Digits n (Some n)) (year +:+ rest) k).
Proof.
  intros [Hlen Hd] Hk. simpl.
  split; apply digits_complete; auto; try lia; intros h [= <-]; lia.
Qed.

Lemma run_alt_l {A} ic r1 r2 s (k : string -> option A) :
  is_Some (run ic r1 s k) -> is_Some (run ic (Alt r1 r2) s k).
Proof. intros [a H]. simpl. rewrite H. eauto. Qed.

Lemma run_alt_r {A} ic r1 r2 s (k : string -> option A) :
  is_Some (run ic r2 s k) -> is_Some (run ic (Alt r1 r2) s k).
Proof. intros H. simpl. destruct (run ic r1 s k); eauto. Qed.

Lemma run_opt_skip {A} ic r s (k : string -> option A) :
  is_Some (k s) -> is_Some (run ic (Opt r) s k).
Proof. intros H. simpl. destruct (run ic r s k); eauto. Qed.

Lemma run_opt_take {A} ic r s (k : string -> option A) :
  is_Some (run ic r s k) -> is_Some (run ic (Opt r) s k).
Proof. intros [a H]. simpl. rewrite H. eauto. Qed.

Lemma match_truthy ic r s :
  is_Some (run ic r s (fun rest => Some rest)) -> truthy (match_ ic r s) = true.
Proof. intros [a H]. unfold match_. now rewrite H. Qed.

Lemma run_months {A} month m rest (k : string -> option A) :
  In month Spec.months -> Spec.written month m -> is_Some (k rest) ->
  is_Some (run true Wikipedia.MONTHS (m +:+ rest) k).
Proof.
  intros Hin Hw Hk. unfold Wikipedia.MONTHS.
  repeat (destruct Hin as [ <- | Hin ];
          [ repeat (first [ apply run_alt_l; rewrite (run_lit_written _ _ _ _ Hw); exact Hk
                          | rewrite (run_lit_written _ _ _ _ Hw); exact Hk
                          | apply run_alt_r ])
          | ]).
  destruct Hin.
Qed.

End MatcherFacts.

(** ** The noise classifier *)

Section Noise.
Import Wikipedia.

(** The classifier is the disjunction of its tests. *)
Lemma looks_like_noise_or title :
  looks_like_noise title =
    bool_decide (title ∈ STOP_TITLES)
    || existsb (PyStr.startswith title) STOP_PREFIXES
    || existsb (fun ns => PyStr.startswith title ns) STOP_NAMESPACES
    || PyStr.contains_char ":" title
    || Re.truthy (Re.match_ true DATE_RE title)
    || Re.truthy (Re.match_ false YEAR_RE title)
    || Re.truthy (Re.match_ true YEAR_IN_RE title)
    || Re.truthy (Re.match_ true LIST_RE title)
    || Re.truthy (Re.match_ true DEATHS_RE title)
    || existsb (fun word => PyStr.contains word (PyStr.lower title))
         (elements INAPPROPRIATE_WORDS).
Proof.
  unfold looks_like_noise.
  repeat match goal with
         | |- context [ if ?b then true else _ ] => destruct b; simpl; try reflexivity
         end.
Qed.

Ltac test_holds :=
  rewrite looks_like_noise_or;
  repeat (apply orb_true_iff; first [ right; assumption | left ]);
  try assumption.

Lemma noise_stoplist title : Spec.in_stoplist title -> looks_like_noise title = true.
Proof.
  intros H. assert (E : bool_decide (title ∈ STOP_TITLES) = true) by now apply bool_decide_eq_true.
  test_holds.
Qed.

Lemma noise_prefix title : Spec.has_stop_prefix title -> looks_like_noise title = true.
Proof.
  intros (p & rest & Hp & ->). apply in_app_or in Hp as [Hp | Hp].
  - assert (E : existsb (PyStr.startswith (p +:+ rest)) STOP_PREFIXES = true).
    { apply existsb_exists. exists p. split; [ exact Hp | apply startswith_append ]. }
    test_holds.
  - assert (E : existsb (fun ns => PyStr.startswith (p +:+ rest) ns) STOP_NAMESPACES = true).
    { apply existsb_exists. exists p. split; [ exact Hp | apply startswith_append ]. }
    test_holds.
Qed.

Lemma noise_separator title :
  Spec.has_namespace_separator title -> looks_like_noise title = true.
Proof.
  intros (a & b & ->).
  assert (E : PyStr.contains_char ":" (a +:+ ":" +:+ b) = true)
    by apply contains_char_append.
  test_holds.
Qed.

Lemma noise_date title : Spec.is_date title -> looks_like_noise title = true.
Proof.
  intros (month & m & day & Hin & Hw & Hday & Ht).
  assert (E : Re.truthy (Re.match_ true DATE_RE title) = true); [ | test_holds ].
  apply match_truthy. unfold DATE_RE.
  assert (Hd : forall rest (k : string -> option string),
             is_Some (k rest) -> is_Some (Re.digits 1 (Some 2%nat) (day +:+ rest) k)).
  { intros rest k Hk.
    destruct Hday as [ [Hl Hd] | [Hl Hd] ];
      apply digits_complete; auto; try lia; intros h [= <-]; lia. }
  destruct Ht as [ -> | (year & Hy & ->) ]; cbn [Re.run];
    apply (run_months month); auto;
    rewrite (lit_written "_" "_") by reflexivity.
  - rewrite <- (append_empty_r day). apply Hd. cbv. eauto.
  - apply Hd. rewrite (lit_written ",_" ",_") by reflexivity.
    rewrite <- (append_empty_r year).
    destruct (run_digits_exact 4 year ""
                (fun s => if Re.at_end s then Some s else None) Hy) as [_ [a Ha]].
    + cbv. eauto.
    + cbn [Re.run] in Ha. rewrite Ha. eauto.
Qed.

Lemma noise_year title : Spec.is_year title -> looks_like_noise title = true.
Proof.
  intros Hy.
  assert (E : Re.truthy (Re.match_ false YEAR_RE title) = true); [ | test_holds ].
  apply match_truthy. unfold YEAR_RE. cbn [Re.run].
  rewrite <- (append_empty_r title).
  apply (run_digits_exact 4 title ""); [ exact Hy | cbv; eauto ].
Qed.

Lemma noise_year_in title : Spec.is_year_in title -> looks_like_noise title = true.
Proof.
  intros (year & w & rest & Hy & Hw & ->).
  assert (E : Re.truthy (Re.match_ true YEAR_IN_RE (year +:+ w +:+ rest)) = true);
    [ | test_holds ].
  apply match_truthy. unfold YEAR_IN_RE. cbn [Re.run].
  apply (run_digits_exact 4 year); [ exact Hy | ].
  cbn [Re.run]. rewrite (lit_written _ _ _ Hw). eauto.
Qed.

Lemma noise_list_of title : Spec.is_list_of title -> looks_like_noise title = true.
Proof.
  intros (w & rest & Hw & ->).
  assert (E : Re.truthy (Re.match_ true LIST_RE (w +:+ rest)) = true); [ | test_holds ].
  apply match_truthy. unfold LIST_RE. rewrite (run_lit_written _ _ _ _ Hw). eauto.
Qed.

Lemma noise_deaths_in title : Spec.is_deaths_in title -> looks_like_noise title = true.
Proof.
  intros (w & year & Hw & Hy & ->).
  assert (E : Re.truthy (Re.match_ true DEATHS_RE (w +:+ year)) = true); [ | test_holds ].
  apply match_truthy. unfold DEATHS_RE. cbn [Re.run].
  rewrite (lit_written _ _ _ Hw).
  rewrite <- (append_empty_r year).
  apply (run_digits_exact 4 year ""); [ exact Hy | cbv; eauto ].
Qed.

Lemma noise_word title : Spec.has_inappropriate_word title -> looks_like_noise title = true.
Proof.
  intros (word & a & b & Hin & Hl).
  assert (E : existsb (fun word => PyStr.contains word (PyStr.lower title))
                (elements INAPPROPRIATE_WORDS) = true); [ | test_holds ].
  apply existsb_exists. exists word. split.
  - apply (proj1 (list_elem_of_In _ _)), (proj2 (elem_of_elements _ _)). exact Hin.
  - rewrite Hl. apply contains_append.
Qed.

End Noise.

(** C3: the noise classifier answers true for every title that is in the
    stoplist, starts with the hard-stop prefix or with a meta-namespace
    prefix, contains the namespace separator, is a Month_Day or
    Month_Day,_Year date, a bare four-digit year, a Year_in_ or List_of_
    title or Deaths_in_ followed by a year, or whose lower-casing contains
    one of the inappropriate words; and it answers false for
    "Artificial_intelligence". *)
Theorem looks_like_noise_complete :
  (forall title, Spec.noise title -> Wikipedia.looks_like_noise title = true)
  /\ Wikipedia.looks_like_noise "Artificial_intelligence" = false.
Proof.
  split.
  - intros title [ H | [ H | [ H | [ H | [ H | [ H | [ H | [ H | H ] ] ] ] ] ] ] ].
    + now apply noise_stoplist.
    + now apply noise_prefix.
    + now apply noise_separator.
    + now apply noise_date.
    + now apply noise_year.
    + now apply noise_year_in.
    + now apply noise_list_of.
    + now apply noise_deaths_in.
    + now apply noise_word.
  - vm_compute. reflexivity.
Qed.

(** C3, at a title of the talk namespace. *)
Lemma looks_like_noise_complete_witness :
  Spec.noise "Talk:Foo" /\ Wikipedia.looks_like_noise "Talk:Foo" = true.
Proof.
  assert (H : Spec.noise "Talk:Foo").
  { right; right; left. exists "Talk", "Foo". reflexivity. }
  split; [ exact H | exact (proj1 looks_like_noise_complete "Talk:Foo" H) ].
Defined.

(** ** The search trends pipeline *)

Section SearchTrends.
Import GoogleTrends.

Lemma process_rows_spec region rows : forall acc w trends w',
  process_rows region rows acc w = (Ok trends, w') ->
  exists new,
    trends = acc ++ new /\
    Forall2 (emitted region) (List.filter reaches_threshold rows) new /\
    List.map observed_at new
    = List.map (clock w) (List.seq (reads w) (length new)) /\
    w' = {| clock := clock w; reads := (reads w + length new)%nat |}.
Proof.
  induction rows as [ | row rows IH ]; intros acc w trends w' H; simpl in H.
  - injection H as <- <-. exists nil. rewrite app_nil_r. simpl.
    repeat split; try constructor. destruct w; simpl. now rewrite Nat.add_0_r.
  - unfold bind, lift in H. unfold reaches_threshold, search_volume_of. simpl.
    destruct (parse_search_volume (get (Search_volume row) "0")) as [v | e];
      [ | discriminate ].
    destruct (MIN_SEARCH_VOLUME <=? v).
    + destruct (get (Trends row) "Unknown") as [name | ] eqn:En; [ | discriminate ].
      unfold now in H.
      apply IH in H as (new & -> & HF & Ho & ->). simpl in *.
      eexists (_ :: new). rewrite <- app_assoc. simpl.
      repeat split.
      * constructor; [ | exact HF ]. repeat split; simpl; auto.
      * f_equal. exact Ho.
      * f_equal. lia.
    + apply IH in H. exact H.
Qed.

Lemma process_rows_total region rows : forall acc w,
  Forall readable rows ->
  exists trends w', process_rows region rows acc w = (Ok trends, w').
Proof.
  induction rows as [ | row rows IH ]; intros acc w Hr; simpl.
  - unfold ret. eauto.
  - apply Forall_cons_iff in Hr as [ [ [v Hv] Hn ] Hr ].
    unfold reaches_threshold in Hn. unfold search_volume_of in *.
    unfold bind, lift. rewrite Hv in *.
    destruct (MIN_SEARCH_VOLUME <=? v).
    + destruct (Trends row) eqn:Et; simpl; try (now apply IH).
      exfalso. now apply Hn.
    + now apply IH.
Qed.

(** A row that cannot be read ends the loop with an exception. *)
Lemma process_rows_unreadable region rows : forall acc w,
  Exists unreadable rows ->
  exists e w', process_rows region rows acc w = (Raise e, w').
Proof.
  induction rows as [ | row rows IH ]; intros acc w H; [ inversion H | ].
  cbn [process_rows]. unfold bind, lift, now.
  fold (search_volume_of row).
  destruct (search_volume_of row) as [ v | e ] eqn:Ev; [ | eauto ].
  destruct (MIN_SEARCH_VOLUME <=? v) eqn:Et.
  - destruct (Trends row) eqn:Ec; cbn [get].
    + apply List.Exists_cons in H as [ [ [e He] | [_ Hn] ] | H ];
        [ congruence | congruence | now apply IH ].
    + eauto.
    + apply List.Exists_cons in H as [ [ [e He] | [_ Hn] ] | H ];
        [ congruence | congruence | now apply IH ].
  - apply List.Exists_cons in H as [ [ [e He] | [Hr _] ] | H ]; [ congruence | | now apply IH ].
    unfold reaches_threshold in Hr. rewrite Ev, Et in Hr. discriminate Hr.
Qed.

End SearchTrends.

(** C10, as the code has it: in a run of the search trends pipeline in
    which every row of the file is read without an exception, a row gets a
    record exactly when its parsed search volume is at least 5000: the
    records that a run returns are, in order, those of the rows that reach
    the threshold, one for each, every record with the raw metric 1, and a
    run whose rows are all readable, one of which reaches the threshold,
    does return its records.  A run in which one row cannot be read, since
    its search volume raises or since it reaches the threshold and has
    None for a title, returns None: no row gets a record.  A run in which
    no row reaches the threshold returns None as well, not an empty
    list. *)
Theorem search_trends_threshold region rows w :
  GoogleTrends.MIN_SEARCH_VOLUME = 5000 /\
  (forall trends,
     fst (GoogleTrends.process_csv_to_schema (Some rows) region w) = Ok (Some trends) ->
     Forall2 (GoogleTrends.emitted region)
       (List.filter GoogleTrends.reaches_threshold rows) trends /\
     Forall (fun t => GoogleTrends.raw_metric t = 1) trends) /\
  (Forall GoogleTrends.readable rows ->
   List.filter GoogleTrends.reaches_threshold rows <> nil ->
   exists trends,
     fst (GoogleTrends.process_csv_to_schema (Some rows) region w) = Ok (Some trends)) /\
  (Exists GoogleTrends.unreadable rows ->
   fst (GoogleTrends.process_csv_to_schema (Some rows) region w) = Ok None) /\
  (List.filter GoogleTrends.reaches_threshold rows = nil ->
   fst (GoogleTrends.process_csv_to_schema (Some rows) region w) = Ok None).
Proof.
  split; [ reflexivity | ].
  unfold GoogleTrends.process_csv_to_schema, bind, catch, ret.
  split; [ | split; [ | split ] ];
    [ | | intros H;
          destruct (process_rows_unreadable region rows nil w H) as (e & w' & ->);
          reflexivity
        | intros H;
          destruct (GoogleTrends.process_rows region rows nil w) as [ [ l | e ] w1 ] eqn:E;
          [ | reflexivity ];
          apply process_rows_spec in E as (new & -> & HF & _ & _); rewrite H in HF;
          inversion HF; reflexivity ].
  - intros trends H.
    destruct (GoogleTrends.process_rows region rows nil w) as [ [ l | e ] w1 ] eqn:E;
      [ | discriminate ].
    apply process_rows_spec in E as (new & -> & HF & _ & _). simpl in *.
    destruct new as [ | t new ]; [ discriminate | ]. injection H as <-.
    split; [ exact HF | ].
    clear - HF. induction HF as [ | row t' rows' new' Ht HF IH ]; constructor; auto.
    apply Ht.
  - intros Hr Hne.
    destruct (process_rows_total region rows nil w Hr) as (trends & w1 & E).
    rewrite E.
    apply process_rows_spec in E as (new & -> & HF & _ & _). simpl in *.
    destruct new as [ | t new ]; [ | simpl; eauto ].
    inversion HF as [ E0 | ]. congruence.
Qed.

(** C10, at a file of three rows, two of which reach the threshold. *)
Lemma search_trends_threshold_witness :
  let rows :=
    [ {| GoogleTrends.Trends := Text "solar eclipse"; GoogleTrends.Search_volume := Text "20K+" |};
      {| GoogleTrends.Trends := Text "quiet town"; GoogleTrends.Search_volume := Text "4999" |};
      {| GoogleTrends.Trends := Text "world cup"; GoogleTrends.Search_volume := Text "1.5M" |} ] in
  let w := {| clock := fun n => Z.of_nat n; reads := 0 |} in
  Forall GoogleTrends.readable rows /\
  List.filter GoogleTrends.reaches_threshold rows <> nil /\
  exists trends,
    fst (GoogleTrends.process_csv_to_schema (Some rows) "US" w) = Ok (Some trends).
Proof.
  intros rows w.
  assert (Hr : Forall GoogleTrends.readable rows).
  { repeat constructor; try (intros _; discriminate); eexists; vm_compute; reflexivity. }
  assert (Hn : List.filter GoogleTrends.reaches_threshold rows <> nil).
  { vm_compute. discriminate. }
  split; [ exact Hr | split; [ exact Hn | ] ].
  exact (proj1 (proj2 (proj2 (search_trends_threshold "US" rows w))) Hr Hn).
Defined.

(** C10 fails for a run in which a row raises: the first row has the search
    volume 20,000, which is above the threshold, and the search volume of
    the second row overflows, so the run returns None and the first row has
    no record. *)
Lemma search_trends_row_without_record :
  let first :=
    {| GoogleTrends.Trends := Text "solar eclipse";
       GoogleTrends.Search_volume := Text "20K+" |} in
  let second :=
    {| GoogleTrends.Trends := Text "lunar eclipse";
       GoogleTrends.Search_volume := Text ("7" +:+ PyStr.times "0" 310 +:+ "K") |} in
  let w := {| clock := fun n => Z.of_nat n; reads := 0 |} in
  GoogleTrends.search_volume_of first = Ok 20000 /\
  GoogleTrends.reaches_threshold first = true /\
  GoogleTrends.search_volume_of second = Raise OverflowError /\
  fst (GoogleTrends.process_csv_to_schema (Some [ first; second ]) "US" w) = Ok None.
Proof. vm_compute. repeat split. Qed.

(** ** The loops of the encyclopedia and video pipelines *)

Section Loops.

Lemma wikipedia_normalize_all_spec observed_at articles : forall acc topics,
  Wikipedia.normalize_all observed_at articles acc = Ok topics ->
  exists new,
    topics = acc ++ new /\
    Forall2 (fun a t => Wikipedia.normalize observed_at a = Ok t) articles new.
Proof.
  induction articles as [ | a articles IH ]; intros acc topics H; simpl in H.
  - injection H as <-. exists nil. rewrite app_nil_r. split; constructor.
  - destruct (Wikipedia.normalize observed_at a) as [ t | e ] eqn:E; [ | discriminate ].
    simpl in H. apply IH in H as (new & -> & HF).
    exists (t :: new). rewrite <- app_assoc. split; [ reflexivity | ].
    constructor; assumption.
Qed.

Lemma wikipedia_extract_spec articles w topics w' :
  Wikipedia.extract_trending_topics articles w = (Ok topics, w') ->
  w' = tick w /\
  Forall2 (fun a t => Wikipedia.normalize (clock w (reads w)) a = Ok t) articles topics.
Proof.
  unfold Wikipedia.extract_trending_topics, bind, now, lift.
  intros H. injection H as H <-. split; [ reflexivity | ].
  apply wikipedia_normalize_all_spec in H as (new & -> & HF). exact HF.
Qed.

Lemma youtube_normalize_all_spec observed_at videos : forall acc,
  YouTube.normalize_all observed_at videos acc
  = acc ++ List.flat_map (YouTube.appended observed_at) videos.
Proof.
  induction videos as [ | v videos IH ]; intros acc; simpl.
  - now rewrite app_nil_r.
  - unfold YouTube.appended at 1.
    destruct (YouTube.normalize observed_at v) as [ [ t | ] | e ]; rewrite IH; simpl;
      try reflexivity.
    now rewrite <- app_assoc.
Qed.

Lemma youtube_extract_spec videos w :
  YouTube.extract_trending_topics videos w
  = (Ok (List.flat_map (YouTube.appended (clock w (reads w))) videos), tick w).
Proof.
  unfold YouTube.extract_trending_topics, bind, now, ret.
  now rewrite youtube_normalize_all_spec.
Qed.

Lemma youtube_appended_In observed_at videos t :
  In t (List.flat_map (YouTube.appended observed_at) videos) ->
  exists v, In v videos /\ YouTube.normalize observed_at v = Ok (Some t).
Proof.
  intros H. apply in_flat_map in H as (v & Hv & Ht). exists v. split; [ exact Hv | ].
  unfold YouTube.appended in Ht.
  destruct (YouTube.normalize observed_at v) as [ [ t' | ] | e ]; simpl in Ht;
    try contradiction.
  destruct Ht as [ -> | [] ]. reflexivity.
Qed.

Lemma wikipedia_normalize_score observed_at a t :
  Wikipedia.normalize observed_at a = Ok t ->
  Spec.score (Wikipedia.a_raw_metric a) = Ok (Wikipedia.score t).
Proof.
  unfold Wikipedia.normalize, Wikipedia.score_of, Spec.score.
  destruct (PyFloat.int_true_divide _ 1000) as [ q | e ]; simpl; [ | discriminate ].
  destruct (Wikipedia.a_title a); [ | discriminate ].
  intros [= <-]. reflexivity.
Qed.

Lemma youtube_normalize_score observed_at v t :
  YouTube.normalize observed_at v = Ok (Some t) ->
  Spec.score (YouTube.raw_metric t) = Ok (YouTube.score t).
Proof.
  unfold YouTube.normalize, Spec.score.
  destruct (get _ ""); [ | discriminate ].
  destruct (PyStr.is_empty _); [ discriminate | ].
  destruct (YouTube.view_count_of _) as [ n | e ]; simpl; [ | discriminate ].
  destruct (PyFloat.int_true_divide n 1000) as [ q | e ] eqn:E; simpl; [ | discriminate ].
  destruct (get _ ""); [ | discriminate ].
  intros [= <-]. simpl. now rewrite E.
Qed.


End Loops.



(** ** The metric parser *)

Section MetricParser.
Import GoogleTrends.

Lemma parse_search_volume_examples :
  parse_search_volume (Some "1.5M") = Ok 1500000 /\
  parse_search_volume (Some "500K+") = Ok 500000 /\
  parse_search_volume (Some "12345") = Ok 12345 /\
  parse_search_volume (Some "") = Ok 0 /\
  parse_search_volume (Some "n/a") = Ok 0.
Proof. vm_compute. repeat split. Qed.


Lemma parse_search_volume_none : parse_search_volume None = Ok 0.
Proof. reflexivity. Qed.

End MetricParser.

(** ** What the metric parser returns *)

Section ParserRange.
Import PyStr.





























End ParserRange.

(** C1: the metric parser does raise.  For the digit 1 followed by 303
    zeros and the suffix M the number that is read is 1e303, its product
    with 1000000 is the float infinity, and the conversion of an infinity to
    an integer raises OverflowError. *)
Theorem parse_search_volume_overflow :
  GoogleTrends.parse_search_volume (Some ("1" +:+ PyStr.times "0" 303 +:+ "M"))
  = Raise OverflowError.
Proof. vm_compute. reflexivity. Qed.

(** ** The duplicates of the forum pipeline *)

Section Duplicates.
Import Reddit.

Lemma find_has_key_none k l :
  List.find (has_key k) l = None <-> forall r, In r l -> key_of r <> k.
Proof.
  split.
  - intros H r Hr E. apply (List.find_none _ _ H) in Hr.
    unfold has_key in Hr. now rewrite bool_decide_eq_true_2 in Hr.
  - intros H. induction l as [ | r l IH ]; simpl; [ reflexivity | ].
    unfold has_key at 1. rewrite bool_decide_eq_false_2.
    + apply IH. intros r' Hr'. apply H. now right.
    + apply H. now left.
Qed.

Lemma find_has_key_some k l r :
  List.find (has_key k) l = Some r -> In r l /\ key_of r = k.
Proof.
  intros H. apply List.find_some in H as [Hin Hk]. split; [ exact Hin | ].
  unfold has_key in Hk. now apply bool_decide_eq_true_1 in Hk.
Qed.

Lemma find_has_key_app k l1 l2 :
  List.find (has_key k) (l1 ++ l2)
  = match List.find (has_key k) l1 with
    | Some r => Some r
    | None => List.find (has_key k) l2
    end.
Proof.
  induction l1 as [ | r l1 IH ]; simpl; [ reflexivity | ].
  now destruct (has_key k r).
Qed.

Lemma find_has_key_unique l r :
  List.NoDup (List.map key_of l) -> In r l ->
  List.find (has_key (key_of r)) l = Some r.
Proof.
  induction l as [ | x l IH ]; simpl; intros Hnd Hin; [ contradiction | ].
  apply List.NoDup_cons_iff in Hnd as [Hx Hnd].
  unfold has_key at 1. destruct Hin as [ -> | Hin ].
  - now rewrite bool_decide_eq_true_2.
  - rewrite bool_decide_eq_false_2; [ now apply IH | ].
    intros E. apply Hx. rewrite E. now apply List.in_map.
Qed.

Lemma dedup_step_invariant st r : Reddit.dedup_invariant st -> Reddit.dedup_invariant (dedup_step st r).
Proof.
  destruct st as [seen uniq]. intros [Hseen Hnd]. unfold dedup_step. simpl in *.
  destruct (bool_decide (key_of r ∈ seen)) eqn:E; [ now split | ].
  apply bool_decide_eq_false_1 in E. split; simpl.
  - intros k. rewrite elem_of_union, elem_of_singleton, Hseen. split.
    + intros [ -> | (r' & Hr' & Hk) ].
      * exists r. split; [ apply in_or_app; right; now left | reflexivity ].
      * exists r'. split; [ apply in_or_app; now left | exact Hk ].
    + intros (r' & Hr' & Hk). apply in_app_or in Hr' as [ Hr' | [ <- | [] ] ].
      * right. now exists r'.
      * now left.
  - rewrite List.map_app. simpl. apply List.NoDup_app; repeat split.
    + exact Hnd.
    + repeat constructor. intros [].
    + intros k Hk [ <- | [] ]. apply E, Hseen.
      apply List.in_map_iff in Hk as (r' & Hk & Hr'). now exists r'.
Qed.

Lemma dedup_fold rows : forall st,
  Reddit.dedup_invariant st ->
  Reddit.dedup_invariant (List.fold_left dedup_step rows st) /\
  forall k,
    List.find (has_key k) (snd (List.fold_left dedup_step rows st))
    = match List.find (has_key k) (snd st) with
      | Some r => Some r
      | None => List.find (has_key k) rows
      end.
Proof.
  induction rows as [ | r rows IH ]; intros st Hst; simpl.
  - split; [ exact Hst | ]. intros k. now destruct (List.find _ _).
  - destruct (IH _ (dedup_step_invariant st r Hst)) as [Hinv Hfind].
    split; [ exact Hinv | ]. intros k. rewrite Hfind. clear Hfind Hinv IH.
    destruct st as [seen uniq]. destruct Hst as [Hseen Hnd]. unfold dedup_step. simpl in *.
    destruct (bool_decide (key_of r ∈ seen)) eqn:E; simpl.
    + apply bool_decide_eq_true_1 in E.
      destruct (List.find (has_key k) uniq) eqn:F; [ reflexivity | ].
      assert (Hk : has_key k r = false); [ | now rewrite Hk ].
      apply bool_decide_eq_false_2. intros <-.
      apply Hseen in E as (r' & Hr' & Hk).
      now apply (proj1 (find_has_key_none _ _) F r').
    + rewrite find_has_key_app. simpl.
      destruct (List.find (has_key k) uniq); [ reflexivity | ].
      now destruct (has_key k r).
Qed.

Lemma dedup_invariant_empty : Reddit.dedup_invariant (∅, nil).
Proof.
  split; simpl; [ | constructor ]. intros k. split.
  - intros H. now apply not_elem_of_empty in H.
  - intros (r & [] & _).
Qed.

Lemma unique_keys all_rows : List.NoDup (List.map key_of (unique all_rows)).
Proof. apply (dedup_fold all_rows _ dedup_invariant_empty). Qed.

Lemma unique_find all_rows k :
  List.find (has_key k) (unique all_rows) = List.find (has_key k) all_rows.
Proof. apply (proj2 (dedup_fold all_rows _ dedup_invariant_empty) k). Qed.

Lemma unique_first all_rows r :
  In r (unique all_rows) <-> List.find (has_key (key_of r)) all_rows = Some r.
Proof.
  rewrite <- unique_find. split.
  - apply find_has_key_unique, unique_keys.
  - apply find_has_key_some.
Qed.

Lemma unique_incl all_rows r : In r (unique all_rows) -> In r all_rows.
Proof. intros H. apply unique_first in H. now apply find_has_key_some in H. Qed.

Lemma write_combined_csv_spec all_rows w :
  write_combined_csv all_rows w
  = (Ok (sort_reverse raw_metric PyFloat.ltb (unique all_rows)), tick w).
Proof. reflexivity. Qed.

End Duplicates.

(** C4: the rows that the forum pipeline writes hold exactly one record for
    each identity key, the pair of the lower-cased title and the lower-cased
    community: the keys of the written rows are pairwise distinct, and a
    record is written exactly when it is the first record of the input with
    its key, whatever its score. *)
Theorem dedup_first_seen_wins all_rows w out w' :
  Reddit.write_combined_csv all_rows w = (Ok out, w') ->
  (forall r, Reddit.key_of r
             = (PyStr.lower (Reddit.title r), PyStr.lower (Reddit.subreddit r))) /\
  List.NoDup (List.map Reddit.key_of out) /\
  (forall r, In r out <-> List.find (Reddit.has_key (Reddit.key_of r)) all_rows = Some r).
Proof.
  rewrite write_combined_csv_spec. intros [= <- _].
  pose proof (sort_reverse_perm Reddit.raw_metric PyFloat.ltb (Reddit.unique all_rows)) as HP.
  split; [ reflexivity | ]. split.
  - eapply Permutation_NoDup.
    + symmetry. apply Permutation_map, HP.
    + apply unique_keys.
  - intros r. rewrite <- unique_first. split; apply Permutation_in; [ | symmetry ]; exact HP.
Qed.

(** C4, at two rows with the same key, the second with the higher score. *)
Lemma dedup_first_seen_wins_witness :
  let post title subreddit velocity score :=
    {| Reddit.source := "reddit"; Reddit.title := title; Reddit.url := "";
       Reddit.region := "GLOBAL"; Reddit.observed_at := 0;
       Reddit.raw_metric := PyFloat.nearest velocity; Reddit.subreddit := subreddit;
       Reddit.score := score; Reddit.age_hours := PyFloat.nearest 1;
       Reddit.num_comments := 0; Reddit.listing_type := "rising" |} in
  let first := post "Breaking News" "news" 10 10 in
  let second := post "BREAKING news" "News" 20 20 in
  let w := {| clock := fun n => Z.of_nat n; reads := 0 |} in
  Reddit.write_combined_csv [ first; second ] w = (Ok [ first ], tick w) /\
  List.NoDup (List.map Reddit.key_of [ first ]) /\
  (forall r, In r [ first ] <->
             List.find (Reddit.has_key (Reddit.key_of r)) [ first; second ] = Some r).
Proof.
  intros post first second w.
  assert (H : Reddit.write_combined_csv [ first; second ] w = (Ok [ first ], tick w))
    by (vm_compute; reflexivity).
  split; [ exact H | ].
  exact (proj2 (dedup_first_seen_wins [ first; second ] w [ first ] (tick w) H)).
Defined.

(** ** The rows of the forum pipeline *)

Section ForumRows.
Import Reddit.

Lemma not_below_positive s x m e :
  PyFloat.has_sign s x -> PyFloat.ltb x (S754_finite false m e) = false ->
  PyFloat.has_sign false x /\ forall s', x <> S754_zero s'.
Proof.
  destruct x as [ [ | ] | [ | ] | | [ | ] m' e' ]; cbv [PyFloat.has_sign]; try tauto;
    intros _; cbv [PyFloat.ltb SFltb SFcompare]; intros H; try discriminate H;
    split; try reflexivity; discriminate.
Qed.

Lemma max_0_25_positive hours s :
  PyFloat.has_sign s hours ->
  PyFloat.has_sign false (PyFloat.max hours PyFloat.f_0_25) /\
  forall s', PyFloat.max hours PyFloat.f_0_25 <> S754_zero s'.
Proof.
  intros Hs. unfold PyFloat.max.
  destruct (PyFloat.ltb hours PyFloat.f_0_25) eqn:E.
  - split; [ reflexivity | discriminate ].
  - now apply (not_below_positive s hours _ _ Hs E).
Qed.

Lemma age_h_of_positive now_ created_utc age_h :
  age_h_of now_ created_utc = Ok age_h ->
  PyFloat.has_sign false age_h /\ forall s, age_h <> S754_zero s.
Proof.
  unfold age_h_of.
  destruct (PyFloat.int_true_divide (now_ - created_utc) 1000000) as [ ts | e ] eqn:E;
    simpl; [ | discriminate ].
  intros [= <-].
  apply (max_0_25_positive _ (xorb (xorb (now_ - created_utc <? 0) (1000000 <? 0)) false)).
  apply SFdiv_sign.
  - now apply int_true_divide_sign.
  - reflexivity.
  - intros s ->. unfold PyFloat.int_true_divide in E.
    destruct (1000000 =? 0); [ discriminate | ].
    destruct (now_ - created_utc =? 0); [ discriminate | ].
    destruct (PyFloat.round_quotient _ _ _); discriminate.
  - discriminate.
Qed.

(** What the body of the loop gives for a post. *)
Lemma normalize_spec now_ kind d w r w' :
  normalize now_ kind d w = (Ok r, w') ->
  w' = tick w /\
  title r = get_or_empty (p_title d) /\
  subreddit r = get_or_empty (p_subreddit d) /\
  listing_type r = kind /\
  observed_at r = now_ - now_ mod 1000000 /\
  PyFloat.has_sign (default (p_score d) 0 <? 0) (raw_metric r).
Proof.
  unfold normalize, bind, now, lift, ret.
  destruct (age_h_of now_ _) as [ age_h | e ] eqn:Ea; [ | discriminate ].
  destruct (PyFloat.of_int _) as [ score | e ] eqn:Es; [ | discriminate ].
  apply age_h_of_positive in Ea as [Hpos Hnz].
  unfold velocity_of, PyFloat.div.
  destruct age_h as [ s0 | s0 | | s0 m0 e0 ] eqn:Eh;
    try (exfalso; now apply (Hnz s0)); simpl in Hpos; try contradiction;
    (destruct (PyFloat.to_int score) as [ z | e ]; [ | discriminate ]);
    intros [= <- <-]; simpl; repeat split;
    apply round_ndigits_sign;
    rewrite <- (xorb_false_r (default (p_score d) 0 <? 0));
    (apply SFdiv_sign;
     [ now apply of_int_sign
     | simpl; congruence
     | intros s ->; unfold PyFloat.of_int in Es; destruct (PyFloat.nearest _); discriminate
     | discriminate ]).
Qed.

Lemma normalize_children_spec now_ kind children : forall out w rows w',
  normalize_children now_ kind children out w = (Ok rows, w') ->
  exists new,
    rows = out ++ new /\
    Forall (fun r => exists d w1 w2,
                In (Some d) children /\ normalize now_ kind d w1 = (Ok r, w2)) new.
Proof.
  induction children as [ | child children IH ]; intros out w rows w' H; simpl in H.
  - injection H as <- <-. exists nil. rewrite app_nil_r. split; constructor.
  - assert (Hmono : forall new,
               Forall (fun r => exists d w1 w2,
                           In (Some d) children /\ normalize now_ kind d w1 = (Ok r, w2)) new ->
               Forall (fun r => exists d w1 w2,
                           In (Some d) (child :: children)
                           /\ normalize now_ kind d w1 = (Ok r, w2)) new).
    { intros new. apply List.Forall_impl. intros r (d & w1 & w2 & Hd & Hn).
      exists d, w1, w2. split; [ now right | exact Hn ]. }
    destruct child as [ d | ].
    + destruct (p_stickied d || truthy (p_removed_by_category d)).
      * apply IH in H as (new & -> & HF). exists new. split; [ reflexivity | auto ].
      * unfold bind in H.
        destruct (normalize now_ kind d w) as [ [ r | e ] w1 ] eqn:En; [ | discriminate ].
        apply IH in H as (new & -> & HF).
        exists (r :: new). rewrite <- app_assoc. split; [ reflexivity | ].
        constructor; [ | auto ].
        exists d, w, w1. split; [ now left | exact En ].
    + apply IH in H as (new & -> & HF). exists new. split; [ reflexivity | auto ].
Qed.

Lemma normalize_items_spec children kind w rows w' :
  normalize_items children kind w = (Ok rows, w') ->
  Forall (fun r => exists d w1 w2,
              In (Some d) children /\
              normalize (clock w (reads w)) kind d w1 = (Ok r, w2)) rows.
Proof.
  unfold normalize_items, bind, now. intros H.
  apply normalize_children_spec in H as (new & -> & HF). exact HF.
Qed.

Lemma normalize_items_numbers children kind w rows w' :
  normalize_items children kind w = (Ok rows, w') ->
  Forall (fun r => PyFloat.is_nan (raw_metric r) = false) rows.
Proof.
  intros H. apply normalize_items_spec in H.
  eapply List.Forall_impl; [ | exact H ].
  intros r (d & w1 & w2 & _ & Hn). apply normalize_spec in Hn.
  eapply has_sign_not_nan. apply Hn.
Qed.

End ForumRows.

(** ** The order of the written records *)

Section Order.

Lemma listing_rows_numbers answer kind w rows w' :
  Reddit.listing_rows answer kind w = (Ok rows, w') ->
  Forall (fun r => PyFloat.is_nan (Reddit.raw_metric r) = false) rows.
Proof.
  unfold Reddit.listing_rows. destruct answer as [ children | ].
  - unfold bind, catch, ret.
    destruct (Reddit.normalize_items children kind w) as [ [ l | e ] w1 ] eqn:E.
    + intros [= <- _]. now apply normalize_items_numbers in E.
    + intros [= <- _]. constructor.
  - intros [= <- _]. constructor.
Qed.

Lemma fetch_all_numbers rising hot w all_rows w' :
  Reddit.fetch_all rising hot w = (Ok all_rows, w') ->
  Forall (fun r => PyFloat.is_nan (Reddit.raw_metric r) = false) all_rows.
Proof.
  unfold Reddit.fetch_all, bind, ret.
  destruct (Reddit.listing_rows rising "rising" w) as [ [ l1 | e ] w1 ] eqn:E1;
    [ | discriminate ].
  destruct (Reddit.listing_rows hot "hot" w1) as [ [ l2 | e ] w2 ] eqn:E2;
    [ | discriminate ].
  intros [= <- _]. apply List.Forall_app. split.
  - now apply listing_rows_numbers in E1.
  - now apply listing_rows_numbers in E2.
Qed.

Lemma unique_numbers all_rows :
  Forall (fun r => PyFloat.is_nan (Reddit.raw_metric r) = false) all_rows ->
  Forall (fun r => PyFloat.is_nan (Reddit.raw_metric r) = false) (Reddit.unique all_rows).
Proof.
  intros H. apply List.Forall_forall. intros r Hr.
  apply unique_incl in Hr. exact (proj1 (List.Forall_forall _ _) H r Hr).
Qed.

(** The written rows of the forum pipeline, for rows whose raw metric is a
    number. *)
Lemma forum_rows_sorted all_rows :
  Forall (fun r => PyFloat.is_nan (Reddit.raw_metric r) = false) all_rows ->
  let out := sort_reverse Reddit.raw_metric PyFloat.ltb (Reddit.unique all_rows) in
  descending Reddit.raw_metric PyFloat.ltb out /\
  stable Reddit.raw_metric PyFloat.ltb (Reddit.unique all_rows) out.
Proof.
  intros H out. apply unique_numbers in H. split.
  - exact (sort_reverse_descending Reddit.raw_metric PyFloat.ltb
             (fun k => PyFloat.is_nan k = false) ltb_asym ltb_negtrans _ H).
  - exact (sort_reverse_stable Reddit.raw_metric PyFloat.ltb
             (fun k => PyFloat.is_nan k = false) ltb_negtrans _ H).
Qed.

Lemma Z_ltb_asym a b : True -> True -> (a <? b) = true -> (b <? a) = false.
Proof. lia. Qed.

Lemma Z_ltb_negtrans a b c :
  True -> True -> True -> (a <? b) = false -> (b <? c) = false -> (a <? c) = false.
Proof. lia. Qed.

Lemma encyclopedia_rows_sorted (real : list Wikipedia.real_article) :
  let out := sort_reverse Wikipedia.a_raw_metric Z.ltb real in
  descending Wikipedia.a_raw_metric Z.ltb out /\
  stable Wikipedia.a_raw_metric Z.ltb real out.
Proof.
  intros out.
  assert (Hg : Forall (fun r => (fun _ : Z => True) (Wikipedia.a_raw_metric r)) real)
    by (apply List.Forall_forall; auto).
  split.
  - exact (sort_reverse_descending Wikipedia.a_raw_metric Z.ltb
             (fun _ => True) Z_ltb_asym Z_ltb_negtrans _ Hg).
  - exact (sort_reverse_stable Wikipedia.a_raw_metric Z.ltb
             (fun _ => True) Z_ltb_negtrans _ Hg).
Qed.

End Order.

(** C5, as the code has it: the rows that a run of the forum pipeline
    writes, and the articles that a run of the encyclopedia pipeline
    fetches, are in descending order of the raw metric, and records of equal
    raw metric are in the order in which they were read; three records with
    the raw metrics 10, 20 and 10 come out as the 20, the first 10 and the
    second 10.  The video pipeline does not sort: its records are those of
    the items, in the order of the items. *)
Theorem output_sorted_descending_stable :
  (forall rising hot w all_rows w1 out w',
     Reddit.fetch_all rising hot w = (Ok all_rows, w1) ->
     Reddit.main rising hot w = (Ok (Some out), w') ->
     descending Reddit.raw_metric PyFloat.ltb out /\
     Permutation out (Reddit.unique all_rows) /\
     stable Reddit.raw_metric PyFloat.ltb (Reddit.unique all_rows) out) /\
  (forall wiki_summary quote lang max_items max_summaries days,
     let real := Wikipedia.verified wiki_summary quote lang max_items max_summaries days in
     let out :=
       Wikipedia.fetch_wiki_top_real wiki_summary quote lang max_items max_summaries days in
     descending Wikipedia.a_raw_metric Z.ltb out /\
     Permutation out real /\
     stable Wikipedia.a_raw_metric Z.ltb real out) /\
  (forall A (first second third : A),
     sort_reverse snd Z.ltb [ (first, 10); (second, 20); (third, 10) ]
     = [ (second, 20); (first, 10); (third, 10) ]) /\
  (forall videos w,
     YouTube.extract_trending_topics videos w
     = (Ok (List.flat_map (YouTube.appended (clock w (reads w))) videos), tick w)).
Proof.
  split; [ | split; [ | split ] ].
  - intros rising hot w all_rows w1 out w' Hf Hm.
    unfold Reddit.main, bind in Hm. rewrite Hf in Hm.
    destruct all_rows as [ | r all_rows ]; [ discriminate | ].
    rewrite write_combined_csv_spec in Hm. injection Hm as <- _.
    apply fetch_all_numbers in Hf.
    destruct (forum_rows_sorted _ Hf) as [Hd Hs].
    split; [ exact Hd | split; [ apply sort_reverse_perm | exact Hs ] ].
  - intros wiki_summary quote lang max_items max_summaries days real out.
    destruct (encyclopedia_rows_sorted real) as [Hd Hs].
    split; [ exact Hd | split; [ apply sort_reverse_perm | exact Hs ] ].
  - reflexivity.
  - apply youtube_extract_spec.
Qed.

(** C5, at a run of the forum pipeline on one listing of three posts. *)
Lemma output_sorted_descending_stable_witness :
  let post title score :=
    Some {| Reddit.p_title := Text title; Reddit.p_permalink := Absent;
            Reddit.p_url_overridden_by_dest := Absent; Reddit.p_subreddit := Text "all";
            Reddit.p_created_utc := Some 0; Reddit.p_score := Some score;
            Reddit.p_num_comments := None; Reddit.p_stickied := false;
            Reddit.p_removed_by_category := Null |} in
  let rising := Some [ post "first" 10; post "second" 20; post "third" 10 ] in
  let w := {| clock := fun _ => 3600000000; reads := 0 |} in
  exists all_rows w1 out w',
    Reddit.fetch_all rising None w = (Ok all_rows, w1) /\
    Reddit.main rising None w = (Ok (Some out), w') /\
    List.map Reddit.title all_rows = [ "first"; "second"; "third" ] /\
    List.map Reddit.title out = [ "second"; "first"; "third" ] /\
    descending Reddit.raw_metric PyFloat.ltb out /\
    Permutation out (Reddit.unique all_rows) /\
    stable Reddit.raw_metric PyFloat.ltb (Reddit.unique all_rows) out.
Proof.
  intros post rising w.
  destruct (Reddit.fetch_all rising None w) as [ [ all_rows | e ] w1 ] eqn:Hf;
    vm_compute in Hf; [ | discriminate ].
  destruct (Reddit.main rising None w) as [ [ [ out | ] | e ] w' ] eqn:Hm;
    vm_compute in Hm; try discriminate.
  exists all_rows, w1, out, w'.
  split; [ reflexivity | ]. split; [ reflexivity | ].
  split; [ injection Hf as <- _; reflexivity | ].
  split; [ injection Hm as <- _; reflexivity | ].
  exact (proj1 output_sorted_descending_stable rising None w all_rows w1 out w' Hf Hm).
Defined.

(** ** The time stamp of the records *)

Section Snapshot.

Lemma constant_same_snapshot {A} (observed_at : A -> Z) (records : list A) (now_ : Z) :
  Forall (fun t => observed_at t = now_) records -> Spec.same_snapshot observed_at records.
Proof.
  intros H a b Ha Hb.
  rewrite (proj1 (List.Forall_forall _ _) H a Ha), (proj1 (List.Forall_forall _ _) H b Hb).
  reflexivity.
Qed.

Lemma wikipedia_normalize_observed_at observed_at a t :
  Wikipedia.normalize observed_at a = Ok t -> Wikipedia.observed_at t = observed_at.
Proof.
  unfold Wikipedia.normalize.
  destruct (Wikipedia.score_of _); simpl; [ | discriminate ].
  destruct (Wikipedia.a_title a); [ | discriminate ].
  intros [= <-]. reflexivity.
Qed.

Lemma youtube_normalize_observed_at observed_at v t :
  YouTube.normalize observed_at v = Ok (Some t) -> YouTube.observed_at t = observed_at.
Proof.
  unfold YouTube.normalize.
  destruct (get _ ""); [ | discriminate ].
  destruct (PyStr.is_empty _); [ discriminate | ].
  destruct (YouTube.view_count_of _); simpl; [ | discriminate ].
  destruct (PyFloat.int_true_divide _ 1000); simpl; [ | discriminate ].
  destruct (get _ ""); [ | discriminate ].
  intros [= <-]. reflexivity.
Qed.

Lemma wikipedia_extract_observed_at articles w topics w' :
  Wikipedia.extract_trending_topics articles w = (Ok topics, w') ->
  Forall (fun t => Wikipedia.observed_at t = clock w (reads w)) topics.
Proof.
  intros H. apply wikipedia_extract_spec in H as [_ HF].
  induction HF as [ | a t articles topics Ht HF IH ]; constructor; auto.
  now apply (wikipedia_normalize_observed_at _ a).
Qed.

Lemma youtube_extract_observed_at videos w topics w' :
  YouTube.extract_trending_topics videos w = (Ok topics, w') ->
  Forall (fun t => YouTube.observed_at t = clock w (reads w)) topics.
Proof.
  rewrite youtube_extract_spec. intros [= <- _].
  apply List.Forall_forall. intros t Ht.
  apply youtube_appended_In in Ht as (v & _ & Hv).
  exact (youtube_normalize_observed_at _ v t Hv).
Qed.

Lemma reddit_normalize_items_observed_at children kind w rows w' :
  Reddit.normalize_items children kind w = (Ok rows, w') ->
  Forall (fun r => Reddit.observed_at r
                   = clock w (reads w) - clock w (reads w) mod 1000000) rows.
Proof.
  intros H. apply normalize_items_spec in H.
  eapply List.Forall_impl; [ | exact H ].
  intros r (d & w1 & w2 & _ & Hn). apply normalize_spec in Hn. apply Hn.
Qed.

End Snapshot.

(** C7, as the code has it: in the encyclopedia and the video pipeline the
    clock is read once in a run of the normalizer, and in the forum pipeline
    once, for the time stamp, in a call of the normalizer; every record of
    that run or call carries this one reading (cut to the second in the
    forum pipeline), so any two of them have the same time stamp.  The
    search trends pipeline reads the clock for every record that it emits:
    its records carry the successive readings of the run. *)
Theorem observed_at_single_snapshot :
  (forall articles w topics w',
     Wikipedia.extract_trending_topics articles w = (Ok topics, w') ->
     w' = tick w /\
     Forall (fun t => Wikipedia.observed_at t = clock w (reads w)) topics /\
     Spec.same_snapshot Wikipedia.observed_at topics) /\
  (forall videos w topics w',
     YouTube.extract_trending_topics videos w = (Ok topics, w') ->
     w' = tick w /\
     Forall (fun t => YouTube.observed_at t = clock w (reads w)) topics /\
     Spec.same_snapshot YouTube.observed_at topics) /\
  (forall children kind w rows w',
     Reddit.normalize_items children kind w = (Ok rows, w') ->
     Forall (fun r => Reddit.observed_at r
                      = clock w (reads w) - clock w (reads w) mod 1000000) rows /\
     Spec.same_snapshot Reddit.observed_at rows) /\
  (forall rows region w trends,
     fst (GoogleTrends.process_csv_to_schema (Some rows) region w) = Ok (Some trends) ->
     List.map GoogleTrends.observed_at trends
     = List.map (clock w) (List.seq (reads w) (length trends))).
Proof.
  split; [ | split; [ | split ] ].
  - intros articles w topics w' H.
    pose proof (wikipedia_extract_observed_at _ _ _ _ H) as HF.
    apply wikipedia_extract_spec in H as [-> _].
    split; [ reflexivity | ]. split; [ exact HF | ].
    now apply (constant_same_snapshot _ _ (clock w (reads w))).
  - intros videos w topics w' H.
    pose proof (youtube_extract_observed_at _ _ _ _ H) as HF.
    rewrite youtube_extract_spec in H. injection H as _ <-.
    split; [ reflexivity | ]. split; [ exact HF | ].
    now apply (constant_same_snapshot _ _ (clock w (reads w))).
  - intros children kind w rows w' H.
    pose proof (reddit_normalize_items_observed_at _ _ _ _ _ H) as HF.
    split; [ exact HF | ].
    now apply (constant_same_snapshot _ _ (clock w (reads w) - clock w (reads w) mod 1000000)).
  - intros rows region w trends.
    unfold GoogleTrends.process_csv_to_schema, bind, catch, ret.
    destruct (GoogleTrends.process_rows region rows nil w) as [ [ l | e ] w1 ] eqn:E;
      [ | discriminate ].
    apply process_rows_spec in E as (new & -> & _ & Ho & _). simpl.
    destruct new as [ | t new ]; [ discriminate | ]. intros [= <-]. exact Ho.
Qed.

(** C7, at a run of the video pipeline on two videos, with a clock that
    advances at every reading. *)
Lemma observed_at_single_snapshot_witness :
  let video title :=
    {| YouTube.id := Some title; YouTube.snippet_title := Text title;
       YouTube.snippet_channelTitle := Absent; YouTube.snippet_publishedAt := Absent;
       YouTube.snippet_description := Absent; YouTube.statistics_viewCount := Text "1000" |} in
  let videos := [ video "one"; video "two" ] in
  let w := {| clock := fun n => Z.of_nat n; reads := 0 |} in
  exists topics w',
    YouTube.extract_trending_topics videos w = (Ok topics, w') /\
    List.map YouTube.observed_at topics = [ 0; 0 ] /\
    Spec.same_snapshot YouTube.observed_at topics.
Proof.
  intros video videos w.
  destruct (YouTube.extract_trending_topics videos w) as [ [ topics | e ] w' ] eqn:H;
    vm_compute in H; [ | discriminate ].
  exists topics, w'. split; [ reflexivity | ].
  split; [ injection H as <- _; reflexivity | ].
  apply (proj1 (proj2 observed_at_single_snapshot) videos w topics w' H).
Defined.

(** C7 fails in the search trends pipeline, which reads the clock for every
    record: with a clock that advances at every reading, two rows above the
    threshold give two records with different time stamps. *)
Lemma search_trends_observed_at_differs :
  let rows :=
    [ {| GoogleTrends.Trends := Text "solar eclipse"; GoogleTrends.Search_volume := Text "20K+" |};
      {| GoogleTrends.Trends := Text "world cup"; GoogleTrends.Search_volume := Text "1.5M" |} ] in
  let w := {| clock := fun n => Z.of_nat n; reads := 0 |} in
  exists trends,
    fst (GoogleTrends.process_csv_to_schema (Some rows) "US" w) = Ok (Some trends) /\
    List.map GoogleTrends.observed_at trends = [ 0; 1 ] /\
    ~ Spec.same_snapshot GoogleTrends.observed_at trends.
Proof.
  intros rows w.
  destruct (fst (GoogleTrends.process_csv_to_schema (Some rows) "US" w))
    as [ [ trends | ] | e ] eqn:H; vm_compute in H; try discriminate.
  exists trends. split; [ reflexivity | ].
  injection H as <-. split; [ reflexivity | ].
  intros Hs.
  specialize (Hs _ _ (or_introl eq_refl) (or_intror (or_introl eq_refl))).
  discriminate Hs.
Qed.

(** ** Titles *)

Section Titles.
Import PyStr.

Lemma rstrip_idempotent s : rstrip (rstrip s) = rstrip s.
Proof.
  induction s as [ | c s IH ]; simpl; [ reflexivity | ].
  destruct (isspace c && is_empty (rstrip s)) eqn:E; simpl; [ reflexivity | ].
  now rewrite IH, E.
Qed.

(** A text that does not start with white space keeps its start when the
    white space at its end is taken off. *)
Lemma lstrip_rstrip_lstrip s : lstrip (rstrip (lstrip s)) = rstrip (lstrip s).
Proof.
  induction s as [ | c s IH ]; simpl; [ reflexivity | ].
  destruct (isspace c) eqn:E; [ exact IH | ].
  simpl. rewrite E. simpl. now rewrite E.
Qed.

Lemma strip_idempotent s : strip (strip s) = strip s.
Proof.
  unfold strip. rewrite lstrip_rstrip_lstrip. apply rstrip_idempotent.
Qed.

Lemma is_empty_false s : is_empty s = false -> s <> "".
Proof. destruct s; [ discriminate | discriminate ]. Qed.

Lemma is_empty_true s : s = "" -> is_empty s = true.
Proof. now intros ->. Qed.

End Titles.

(** ** Empty titles in the video pipeline *)

Section EmptyTitles.
Import YouTube.

Lemma normalize_empty_title observed_at v t :
  get (snippet_title v) "" = Some t -> PyStr.strip t = "" ->
  normalize observed_at v = Ok None.
Proof.
  intros Hg Hs. unfold normalize. rewrite Hg, Hs. reflexivity.
Qed.

Lemma normalize_titled observed_at v t :
  normalize observed_at v = Ok (Some t) -> Spec.titled (title t).
Proof.
  unfold normalize, Spec.titled.
  destruct (get _ "") as [ raw | ]; [ | discriminate ].
  destruct (PyStr.is_empty (PyStr.strip raw)) eqn:E; [ discriminate | ].
  destruct (view_count_of _); simpl; [ | discriminate ].
  destruct (PyFloat.int_true_divide _ 1000); simpl; [ | discriminate ].
  destruct (get _ ""); [ | discriminate ].
  intros [= <-]. simpl. rewrite strip_idempotent. now apply is_empty_false.
Qed.

End EmptyTitles.

(** C8, as the code has it: in the video pipeline an item whose title is
    empty once it is trimmed gives no record and no exception; the run goes
    on with the items behind it as if the item were not there; and no record
    of the video pipeline has a title that is empty once it is trimmed. *)
Theorem empty_title_is_skipped :
  (forall observed_at v t,
     get (YouTube.snippet_title v) "" = Some t -> PyStr.strip t = "" ->
     YouTube.normalize observed_at v = Ok None) /\
  (forall before v t behind w,
     get (YouTube.snippet_title v) "" = Some t -> PyStr.strip t = "" ->
     YouTube.extract_trending_topics (before ++ v :: behind) w
     = YouTube.extract_trending_topics (before ++ behind) w) /\
  (forall videos w topics w',
     YouTube.extract_trending_topics videos w = (Ok topics, w') ->
     Forall (fun t => Spec.titled (YouTube.title t)) topics).
Proof.
  split; [ | split ].
  - apply normalize_empty_title.
  - intros before v t behind w Hg Hs. rewrite !youtube_extract_spec.
    rewrite !List.flat_map_app. simpl. unfold YouTube.appended at 2.
    now rewrite (normalize_empty_title _ v t Hg Hs).
  - intros videos w topics w'. rewrite youtube_extract_spec. intros [= <- _].
    apply List.Forall_forall. intros t Ht.
    apply youtube_appended_In in Ht as (v & _ & Hv).
    exact (normalize_titled _ v t Hv).
Qed.

(** C8, at a run of the video pipeline on a video with a blank title
    between two videos with a title. *)
Lemma empty_title_is_skipped_witness :
  let video title :=
    {| YouTube.id := Some "id"; YouTube.snippet_title := Text title;
       YouTube.snippet_channelTitle := Absent; YouTube.snippet_publishedAt := Absent;
       YouTube.snippet_description := Absent; YouTube.statistics_viewCount := Text "1000" |} in
  let w := {| clock := fun n => Z.of_nat n; reads := 0 |} in
  YouTube.normalize 0 (video "   ") = Ok None /\
  YouTube.extract_trending_topics ([ video "one" ] ++ video "   " :: [ video "two" ]) w
  = YouTube.extract_trending_topics ([ video "one" ] ++ [ video "two" ]) w.
Proof.
  intros video w. split.
  - exact (proj1 empty_title_is_skipped 0 (video "   ") "   " eq_refl eq_refl).
  - exact (proj1 (proj2 empty_title_is_skipped) [ video "one" ] (video "   ") "   "
             [ video "two" ] w eq_refl eq_refl).
Defined.

(** C8 fails in the forum pipeline, which does not look at the title: a
    post with an empty title gives a row with an empty title. *)
Lemma forum_row_with_empty_title :
  let post :=
    {| Reddit.p_title := Text ""; Reddit.p_permalink := Text "/r/all/1";
       Reddit.p_url_overridden_by_dest := Absent; Reddit.p_subreddit := Text "all";
       Reddit.p_created_utc := Some 0; Reddit.p_score := Some 10;
       Reddit.p_num_comments := Some 0; Reddit.p_stickied := false;
       Reddit.p_removed_by_category := Null |} in
  let w := {| clock := fun _ => 3600000000; reads := 0 |} in
  exists r w',
    Reddit.normalize_items [ Some post ] "rising" w = (Ok [ r ], w') /\
    Reddit.title r = "" /\
    ~ Spec.titled (Reddit.title r).
Proof.
  intros post w.
  destruct (Reddit.normalize_items [ Some post ] "rising" w) as [ [ rows | e ] w' ] eqn:H;
    vm_compute in H; [ | discriminate ].
  injection H as <- <-.
  eexists. eexists. split; [ reflexivity | ]. split; [ reflexivity | ].
  intros Ht. now apply Ht.
Qed.

(** ** The sign of the raw metric *)

Section RawMetric.

Lemma wikipedia_normalize_raw_metric observed_at a t :
  Wikipedia.normalize observed_at a = Ok t ->
  Wikipedia.raw_metric t = Wikipedia.str (Wikipedia.a_raw_metric a).
Proof.
  unfold Wikipedia.normalize.
  destruct (Wikipedia.score_of _); simpl; [ | discriminate ].
  destruct (Wikipedia.a_title a); [ | discriminate ].
  intros [= <-]. reflexivity.
Qed.

Lemma youtube_normalize_raw_metric observed_at v t :
  YouTube.normalize observed_at v = Ok (Some t) ->
  YouTube.view_count_of (YouTube.statistics_viewCount v) = Ok (YouTube.raw_metric t).
Proof.
  unfold YouTube.normalize.
  destruct (get _ ""); [ | discriminate ].
  destruct (PyStr.is_empty _); [ discriminate | ].
  destruct (YouTube.view_count_of _); simpl; [ | discriminate ].
  destruct (PyFloat.int_true_divide _ 1000); simpl; [ | discriminate ].
  destruct (get _ ""); [ | discriminate ].
  intros [= <-]. reflexivity.
Qed.

End RawMetric.

(** C9, as the code has it: a record of the search trends pipeline has the
    raw metric 1; the raw metric of a forum row is a number, never a NaN,
    with the sign of the score of its post, so it is not negative when the
    score is not negative; an encyclopedia record carries the view count of
    its article in decimal notation, and a video record the view count of
    its video, as they are. *)
Theorem raw_metric_sign :
  (forall rows region w trends,
     fst (GoogleTrends.process_csv_to_schema (Some rows) region w) = Ok (Some trends) ->
     Forall (fun t => GoogleTrends.raw_metric t = 1) trends) /\
  (forall now_ kind d w r w',
     Reddit.normalize now_ kind d w = (Ok r, w') ->
     PyFloat.has_sign (Reddit.default (Reddit.p_score d) 0 <? 0) (Reddit.raw_metric r) /\
     (0 <= Reddit.default (Reddit.p_score d) 0 ->
      PyFloat.negative (Reddit.raw_metric r) = false)) /\
  (forall observed_at a t,
     Wikipedia.normalize observed_at a = Ok t ->
     Wikipedia.raw_metric t = Wikipedia.str (Wikipedia.a_raw_metric a)) /\
  (forall observed_at v t,
     YouTube.normalize observed_at v = Ok (Some t) ->
     YouTube.view_count_of (YouTube.statistics_viewCount v) = Ok (YouTube.raw_metric t)).
Proof.
  split; [ | split; [ | split ] ].
  - intros rows region w trends.
    unfold GoogleTrends.process_csv_to_schema, bind, catch, ret.
    destruct (GoogleTrends.process_rows region rows nil w) as [ [ l | e ] w1 ] eqn:E;
      [ | discriminate ].
    apply process_rows_spec in E as (new & -> & HF & _ & _). simpl.
    destruct new as [ | t new ]; [ discriminate | ]. intros [= <-].
    clear - HF. induction HF as [ | row t' rows' new' Ht HF IH ]; constructor; auto.
    apply Ht.
  - intros now_ kind d w r w' H. apply normalize_spec in H.
    destruct H as (_ & _ & _ & _ & _ & Hs). split; [ exact Hs | ].
    intros Hpos. apply has_sign_not_negative.
    replace (Reddit.default (Reddit.p_score d) 0 <? 0) with false in Hs by lia.
    exact Hs.
  - apply wikipedia_normalize_raw_metric.
  - apply youtube_normalize_raw_metric.
Qed.

(** C9, at a post with the score 100 that is two hours old. *)
Lemma raw_metric_sign_witness :
  let post :=
    {| Reddit.p_title := Text "news"; Reddit.p_permalink := Text "/r/all/1";
       Reddit.p_url_overridden_by_dest := Absent; Reddit.p_subreddit := Text "all";
       Reddit.p_created_utc := Some 0; Reddit.p_score := Some 100;
       Reddit.p_num_comments := Some 0; Reddit.p_stickied := false;
       Reddit.p_removed_by_category := Null |} in
  let w := {| clock := fun _ => 7200000000; reads := 1 |} in
  exists r w',
    Reddit.normalize 7200000000 "rising" post w = (Ok r, w') /\
    Reddit.raw_metric r = PyFloat.nearest 50 /\
    PyFloat.negative (Reddit.raw_metric r) = false.
Proof.
  intros post w.
  destruct (Reddit.normalize 7200000000 "rising" post w) as [ [ r | e ] w' ] eqn:H;
    vm_compute in H; [ | discriminate ].
  exists r, w'. split; [ reflexivity | ].
  split; [ injection H as <- _; reflexivity | ].
  apply (proj2 (proj1 (proj2 raw_metric_sign) 7200000000 "rising" post w r w' H)).
  vm_compute. discriminate.
Defined.

(** C9 fails in the forum pipeline for a post with a negative score: the
    score -8 of a post that is two hours old gives the raw metric -4. *)
Lemma forum_raw_metric_negative :
  let post :=
    {| Reddit.p_title := Text "news"; Reddit.p_permalink := Text "/r/all/1";
       Reddit.p_url_overridden_by_dest := Absent; Reddit.p_subreddit := Text "all";
       Reddit.p_created_utc := Some 0; Reddit.p_score := Some (-8);
       Reddit.p_num_comments := Some 0; Reddit.p_stickied := false;
       Reddit.p_removed_by_category := Null |} in
  let w := {| clock := fun _ => 7200000000; reads := 0 |} in
  exists r w',
    Reddit.normalize_items [ Some post ] "rising" w = (Ok [ r ], w') /\
    Reddit.raw_metric r = PyFloat.nearest (-4) /\
    PyFloat.negative (Reddit.raw_metric r) = true.
Proof.
  intros post w.
  destruct (Reddit.normalize_items [ Some post ] "rising" w) as [ [ rows | e ] w' ] eqn:H;
    vm_compute in H; [ | discriminate ].
  injection H as <- <-.
  eexists. eexists. split; [ reflexivity | ]. split; reflexivity.
Qed.

(** ** Slugs *)

Section Slugs.
Import PyStr.

Ltac each_char c := destruct c as [ [ | ] [ | ] [ | ] [ | ] [ | ] [ | ] [ | ] [ | ] ].

Lemma separator_lower_char c : Spec.separator (lower_char c) = Spec.separator c.
Proof. each_char c; vm_compute; reflexivity. Qed.

(** A separator that is a space or an underscore becomes a hyphen. *)
Lemma replace_separator c :
  (Ascii.eqb c " " || Ascii.eqb c "_") = true ->
  (if Ascii.eqb (if Ascii.eqb (lower_char c) " " then "-"%char else lower_char c) "_"
   then "-"%char
   else if Ascii.eqb (lower_char c) " " then "-"%char else lower_char c) = "-"%char.
Proof. each_char c; vm_compute; intros H; try reflexivity; discriminate H. Qed.

(** Any other character is only lower-cased. *)
Lemma replace_other c :
  Spec.separator c = false ->
  (if Ascii.eqb (if Ascii.eqb (lower_char c) " " then "-"%char else lower_char c) "_"
   then "-"%char
   else if Ascii.eqb (lower_char c) " " then "-"%char else lower_char c) = lower_char c.
Proof. each_char c; vm_compute; intros H; try reflexivity; discriminate H. Qed.

Lemma to_slug_cons c s :
  Wikipedia.to_slug (String c s)
  = String (if Ascii.eqb (if Ascii.eqb (lower_char c) " " then "-"%char else lower_char c) "_"
            then "-"%char
            else if Ascii.eqb (lower_char c) " " then "-"%char else lower_char c)
      (Wikipedia.to_slug s).
Proof. reflexivity. Qed.

(** What [to_slug] makes of a character. *)
Lemma to_slug_replaced c :
  (if Ascii.eqb (if Ascii.eqb (lower_char c) " " then "-"%char else lower_char c) "_"
   then "-"%char
   else if Ascii.eqb (lower_char c) " " then "-"%char else lower_char c)
  = (if Ascii.eqb c " " || Ascii.eqb c "_" then "-"%char else lower_char c).
Proof. each_char c; vm_compute; reflexivity. Qed.

Lemma to_slug_length s : String.length (Wikipedia.to_slug s) = String.length s.
Proof.
  induction s as [ | c s IH ]; [ reflexivity | ].
  rewrite to_slug_cons. simpl. now rewrite IH.
Qed.

Lemma to_slug_singly s : forall after_separator,
  Spec.singly after_separator s = true ->
  Spec.hyphenate after_separator (lower s) = Wikipedia.to_slug s.
Proof.
  induction s as [ | c s IH ]; intros b H; [ reflexivity | ].
  rewrite to_slug_cons. cbn [lower Spec.hyphenate Spec.singly] in *.
  rewrite separator_lower_char.
  destruct (Spec.separator c) eqn:E.
  - apply andb_true_iff in H as [H Hs]. apply andb_true_iff in H as [Hc Hb].
    apply negb_true_iff in Hb. subst b.
    rewrite (replace_separator c Hc). now rewrite (IH true Hs).
  - rewrite (replace_other c E). now rewrite (IH false H).
Qed.

End Slugs.

Section VideoSlugs.
Import PyStr.

Ltac each_char c := destruct c as [ [ | ] [ | ] [ | ] [ | ] [ | ] [ | ] [ | ] [ | ] ].

Lemma isspace_lower_char c : isspace (lower_char c) = isspace c.
Proof. each_char c; vm_compute; reflexivity. Qed.

Lemma kept_lower_char c : kept (lower_char c) = kept c.
Proof. each_char c; vm_compute; reflexivity. Qed.

Lemma kept_separator c : kept c = true -> Spec.separator c = isspace c.
Proof. each_char c; vm_compute; intros H; try reflexivity; discriminate H. Qed.

Lemma all_kept_lower s : all_chars kept (lower s) = all_chars kept s.
Proof.
  induction s as [ | c s IH ]; cbn [lower all_chars]; [ reflexivity | ].
  now rewrite kept_lower_char, IH.
Qed.

Lemma filter_all_kept s : all_chars kept s = true -> filter_chars kept s = s.
Proof.
  induction s as [ | c s IH ]; cbn [filter_chars all_chars]; [ reflexivity | ].
  intros H. apply andb_true_iff in H as [Hc Hs]. now rewrite Hc, IH.
Qed.

Lemma is_empty_lower s : is_empty (lower s) = is_empty s.
Proof. now destruct s. Qed.

Lemma lstrip_lower s : lstrip (lower s) = lower (lstrip s).
Proof.
  induction s as [ | c s IH ]; cbn [lower lstrip]; [ reflexivity | ].
  rewrite isspace_lower_char. now destruct (isspace c).
Qed.

Lemma rstrip_lower s : rstrip (lower s) = lower (rstrip s).
Proof.
  induction s as [ | c s IH ]; cbn [lower rstrip]; [ reflexivity | ].
  rewrite isspace_lower_char, IH, is_empty_lower.
  now destruct (isspace c && is_empty (rstrip s)).
Qed.

Lemma strip_lower s : strip (lower s) = lower (strip s).
Proof. unfold strip. now rewrite lstrip_lower, rstrip_lower. Qed.

Lemma split_cons c s :
  split (String c s)
  = if isspace c then split s
    else match s with
         | EmptyString => String c EmptyString :: nil
         | String d _ =>
             if isspace d then String c EmptyString :: split s
             else match split s with
                  | w :: ws => String c w :: ws
                  | nil => String c EmptyString :: nil
                  end
         end.
Proof. reflexivity. Qed.

Lemma split_lower s : split (lower s) = List.map lower (split s).
Proof.
  induction s as [ | c s IH ]; [ reflexivity | ].
  change (lower (String c s)) with (String (lower_char c) (lower s)).
  rewrite !split_cons, isspace_lower_char.
  destruct (isspace c); [ exact IH | ].
  destruct s as [ | d s ]; [ reflexivity | ].
  change (lower (String d s)) with (String (lower_char d) (lower s)) in *.
  cbv iota beta. rewrite isspace_lower_char.
  destruct (isspace d).
  - simpl List.map. now rewrite IH.
  - rewrite IH. now destruct (split (String d s)).
Qed.

(** A text without a word is white space only. *)
Lemma split_nil s : split s = nil -> rstrip s = "".
Proof.
  induction s as [ | c s IH ]; [ reflexivity | ].
  rewrite split_cons. destruct (isspace c) eqn:E.
  - intros H. simpl. now rewrite E, (IH H).
  - destruct s as [ | d s ]; [ discriminate | ].
    destruct (isspace d); [ discriminate | ].
    destruct (split (String d s)); discriminate.
Qed.

Lemma join_cons_char sep c w ws :
  join sep (String c w :: ws) = String c (join sep (w :: ws)).
Proof. destruct ws; reflexivity. Qed.

(** The words of a text, joined by hyphens, are the text with a hyphen for
    every run of white space inside it. *)
Lemma join_split_hyphenate s :
  all_chars kept s = true -> rstrip s = s ->
  Spec.hyphenate true s = join "-" (split s) /\
  Spec.hyphenate false s
  = if starts_with_space s then String "-" (join "-" (split s)) else join "-" (split s).
Proof.
  induction s as [ | c s IH ]; [ split; reflexivity | ].
  intros Hk Hr. cbn [all_chars] in Hk. apply andb_true_iff in Hk as [Hc Hk].
  assert (Hr' : rstrip s = s /\ (isspace c && is_empty s = false)).
  { cbn [rstrip] in Hr. destruct (isspace c && is_empty (rstrip s)) eqn:E; [ discriminate | ].
    injection Hr as Hr. rewrite Hr in E. now split. }
  destruct Hr' as [Hr' Hne]. destruct (IH Hk Hr') as [IHt IHf]. clear IH.
  cbn [Spec.hyphenate starts_with_space]. rewrite (kept_separator c Hc), split_cons.
  destruct (isspace c) eqn:E.
  - rewrite IHt. split; reflexivity.
  - assert (Hj : join "-" (match s with
                           | EmptyString => String c EmptyString :: nil
                           | String d _ =>
                               if isspace d then String c EmptyString :: split s
                               else match split s with
                                    | w :: ws => String c w :: ws
                                    | nil => String c EmptyString :: nil
                                    end
                           end) = String c (Spec.hyphenate false s)).
    { rewrite IHf. destruct s as [ | d s ]; [ reflexivity | ].
      cbn [starts_with_space]. destruct (isspace d) eqn:Ed.
      - destruct (split (String d s)) as [ | w ws ] eqn:Es.
        + apply split_nil in Es. rewrite Hr' in Es. discriminate.
        + reflexivity.
      - destruct (split (String d s)) as [ | w ws ] eqn:Es.
        + apply split_nil in Es. rewrite Hr' in Es. discriminate.
        + apply join_cons_char. }
    rewrite Hj. split; reflexivity.
Qed.

Lemma plain_lower title :
  Spec.plain title ->
  all_chars kept (lower title) = true /\
  rstrip (lower title) = lower title /\
  starts_with_space (lower title) = false.
Proof.
  intros [Hk Hs]. fold kept in Hk.
  assert (Hl : lstrip title = title).
  { rewrite <- Hs at 1. unfold strip. rewrite lstrip_rstrip_lstrip. exact Hs. }
  assert (Hr : rstrip title = title).
  { rewrite <- Hs at 1. unfold strip. rewrite rstrip_idempotent. exact Hs. }
  split; [ now rewrite all_kept_lower | ].
  split; [ now rewrite rstrip_lower, Hr | ].
  destruct title as [ | c s ]; [ reflexivity | ].
  cbn [lower starts_with_space]. rewrite isspace_lower_char.
  destruct (isspace c) eqn:E; [ | reflexivity ].
  exfalso. cbn [lstrip] in Hl. rewrite E in Hl.
  assert (Hlen : (String.length (lstrip s) <= String.length s)%nat).
  { clear. induction s as [ | d s IH ]; simpl; [ lia | ].
    destruct (isspace d); simpl; lia. }
  rewrite Hl in Hlen. simpl in Hlen. lia.
Qed.

Lemma video_slug_plain title :
  Spec.plain title -> (length (split title) <= 5)%nat ->
  YouTube.slug_of title = Spec.slug title.
Proof.
  intros Hp Hw. destruct (plain_lower title Hp) as (Hk & Hr & Hs).
  unfold YouTube.slug_of, Spec.slug. fold kept.
  rewrite (filter_all_kept _ Hk).
  rewrite List.firstn_all2 by (rewrite split_lower, List.length_map; exact Hw).
  destruct (join_split_hyphenate _ Hk Hr) as [_ Hf].
  rewrite Hf, Hs. reflexivity.
Qed.

End VideoSlugs.

(** C6, as the code has it, for a title of ASCII characters: the slug of an
    encyclopedia title has, position by position, a hyphen where the title
    has a space or an underscore and the lower-cased character of the title
    everywhere else, so any other white space is kept, runs are not
    collapsed and the slug has the length of the title; it is the title in
    lower case with one hyphen for every run of white space and underscores
    when every separator of the title is a single space or a single
    underscore.  The slug of a video title is that text when the title is
    made of ASCII letters, digits and white space, does not start or end
    with white space and has at most five words. *)
Theorem slug_of_separated_title :
  (forall title,
     PyStr.isascii title = true ->
     String.length (Wikipedia.to_slug title) = String.length title /\
     forall i c,
       String.get i title = Some c ->
       String.get i (Wikipedia.to_slug title)
       = Some (if Ascii.eqb c " " || Ascii.eqb c "_" then "-"%char
               else PyStr.lower_char c)) /\
  (forall title,
     PyStr.isascii title = true ->
     Spec.singly false title = true -> Wikipedia.to_slug title = Spec.slug title) /\
  (forall title,
     Spec.plain title -> (length (PyStr.split title) <= 5)%nat ->
     YouTube.slug_of title = Spec.slug title).
Proof.
  split; [ | split ].
  - intros title _. split; [ apply to_slug_length | ].
    induction title as [ | a title IH ]; intros i c; [ discriminate | ].
    rewrite to_slug_cons, to_slug_replaced.
    destruct i as [ | i ]; cbn [String.get].
    + now intros [= ->].
    + apply IH.
  - intros title _ H. symmetry. now apply to_slug_singly.
  - apply video_slug_plain.
Qed.

(** C6, at an encyclopedia title with underscores and a TAB, which is kept,
    and at a video title of four words. *)
Lemma slug_of_separated_title_witness :
  Wikipedia.to_slug "Artificial_general_intelligence" = "artificial-general-intelligence" /\
  Wikipedia.to_slug "Artificial_general_intelligence"
  = Spec.slug "Artificial_general_intelligence" /\
  String.get 4 (Wikipedia.to_slug ("Deep" +:+ String "009" "Learning_2")) = Some "009"%char /\
  String.get 13 (Wikipedia.to_slug ("Deep" +:+ String "009" "Learning_2")) = Some "-"%char /\
  YouTube.slug_of "Top 10   Goals of  2024" = "top-10-goals-of-2024" /\
  YouTube.slug_of "Top 10   Goals of  2024" = Spec.slug "Top 10   Goals of  2024".
Proof.
  split; [ reflexivity | ].
  split; [ | split; [ | split; [ | split; [ reflexivity | ] ] ] ].
  - apply (proj1 (proj2 slug_of_separated_title)); reflexivity.
  - apply (proj2 (proj1 slug_of_separated_title
                    ("Deep" +:+ String "009" "Learning_2") eq_refl) 4%nat "009"%char).
    reflexivity.
  - apply (proj2 (proj1 slug_of_separated_title
                    ("Deep" +:+ String "009" "Learning_2") eq_refl) 13%nat "_"%char).
    reflexivity.
  - apply (proj2 (proj2 slug_of_separated_title)).
    + split; reflexivity.
    + vm_compute. lia.
Defined.

(** C6 fails where separators come in runs: the encyclopedia slug has a
    hyphen for each of two underscores, and the video slug drops the
    underscore. *)
Lemma slug_of_run_of_separators :
  Wikipedia.to_slug "Deep__Learning" = "deep--learning" /\
  YouTube.slug_of "Deep_Learning" = "deeplearning" /\
  Spec.slug "Deep__Learning" = "deep-learning" /\
  Spec.slug "Deep_Learning" = "deep-learning" /\
  Wikipedia.to_slug "Deep__Learning" <> Spec.slug "Deep__Learning" /\
  YouTube.slug_of "Deep_Learning" <> Spec.slug "Deep_Learning".
Proof. repeat split; try reflexivity; vm_compute; discriminate. Qed.

(** C5 fails in the video pipeline, which has no sort: two videos with 1000
    and 2000 views give their records in that order, the lower raw metric
    and the lower score first. *)
Lemma video_records_in_input_order :
  let video title views :=
    {| YouTube.id := Some title; YouTube.snippet_title := Text title;
       YouTube.snippet_channelTitle := Absent; YouTube.snippet_publishedAt := Absent;
       YouTube.snippet_description := Absent; YouTube.statistics_viewCount := Text views |} in
  let videos := [ video "one" "1000"; video "two" "2000" ] in
  let w := {| clock := fun n => Z.of_nat n; reads := 0 |} in
  exists topics w',
    YouTube.extract_trending_topics videos w = (Ok topics, w') /\
    List.map YouTube.raw_metric topics = [ 1000; 2000 ] /\
    List.map YouTube.score topics
    = [ PyFloat.Float (PyFloat.nearest 1); PyFloat.Float (PyFloat.nearest 2) ] /\
    ~ descending YouTube.raw_metric Z.ltb topics /\
    ~ descending YouTube.score PyFloat.number_lt topics.
Proof.
  intros video videos w.
  destruct (YouTube.extract_trending_topics videos w) as [ [ topics | e ] w' ] eqn:H;
    vm_compute in H; [ | discriminate ].
  exists topics, w'. split; [ reflexivity | ].
  injection H as <- _.
  split; [ reflexivity | ]. split; [ reflexivity | ].
  split; intros Hd; inversion Hd as [ | a l _ Hall ]; subst;
    inversion Hall as [ | b l' Hab _ ]; subst; vm_compute in Hab; discriminate.
Qed.

(** * Further properties of the scripts *)

(** ** The forum pipeline *)

Section ForumMore.
Import Reddit.

(** The removal of duplicates keeps the rows in the order of the input. *)
Lemma dedup_fold_sublist rows : forall st,
  exists new,
    snd (List.fold_left dedup_step rows st) = snd st ++ new /\ sublist new rows.
Proof.
  induction rows as [ | r rows IH ]; intros st; simpl.
  - exists nil. rewrite app_nil_r. split; [ reflexivity | constructor ].
  - destruct (IH (dedup_step st r)) as (new & E & Hs). rewrite E.
    destruct st as [seen uniq]. unfold dedup_step. simpl.
    destruct (bool_decide (key_of r ∈ seen)); simpl.
    + exists new. split; [ reflexivity | now apply sublist_cons ].
    + exists (r :: new). rewrite <- app_assoc. split; [ reflexivity | now apply sublist_skip ].
Qed.

Lemma unique_sublist all_rows : sublist (unique all_rows) all_rows.
Proof.
  destruct (dedup_fold_sublist all_rows (∅, nil)) as (new & E & Hs).
  unfold unique. rewrite E. exact Hs.
Qed.

(** Rows with pairwise distinct keys, none of them seen, are all kept. *)
Lemma dedup_fold_distinct rows : forall seen uniq,
  List.NoDup (List.map key_of rows) ->
  (forall r, In r rows -> key_of r ∉ seen) ->
  snd (List.fold_left dedup_step rows (seen, uniq)) = uniq ++ rows.
Proof.
  induction rows as [ | r rows IH ]; intros seen uniq Hnd Hseen; simpl.
  - now rewrite app_nil_r.
  - apply List.NoDup_cons_iff in Hnd as [Hr Hnd].
    rewrite bool_decide_eq_false_2 by (apply Hseen; now left).
    rewrite IH.
    + now rewrite <- app_assoc.
    + exact Hnd.
    + intros r' Hr'. rewrite elem_of_union, elem_of_singleton.
      intros [ E | Hin ].
      * apply Hr. rewrite <- E. now apply List.in_map.
      * apply (Hseen r'); [ now right | exact Hin ].
Qed.

Lemma unique_distinct rows : List.NoDup (List.map key_of rows) -> unique rows = rows.
Proof.
  intros Hnd. unfold unique. rewrite dedup_fold_distinct; auto.
  intros r _ H. now apply not_elem_of_empty in H.
Qed.

End ForumMore.

(** X17: the removal of duplicates of the forum pipeline keeps the
    remaining rows in the order of the input, removes at least nothing and
    at most all but one row of a non-empty input, leaves rows with pairwise
    distinct keys as they are, and so changes nothing when it is applied a
    second time. *)
Theorem unique_keeps_order all_rows :
  sublist (Reddit.unique all_rows) all_rows /\
  (length (Reddit.unique all_rows) <= length all_rows)%nat /\
  (all_rows <> nil -> Reddit.unique all_rows <> nil) /\
  (List.NoDup (List.map Reddit.key_of all_rows) -> Reddit.unique all_rows = all_rows) /\
  Reddit.unique (Reddit.unique all_rows) = Reddit.unique all_rows.
Proof.
  split; [ apply unique_sublist | ].
  split; [ apply sublist_length, unique_sublist | ].
  split; [ | split; [ apply unique_distinct | apply unique_distinct, unique_keys ] ].
  intros Hne E. destruct all_rows as [ | r all_rows ]; [ now apply Hne | ].
  assert (H : List.find (Reddit.has_key (Reddit.key_of r)) (Reddit.unique (r :: all_rows))
              = Some r).
  { rewrite unique_find. simpl. unfold Reddit.has_key. now rewrite bool_decide_eq_true_2. }
  rewrite E in H. discriminate H.
Qed.

(** X17, at three rows of which the first and the third share a key. *)
Lemma unique_keeps_order_witness :
  let post title :=
    {| Reddit.source := "reddit"; Reddit.title := title; Reddit.url := "";
       Reddit.region := "GLOBAL"; Reddit.observed_at := 0;
       Reddit.raw_metric := PyFloat.nearest 1; Reddit.subreddit := "all";
       Reddit.score := 1; Reddit.age_hours := PyFloat.nearest 1;
       Reddit.num_comments := 0; Reddit.listing_type := "hot" |} in
  Reddit.unique [ post "a"; post "b"; post "A" ] = [ post "a"; post "b" ] /\
  Reddit.unique [ post "a"; post "b"; post "A" ] <> nil /\
  Reddit.unique [ post "a"; post "b" ] = [ post "a"; post "b" ].
Proof.
  intros post. split; [ vm_compute; reflexivity | ]. split.
  - apply (proj1 (proj2 (proj2 (unique_keeps_order [ post "a"; post "b"; post "A" ])))).
    discriminate.
  - apply (proj1 (proj2 (proj2 (proj2 (unique_keeps_order [ post "a"; post "b" ]))))).
    vm_compute. repeat constructor; simpl; intuition discriminate.
Defined.

Section ForumBody.
Import Reddit.

(** The fields of a row that are copied from the post. *)
Lemma normalize_fields now_ kind d w r w' :
  normalize now_ kind d w = (Ok r, w') ->
  source r = "reddit" /\
  region r = "GLOBAL" /\
  url r = (if PyStr.is_empty (get_or_empty (p_permalink d))
           then get_or_empty (p_url_overridden_by_dest d)
           else "https://reddit.com" +:+ get_or_empty (p_permalink d)) /\
  num_comments r = default (p_num_comments d) 0.
Proof.
  unfold normalize, bind, now, lift, ret.
  destruct (age_h_of now_ _) as [ age_h | e ]; [ | discriminate ].
  destruct (PyFloat.of_int _) as [ score | e ]; [ | discriminate ].
  destruct (velocity_of score age_h) as [ velocity | e ]; [ | discriminate ].
  destruct (PyFloat.to_int score) as [ z | e ]; [ | discriminate ].
  intros [= <- _]. repeat split; reflexivity.
Qed.






Lemma normalize_children_exact now_ kind children : forall out w rows w',
  normalize_children now_ kind children out w = (Ok rows, w') ->
  exists new,
    rows = out ++ new /\
    Forall2 (fun child r => exists d w1 w2,
                 child = Some d /\ normalize now_ kind d w1 = (Ok r, w2))
      (List.filter passes children) new /\
    reads w' = (reads w + length new)%nat.
Proof.
  induction children as [ | child children IH ]; intros out w rows w' H; simpl in H.
  - injection H as <- <-. exists nil. rewrite app_nil_r. simpl.
    repeat split; [ constructor | lia ].
  - destruct child as [ d | ]; simpl.
    + destruct (p_stickied d || truthy (p_removed_by_category d)); simpl.
      * now apply IH.
      * unfold bind in H.
        destruct (normalize now_ kind d w) as [ [ r | e ] w1 ] eqn:En; [ | discriminate ].
        apply IH in H as (new & -> & HF & Hr).
        exists (r :: new). rewrite <- app_assoc. split; [ reflexivity | ].
        split; [ constructor; [ now exists d, w, w1 | exact HF ] | ].
        apply normalize_spec in En as [-> _]. simpl in *. lia.
    + now apply IH.
Qed.

Lemma int_true_divide_not_infinity a b f :
  PyFloat.int_true_divide a b = Ok f -> forall s, f <> S754_infinity s.
Proof.
  unfold PyFloat.int_true_divide. intros H s ->.
  destruct (b =? 0); [ discriminate | ].
  destruct (a =? 0); [ discriminate | ].
  destruct (PyFloat.round_quotient _ _ _); discriminate.
Qed.

Lemma age_h_of_floor now_ created_utc age_h :
  age_h_of now_ created_utc = Ok age_h ->
  PyFloat.ltb age_h PyFloat.f_0_25 = false /\
  (now_ <= created_utc -> age_h = PyFloat.f_0_25).
Proof.
  unfold age_h_of.
  destruct (PyFloat.int_true_divide (now_ - created_utc) 1000000) as [ ts | e ] eqn:E;
    simpl; [ | discriminate ].
  intros [= <-]. unfold PyFloat.max.
  destruct (PyFloat.ltb (SFdiv PyFloat.prec PyFloat.emax ts PyFloat.f_3600) PyFloat.f_0_25)
    eqn:El.
  - split; reflexivity.
  - split; [ exact El | ]. intros Hle. exfalso.
    destruct (Z.eq_dec (now_ - created_utc) 0) as [ E0 | Hne ].
    + rewrite E0 in E. injection E as <-. discriminate El.
    + pose proof (int_true_divide_sign _ _ _ E) as Hs.
      replace (now_ - created_utc <? 0) with true in Hs by lia.
      change (xorb true (1000000 <? 0)) with true in Hs.
      assert (Hd : PyFloat.has_sign (xorb true false)
                     (SFdiv PyFloat.prec PyFloat.emax ts PyFloat.f_3600)).
      { apply SFdiv_sign; [ exact Hs | reflexivity | | discriminate ].
        exact (int_true_divide_not_infinity _ _ _ E). }
      destruct (SFdiv PyFloat.prec PyFloat.emax ts PyFloat.f_3600)
        as [ [ | ] | [ | ] | | [ | ] m e ];
        simpl in Hd; try discriminate Hd; try contradiction; discriminate El.
Qed.

End ForumBody.

(** X14: when [normalize_items] returns, its rows are, in order, one for
    each child that has data and is neither stickied nor removed, with the
    title, link, community and comment count of that child and the kind of
    the listing; the clock has been read once for the time stamp and once
    for each row. *)
Theorem normalize_items_rows children kind w rows w' :
  Reddit.normalize_items children kind w = (Ok rows, w') ->
  Forall2 (fun child r => exists d, child = Some d /\ Reddit.copied kind d r)
    (List.filter Reddit.passes children) rows /\
  reads w' = (reads w + 1 + length rows)%nat.
Proof.
  unfold Reddit.normalize_items, bind, now. intros H.
  apply normalize_children_exact in H as (new & -> & HF & Hr). simpl in *.
  split; [ | lia ].
  clear Hr. induction HF as [ | child r children' new' (d & w1 & w2 & -> & Hn) HF IH ];
    constructor; auto.
  exists d. split; [ reflexivity | ].
  destruct (normalize_spec _ _ _ _ _ _ Hn) as (_ & Ht & Hsub & Hk & _).
  destruct (normalize_fields _ _ _ _ _ _ Hn) as (Hs & Hreg & Hu & Hc).
  repeat split; assumption.
Qed.

(** X14, at a listing of a stickied post, a child without data and a post
    that passes. *)
Lemma normalize_items_rows_witness :
  let post title stickied :=
    Some {| Reddit.p_title := Text title; Reddit.p_permalink := Text "/r/all/1";
            Reddit.p_url_overridden_by_dest := Absent; Reddit.p_subreddit := Text "all";
            Reddit.p_created_utc := Some 0; Reddit.p_score := Some 10;
            Reddit.p_num_comments := Some 3; Reddit.p_stickied := stickied;
            Reddit.p_removed_by_category := Null |} in
  let children := [ post "pinned" true; None; post "news" false ] in
  let w := {| clock := fun _ => 3600000000; reads := 0 |} in
  exists rows w',
    Reddit.normalize_items children "hot" w = (Ok rows, w') /\
    List.map Reddit.title rows = [ "news" ] /\
    reads w' = 2%nat /\
    Forall2 (fun child r => exists d, child = Some d /\ Reddit.copied "hot" d r)
      (List.filter Reddit.passes children) rows.
Proof.
  intros post children w.
  destruct (Reddit.normalize_items children "hot" w) as [ [ rows | e ] w' ] eqn:H;
    vm_compute in H; [ | discriminate ].
  exists rows, w'. split; [ reflexivity | ].
  split; [ injection H as <- _; reflexivity | ].
  split; [ injection H as _ <-; reflexivity | ].
  exact (proj1 (normalize_items_rows children "hot" w rows w' H)).
Defined.



(** X16: the age in hours by which the score of a post is divided is a
    number that is at least 0.25, whatever the two times; it is exactly 0.25
    for a post that is dated at or after the time of the run, and such a
    post has the age 0.25 in its row. *)
Theorem age_is_floored :
  (forall now_ created_utc age_h,
     Reddit.age_h_of now_ created_utc = Ok age_h ->
     PyFloat.has_sign false age_h /\
     PyFloat.ltb age_h PyFloat.f_0_25 = false /\
     (now_ <= created_utc -> age_h = PyFloat.f_0_25)) /\
  (forall now_ kind d created_utc w r w',
     Reddit.p_created_utc d = Some created_utc -> now_ <= created_utc ->
     Reddit.normalize now_ kind d w = (Ok r, w') ->
     Reddit.age_hours r = PyFloat.f_0_25).
Proof.
  split.
  - intros now_ created_utc age_h H.
    destruct (age_h_of_floor _ _ _ H) as [Hl Hf].
    apply age_h_of_positive in H as [Hs _]. auto.
  - intros now_ kind d created_utc w r w' Hc Hle.
    unfold Reddit.normalize, bind, now, lift, ret. rewrite Hc. simpl.
    destruct (Reddit.age_h_of now_ created_utc) as [ age_h | e ] eqn:Ea; [ | discriminate ].
    destruct (PyFloat.of_int _) as [ score | e ]; [ | discriminate ].
    destruct (Reddit.velocity_of score age_h) as [ velocity | e ]; [ | discriminate ].
    destruct (PyFloat.to_int score) as [ z | e ]; [ | discriminate ].
    intros [= <- _]. simpl.
    rewrite (proj2 (age_h_of_floor _ _ _ Ea) Hle). vm_compute. reflexivity.
Qed.

(** X16, at a post that is dated one hour after the run. *)
Lemma age_is_floored_witness :
  Reddit.age_h_of 0 3600000000 = Ok PyFloat.f_0_25 /\
  PyFloat.has_sign false PyFloat.f_0_25 /\
  PyFloat.ltb PyFloat.f_0_25 PyFloat.f_0_25 = false.
Proof.
  assert (H : Reddit.age_h_of 0 3600000000 = Ok PyFloat.f_0_25) by (vm_compute; reflexivity).
  split; [ exact H | ].
  destruct (proj1 age_is_floored 0 3600000000 PyFloat.f_0_25 H) as (Hs & Hl & _).
  split; assumption.
Defined.

(** ** Writing the rows again, and the summary of [main] *)

Section ForumSummary.
Import Reddit.

(** The sort leaves a list that is in descending order as it is. *)
Lemma sort_reverse_sorted {A K} (key : A -> K) (lt : K -> K -> bool) (l : list A) :
  descending key lt l -> sort_reverse key lt l = l.
Proof.
  induction 1 as [ | x l Hl IH Hx ]; simpl; [ reflexivity | ].
  fold (sort_reverse key lt l). rewrite IH.
  destruct l as [ | y l ]; [ reflexivity | ]. simpl.
  apply Forall_cons_iff in Hx as [Hxy _]. now rewrite Hxy.
Qed.

Lemma listing_rows_kind answer kind w rows w' :
  listing_rows answer kind w = (Ok rows, w') ->
  Forall (fun r => listing_type r = kind) rows.
Proof.
  unfold listing_rows. destruct answer as [ children | ].
  - unfold bind, catch, ret.
    destruct (normalize_items children kind w) as [ [ l | e ] w1 ] eqn:E.
    + intros [= <- _]. apply normalize_items_spec in E.
      eapply List.Forall_impl; [ | exact E ].
      intros r (d & w2 & w3 & _ & Hn). apply normalize_spec in Hn. apply Hn.
    + intros [= <- _]. constructor.
  - intros [= <- _]. constructor.
Qed.

Lemma count_listing_app kind l1 l2 :
  count_listing kind (l1 ++ l2) = (count_listing kind l1 + count_listing kind l2)%nat.
Proof. unfold count_listing. now rewrite List.filter_app, List.length_app. Qed.

Lemma count_listing_same kind rows :
  Forall (fun r => listing_type r = kind) rows -> count_listing kind rows = length rows.
Proof.
  unfold count_listing. induction 1 as [ | r rows Hr _ IH ]; simpl; [ reflexivity | ].
  rewrite Hr, String.eqb_refl. simpl. now rewrite IH.
Qed.

Lemma count_listing_other kind kind' rows :
  kind <> kind' -> Forall (fun r => listing_type r = kind) rows ->
  count_listing kind' rows = 0%nat.
Proof.
  unfold count_listing. intros Hne. induction 1 as [ | r rows Hr _ IH ]; simpl; [ reflexivity | ].
  rewrite Hr. destruct (String.eqb_spec kind kind'); [ contradiction | exact IH ].
Qed.

End ForumSummary.

(** X18: writing the rows that a call of [write_combined_csv] has written
    gives the same rows again: they have pairwise distinct keys and are in
    descending order, so neither the removal of duplicates nor the sort
    changes them.  The raw metrics have to be numbers. *)
Theorem write_combined_csv_idempotent all_rows w out w1 :
  Forall (fun r => PyFloat.is_nan (Reddit.raw_metric r) = false) all_rows ->
  Reddit.write_combined_csv all_rows w = (Ok out, w1) ->
  Reddit.write_combined_csv out w1 = (Ok out, tick w1).
Proof.
  intros Hn. rewrite !write_combined_csv_spec. intros [= <- _].
  set (out := sort_reverse Reddit.raw_metric PyFloat.ltb (Reddit.unique all_rows)).
  assert (Hu : Reddit.unique out = out).
  { apply unique_distinct. eapply Permutation_NoDup.
    - symmetry. apply Permutation_map, sort_reverse_perm.
    - apply unique_keys. }
  rewrite Hu. f_equal. f_equal.
  apply sort_reverse_sorted. now apply forum_rows_sorted.
Qed.

(** X18, at three rows, two of them with the same key. *)
Lemma write_combined_csv_idempotent_witness :
  let post title velocity :=
    {| Reddit.source := "reddit"; Reddit.title := title; Reddit.url := "";
       Reddit.region := "GLOBAL"; Reddit.observed_at := 0;
       Reddit.raw_metric := PyFloat.nearest velocity; Reddit.subreddit := "all";
       Reddit.score := 1; Reddit.age_hours := PyFloat.nearest 1;
       Reddit.num_comments := 0; Reddit.listing_type := "hot" |} in
  let all_rows := [ post "a" 1; post "b" 7; post "A" 9 ] in
  let out := [ post "b" 7; post "a" 1 ] in
  let w := {| clock := fun n => Z.of_nat n; reads := 0 |} in
  Reddit.write_combined_csv all_rows w = (Ok out, tick w) /\
  Reddit.write_combined_csv out (tick w) = (Ok out, tick (tick w)).
Proof.
  intros post all_rows out w.
  assert (H : Reddit.write_combined_csv all_rows w = (Ok out, tick w))
    by (vm_compute; reflexivity).
  split; [ exact H | ].
  apply (write_combined_csv_idempotent all_rows w out (tick w)); [ | exact H ].
  repeat constructor.
Defined.

(** X19: the two counts of the summary that [main] prints add up to the
    number of rows: every row that is fetched has the listing type rising or
    hot, the rows of the listing rising first. *)
Theorem summary_counts_add_up rising hot w all_rows w' :
  Reddit.fetch_all rising hot w = (Ok all_rows, w') ->
  (Reddit.count_listing "rising" all_rows + Reddit.count_listing "hot" all_rows)%nat
  = length all_rows /\
  exists rising_rows hot_rows,
    all_rows = rising_rows ++ hot_rows /\
    Forall (fun r => Reddit.listing_type r = "rising") rising_rows /\
    Forall (fun r => Reddit.listing_type r = "hot") hot_rows.
Proof.
  unfold Reddit.fetch_all, bind, ret.
  destruct (Reddit.listing_rows rising "rising" w) as [ [ l1 | e ] w1 ] eqn:E1;
    [ | discriminate ].
  destruct (Reddit.listing_rows hot "hot" w1) as [ [ l2 | e ] w2 ] eqn:E2;
    [ | discriminate ].
  intros [= <- _].
  apply listing_rows_kind in E1, E2. split.
  - rewrite !count_listing_app, List.length_app.
    rewrite (count_listing_same _ _ E1), (count_listing_same _ _ E2).
    rewrite (count_listing_other "rising" "hot" l1) by (discriminate || exact E1).
    rewrite (count_listing_other "hot" "rising" l2) by (discriminate || exact E2).
    lia.
  - exists l1, l2. auto.
Qed.

(** X19, at a run with one rising and two hot posts. *)
Lemma summary_counts_add_up_witness :
  let post title :=
    Some {| Reddit.p_title := Text title; Reddit.p_permalink := Absent;
            Reddit.p_url_overridden_by_dest := Absent; Reddit.p_subreddit := Text "all";
            Reddit.p_created_utc := Some 0; Reddit.p_score := Some 10;
            Reddit.p_num_comments := None; Reddit.p_stickied := false;
            Reddit.p_removed_by_category := Null |} in
  let w := {| clock := fun _ => 3600000000; reads := 0 |} in
  exists all_rows w',
    Reddit.fetch_all (Some [ post "a" ]) (Some [ post "b"; post "c" ]) w = (Ok all_rows, w') /\
    Reddit.count_listing "rising" all_rows = 1%nat /\
    Reddit.count_listing "hot" all_rows = 2%nat /\
    (Reddit.count_listing "rising" all_rows + Reddit.count_listing "hot" all_rows)%nat
    = length all_rows.
Proof.
  intros post w.
  destruct (Reddit.fetch_all (Some [ post "a" ]) (Some [ post "b"; post "c" ]) w)
    as [ [ all_rows | e ] w' ] eqn:H; vm_compute in H; [ | discriminate ].
  exists all_rows, w'. split; [ reflexivity | ].
  split; [ injection H as <- _; reflexivity | ].
  split; [ injection H as <- _; reflexivity | ].
  exact (proj1 (summary_counts_add_up (Some [ post "a" ]) (Some [ post "b"; post "c" ])
                  w all_rows w' H)).
Defined.

(** X20: when no two fetched rows share a key, the top five that [main]
    prints are the first five rows of the file; the top five are always at
    most five rows of the fetched ones. *)
Theorem top_5_of_distinct_rows all_rows :
  (length (Reddit.top_5 all_rows) <= 5)%nat /\
  (forall r, In r (Reddit.top_5 all_rows) -> In r all_rows) /\
  (List.NoDup (List.map Reddit.key_of all_rows) ->
   forall w out w',
     Reddit.write_combined_csv all_rows w = (Ok out, w') ->
     Reddit.top_5 all_rows = List.firstn 5 out).
Proof.
  unfold Reddit.top_5. split; [ apply List.firstn_le_length | ]. split.
  - intros r Hr.
    apply (Permutation_in _ (sort_reverse_perm Reddit.raw_metric PyFloat.ltb all_rows)).
    rewrite <- (List.firstn_skipn 5). apply in_or_app. left. exact Hr.
  - intros Hnd w out w'. rewrite write_combined_csv_spec. intros [= <- _].
    now rewrite (unique_distinct all_rows Hnd).
Qed.

(** X20, at two rows with different keys. *)
Lemma top_5_of_distinct_rows_witness :
  let post title velocity :=
    {| Reddit.source := "reddit"; Reddit.title := title; Reddit.url := "";
       Reddit.region := "GLOBAL"; Reddit.observed_at := 0;
       Reddit.raw_metric := PyFloat.nearest velocity; Reddit.subreddit := "all";
       Reddit.score := 1; Reddit.age_hours := PyFloat.nearest 1;
       Reddit.num_comments := 0; Reddit.listing_type := "hot" |} in
  let all_rows := [ post "a" 1; post "b" 7 ] in
  let w := {| clock := fun n => Z.of_nat n; reads := 0 |} in
  Reddit.top_5 all_rows = [ post "b" 7; post "a" 1 ] /\
  Reddit.top_5 all_rows = List.firstn 5 [ post "b" 7; post "a" 1 ].
Proof.
  intros post all_rows w. split; [ vm_compute; reflexivity | ].
  apply (proj2 (proj2 (top_5_of_distinct_rows all_rows))
           ltac:(vm_compute; repeat constructor; simpl; intuition discriminate)
           w _ (tick w)).
  vm_compute. reflexivity.
Defined.

(** ** More on the metric parser *)

Section ParserMore.
Import PyStr.

Lemma lower_char_idempotent c : lower_char (lower_char c) = lower_char c.
Proof.
  destruct c as [ [ | ] [ | ] [ | ] [ | ] [ | ] [ | ] [ | ] [ | ] ]; vm_compute; reflexivity.
Qed.

Lemma lower_idempotent s : lower (lower s) = lower s.
Proof.
  induction s as [ | c s IH ]; cbn [lower]; [ reflexivity | ].
  now rewrite lower_char_idempotent, IH.
Qed.

(** The parser looks at its text through three things only. *)
Lemma parse_search_volume_view s t :
  is_empty s = is_empty t ->
  is_empty (strip s) = is_empty (strip t) ->
  lower (strip s) = lower (strip t) ->
  GoogleTrends.parse_search_volume (Some s) = GoogleTrends.parse_search_volume (Some t).
Proof.
  intros H1 H2 H3. unfold GoogleTrends.parse_search_volume. now rewrite H1, H2, H3.
Qed.

Lemma parse_search_volume_same_letters s t :
  lower s = lower t ->
  GoogleTrends.parse_search_volume (Some s) = GoogleTrends.parse_search_volume (Some t).
Proof.
  intros H. apply parse_search_volume_view.
  - now rewrite <- (is_empty_lower s), <- (is_empty_lower t), H.
  - now rewrite <- (is_empty_lower (strip s)), <- (is_empty_lower (strip t)),
      <- !strip_lower, H.
  - now rewrite <- !strip_lower, H.
Qed.

Lemma parse_search_volume_stripped s :
  GoogleTrends.parse_search_volume (Some (strip s))
  = GoogleTrends.parse_search_volume (Some s).
Proof.
  unfold GoogleTrends.parse_search_volume. rewrite strip_idempotent.
  destruct s as [ | c s ]; [ reflexivity | ].
  cbn [is_empty]. rewrite orb_false_l, orb_diag. reflexivity.
Qed.

(** Decimal notation *)

Lemma digits_value_from_uint d : forall acc,
  digits_value_from (Zpos acc) (NilEmpty.string_of_uint d) = Zpos (Pos.of_uint_acc d acc).
Proof.
  induction d; intros acc; cbn [NilEmpty.string_of_uint digits_value_from Pos.of_uint_acc];
    try reflexivity;
    match goal with
    | |- digits_value_from ?v _ = _ =>
        match goal with
        | |- _ = Zpos (Pos.of_uint_acc _ ?a) => replace v with (Zpos a) by (vm_compute digit_value; lia)
        end
    end; apply IHd.
Qed.

Lemma digits_value_uint d :
  digits_value (NilEmpty.string_of_uint d) = Z.of_N (Pos.of_uint d).
Proof.
  unfold digits_value.
  induction d; cbn [NilEmpty.string_of_uint digits_value_from Pos.of_uint];
    try reflexivity; try exact IHd;
    match goal with
    | |- digits_value_from ?v _ = Z.of_N (N.pos (Pos.of_uint_acc _ ?a)) =>
        change v with (Zpos a); apply digits_value_from_uint
    end.
Qed.

Lemma all_digits_uint d : all_chars isdigit (NilEmpty.string_of_uint d) = true.
Proof. induction d; cbn [NilEmpty.string_of_uint all_chars]; auto. Qed.

Lemma to_uint_text p :
  NilZero.string_of_uint (Pos.to_uint p) = NilEmpty.string_of_uint (Pos.to_uint p) /\
  NilEmpty.string_of_uint (Pos.to_uint p) <> "".
Proof.
  pose proof (DecimalPos.Unsigned.of_to p) as H.
  destruct (Pos.to_uint p); try discriminate H; split; try reflexivity; discriminate.
Qed.

(** The decimal notation of a positive number: digits only, not empty, with
    the number as its value. *)
Lemma str_positive p :
  let s := Wikipedia.str (Zpos p) in
  all_chars isdigit s = true /\ s <> "" /\ digits_value s = Zpos p.
Proof.
  unfold Wikipedia.str. cbn [Z.to_int NilZero.string_of_int].
  destruct (to_uint_text p) as [-> Hne].
  split; [ apply all_digits_uint | ]. split; [ exact Hne | ].
  rewrite digits_value_uint, DecimalPos.Unsigned.of_to. reflexivity.
Qed.

(** Texts of digits *)

Lemma digit_not_space c : isdigit c = true -> isspace c = false.
Proof.
  destruct c as [ [ | ] [ | ] [ | ] [ | ] [ | ] [ | ] [ | ] [ | ] ]; vm_compute;
    intros H; try reflexivity; discriminate H.
Qed.

Lemma digit_lower c : isdigit c = true -> lower_char c = c.
Proof.
  destruct c as [ [ | ] [ | ] [ | ] [ | ] [ | ] [ | ] [ | ] [ | ] ]; vm_compute;
    intros H; try reflexivity; discriminate H.
Qed.

Lemma digit_not_letter c d :
  isdigit c = true -> isdigit d = false -> Ascii.eqb d c = false.
Proof.
  intros Hc Hd. destruct (Ascii.eqb_spec d c) as [ -> | ]; [ congruence | reflexivity ].
Qed.

Lemma digits_rstrip s : all_chars isdigit s = true -> rstrip s = s.
Proof.
  induction s as [ | c s IH ]; cbn [all_chars rstrip]; [ reflexivity | ].
  intros H. apply andb_true_iff in H as [Hc Hs].
  now rewrite (digit_not_space c Hc), (IH Hs).
Qed.

Lemma digits_strip s : all_chars isdigit s = true -> strip s = s.
Proof.
  intros H. unfold strip.
  assert (Hl : lstrip s = s).
  { destruct s as [ | c s ]; [ reflexivity | ].
    cbn [all_chars] in H. apply andb_true_iff in H as [Hc _].
    cbn [lstrip]. now rewrite (digit_not_space c Hc). }
  rewrite Hl. now apply digits_rstrip.
Qed.

Lemma digits_lower s : all_chars isdigit s = true -> lower s = s.
Proof.
  induction s as [ | c s IH ]; cbn [all_chars lower]; [ reflexivity | ].
  intros H. apply andb_true_iff in H as [Hc Hs].
  now rewrite (digit_lower c Hc), (IH Hs).
Qed.

Lemma digits_without d s :
  isdigit d = false -> all_chars isdigit s = true -> contains_char d s = false.
Proof.
  intros Hd. induction s as [ | c s IH ]; cbn [all_chars contains_char]; [ reflexivity | ].
  intros H. apply andb_true_iff in H as [Hc Hs].
  now rewrite (digit_not_letter c d Hc Hd), (IH Hs).
Qed.

(** A run of digits is taken whole. *)
Lemma digits_whole s : forall lo,
  all_chars isdigit s = true -> (lo <= String.length s)%nat ->
  Re.digits lo None s (fun rest => Some rest) = Some "".
Proof.
  induction s as [ | c s IH ]; intros lo H Hlo; cbn [Re.digits].
  - simpl in Hlo. now replace lo with O by lia.
  - cbn [all_chars] in H. apply andb_true_iff in H as [Hc Hs].
    rewrite Hc. cbn [Re.exhausted negb andb Re.dec].
    rewrite IH; [ reflexivity | exact Hs | simpl in Hlo; lia ].
Qed.

Lemma take_all s : take (String.length s - 0) s = s.
Proof.
  rewrite Nat.sub_0_r. induction s as [ | c s IH ]; simpl; [ reflexivity | ].
  now rewrite IH.
Qed.

Lemma search_digits_whole s :
  all_chars isdigit s = true -> s <> "" ->
  Re.search false GoogleTrends.DIGITS_RE s = Some s.
Proof.
  intros H Hne.
  assert (Hm : Re.match_ false GoogleTrends.DIGITS_RE s = Some s).
  { unfold Re.match_, GoogleTrends.DIGITS_RE. cbn [Re.run].
    rewrite digits_whole; [ | exact H | destruct s; [ contradiction | simpl; lia ] ].
    cbn [String.length]. now rewrite take_all. }
  destruct s; cbn [Re.search]; now rewrite Hm.
Qed.

Lemma parse_search_volume_digits s :
  all_chars isdigit s = true -> s <> "" ->
  (String.length s <= MAX_STR_DIGITS)%nat ->
  GoogleTrends.parse_search_volume (Some s) = Ok (digits_value s).
Proof.
  intros H Hne Hlen. unfold GoogleTrends.parse_search_volume.
  rewrite (digits_strip s H), (digits_lower s H).
  destruct s as [ | c s ]; [ contradiction | ].
  cbn [is_empty orb].
  rewrite (digits_without "m" _ eq_refl H), (digits_without "k" _ eq_refl H).
  rewrite (search_digits_whole _ H Hne). unfold int_of_digits.
  now rewrite (proj2 (Nat.ltb_ge _ _) Hlen).
Qed.

End ParserMore.



(** X2: the metric parser does not tell upper case from lower case, nor
    does it see white space around its text: two texts that are the same in
    lower case are read alike, and a text is read like its stripped form. *)
Theorem parse_search_volume_ignores_case_and_space :
  (forall s t,
     PyStr.lower s = PyStr.lower t ->
     GoogleTrends.parse_search_volume (Some s) = GoogleTrends.parse_search_volume (Some t)) /\
  (forall s,
     GoogleTrends.parse_search_volume (Some (PyStr.strip s))
     = GoogleTrends.parse_search_volume (Some s)).
Proof. split; [ apply parse_search_volume_same_letters | apply parse_search_volume_stripped ]. Qed.

(** X2, at a volume with the suffix in either case. *)
Lemma parse_search_volume_ignores_case_and_space_witness :
  GoogleTrends.parse_search_volume (Some "20K+") = GoogleTrends.parse_search_volume (Some "20k+").
Proof. apply (proj1 parse_search_volume_ignores_case_and_space). reflexivity. Defined.

(** X3: the metric parser reads the decimal notation of an integer that is
    not negative back to that integer, as long as the notation has at most
    4300 digits, the limit of the interpreter for [str] and [int]. *)
Theorem parse_search_volume_of_str n :
  0 <= n -> (String.length (Wikipedia.str n) <= 4300)%nat ->
  GoogleTrends.parse_search_volume (Some (Wikipedia.str n)) = Ok n.
Proof.
  intros Hn Hlen. destruct n as [ | p | p ]; [ reflexivity | | lia ].
  destruct (str_positive p) as (Hd & Hne & Hv).
  rewrite parse_search_volume_digits by assumption. now rewrite Hv.
Qed.

(** X3, at 12345. *)
Lemma parse_search_volume_of_str_witness :
  Wikipedia.str 12345 = "12345" /\
  GoogleTrends.parse_search_volume (Some (Wikipedia.str 12345)) = Ok 12345.
Proof.
  split; [ reflexivity | apply parse_search_volume_of_str; [ lia | vm_compute; lia ] ].
Defined.

(** ** More on the search trends pipeline *)

Section SearchTrendsMore.
Import GoogleTrends.

Lemma process_rows_readable region rows : forall acc w trends w',
  process_rows region rows acc w = (Ok trends, w') -> Forall readable rows.
Proof.
  induction rows as [ | row rows IH ]; intros acc w trends w'; [ constructor | ].
  cbn [process_rows]. unfold bind, lift, now.
  fold (search_volume_of row).
  destruct (search_volume_of row) as [ v | e ] eqn:Ev; [ | discriminate ].
  assert (Hr : Trends row <> Null -> readable row).
  { intros Hn. split; [ eauto | auto ]. }
  destruct (MIN_SEARCH_VOLUME <=? v) eqn:Et.
  - destruct (Trends row) eqn:Ec; cbn [get]; try discriminate;
      intros H; constructor; try (apply Hr; discriminate); now apply IH in H.
  - intros H. constructor; [ | now apply IH in H ].
    split; [ eauto | ]. unfold reaches_threshold. rewrite Ev, Et. discriminate.
Qed.

Lemma process_rows_linked region rows : forall acc w trends w',
  Forall linked acc ->
  process_rows region rows acc w = (Ok trends, w') -> Forall linked trends.
Proof.
  induction rows as [ | row rows IH ]; intros acc w trends w' Ha; cbn [process_rows].
  - now intros [= <- _].
  - unfold bind, lift, now.
    destruct (parse_search_volume _) as [ v | e ]; [ | discriminate ].
    destruct (MIN_SEARCH_VOLUME <=? v); [ | now apply IH ].
    destruct (get (Trends row) "Unknown") as [ name | ]; [ | discriminate ].
    apply IH. apply List.Forall_app. split; [ exact Ha | ].
    repeat constructor.
Qed.

Lemma contains_char_app c s t :
  PyStr.contains_char c (s +:+ t) = PyStr.contains_char c s || PyStr.contains_char c t.
Proof.
  induction s as [ | d s IH ]; simpl; [ reflexivity | ].
  now rewrite IH, orb_assoc.
Qed.

Lemma replace_char_removes a b s :
  a <> b -> PyStr.contains_char a (PyStr.replace_char a b s) = false.
Proof.
  intros Hne. induction s as [ | c s IH ]; simpl; [ reflexivity | ].
  rewrite IH, orb_false_r.
  destruct (Ascii.eqb_spec c a) as [ -> | Hc ].
  - now apply Ascii.eqb_neq.
  - apply Ascii.eqb_neq. congruence.
Qed.

End SearchTrendsMore.

(** X4: [process_csv_to_schema] never raises.  It returns None when the
    file does not exist, when no row reaches the threshold, and when the
    loop raises at any row, whatever the rows before it have given; the
    records that it returns are never an empty list, every row of the file
    has been read without an exception, and there are as many records as
    rows that reach the threshold. *)
Theorem process_csv_to_schema_outcome :
  (forall file region w,
     exists r, fst (GoogleTrends.process_csv_to_schema file region w) = Ok r) /\
  (forall region w, fst (GoogleTrends.process_csv_to_schema None region w) = Ok None) /\
  (forall rows region w,
     Exists GoogleTrends.unreadable rows ->
     fst (GoogleTrends.process_csv_to_schema (Some rows) region w) = Ok None) /\
  (forall rows region w,
     List.filter GoogleTrends.reaches_threshold rows = nil ->
     fst (GoogleTrends.process_csv_to_schema (Some rows) region w) = Ok None) /\
  (forall rows region w trends,
     fst (GoogleTrends.process_csv_to_schema (Some rows) region w) = Ok (Some trends) ->
     trends <> nil /\
     Forall GoogleTrends.readable rows /\
     length trends = length (List.filter GoogleTrends.reaches_threshold rows)).
Proof.
  unfold GoogleTrends.process_csv_to_schema, bind, catch, ret.
  split; [ | split; [ reflexivity | split; [ | split ] ] ].
  - intros [ rows | ] region w; [ | simpl; eauto ].
    destruct (GoogleTrends.process_rows region rows nil w) as [ [ [ | t l ] | e ] w1 ];
      simpl; eauto.
  - intros rows region w H.
    destruct (process_rows_unreadable region rows nil w H) as (e & w' & ->). reflexivity.
  - intros rows region w H.
    destruct (GoogleTrends.process_rows region rows nil w) as [ [ l | e ] w1 ] eqn:E;
      [ | reflexivity ].
    apply process_rows_spec in E as (new & -> & HF & _ & _). rewrite H in HF.
    inversion HF. reflexivity.
  - intros rows region w trends.
    destruct (GoogleTrends.process_rows region rows nil w) as [ [ l | e ] w1 ] eqn:E;
      [ | discriminate ].
    pose proof (process_rows_readable _ _ _ _ _ _ E) as Hr.
    apply process_rows_spec in E as (new & -> & HF & _ & _). simpl.
    destruct new as [ | t new ]; [ discriminate | ]. intros [= <-].
    split; [ discriminate | ]. split; [ exact Hr | ].
    symmetry. exact (Forall2_length _ _ _ HF).
Qed.

(** X4, at a file whose second row has a search volume that overflows:
    the record of the first row is lost. *)
Lemma process_csv_to_schema_outcome_witness :
  let rows :=
    [ {| GoogleTrends.Trends := Text "solar eclipse"; GoogleTrends.Search_volume := Text "20K+" |};
      {| GoogleTrends.Trends := Text "world cup";
         GoogleTrends.Search_volume := Text ("1" +:+ PyStr.times "0" 303 +:+ "M") |} ] in
  let w := {| clock := fun n => Z.of_nat n; reads := 0 |} in
  Exists GoogleTrends.unreadable rows /\
  fst (GoogleTrends.process_csv_to_schema (Some rows) "US" w) = Ok None.
Proof.
  intros rows w.
  assert (H : Exists GoogleTrends.unreadable rows).
  { apply List.Exists_cons_tl, List.Exists_cons_hd. left.
    exists OverflowError. vm_compute. reflexivity. }
  split; [ exact H | ].
  exact (proj1 (proj2 (proj2 process_csv_to_schema_outcome)) rows "US" w H).
Defined.

(** X5: the link of every record of the search trends pipeline is the
    search address followed by the title of the record with a plus sign for
    every space, so it contains no space. *)
Theorem search_link_has_no_space rows region w trends :
  fst (GoogleTrends.process_csv_to_schema (Some rows) region w) = Ok (Some trends) ->
  Forall (fun t => GoogleTrends.linked t /\
                   PyStr.contains_char " " (GoogleTrends.url t) = false) trends.
Proof.
  unfold GoogleTrends.process_csv_to_schema, bind, catch, ret.
  destruct (GoogleTrends.process_rows region rows nil w) as [ [ l | e ] w1 ] eqn:E;
    [ | discriminate ].
  apply (process_rows_linked region rows nil w l w1 (List.Forall_nil _)) in E.
  destruct l as [ | t l ]; [ discriminate | ]. intros [= <-].
  eapply List.Forall_impl; [ | exact E ].
  intros t' Ht. split; [ exact Ht | ].
  rewrite Ht, contains_char_app, replace_char_removes by discriminate. reflexivity.
Qed.

(** X5, at a row whose title has two spaces. *)
Lemma search_link_has_no_space_witness :
  let rows :=
    [ {| GoogleTrends.Trends := Text "total solar eclipse";
         GoogleTrends.Search_volume := Text "20K+" |} ] in
  let w := {| clock := fun n => Z.of_nat n; reads := 0 |} in
  exists trends,
    fst (GoogleTrends.process_csv_to_schema (Some rows) "US" w) = Ok (Some trends) /\
    List.map GoogleTrends.url trends
    = [ "https://www.google.com/search?q=total+solar+eclipse" ] /\
    Forall (fun t => GoogleTrends.linked t /\
                     PyStr.contains_char " " (GoogleTrends.url t) = false) trends.
Proof.
  intros rows w.
  destruct (fst (GoogleTrends.process_csv_to_schema (Some rows) "US" w))
    as [ [ trends | ] | e ] eqn:H; vm_compute in H; try discriminate.
  exists trends. split; [ reflexivity | ].
  split; [ injection H as <-; reflexivity | ].
  exact (search_link_has_no_space rows "US" w trends H).
Defined.

(** ** The matcher and the texts that a pattern accepts *)

Section MatcherExact.
Import Re.

Lemma lit_ignorecase_sound p : forall s rest,
  lit true p s = Some rest -> exists w, s = w +:+ rest /\ Spec.written p w.
Proof.
  unfold Spec.written.
  induction p as [ | a p IH ]; intros s rest; cbn [lit].
  - intros [= ->]. exists "". split; reflexivity.
  - destruct s as [ | b s ]; [ discriminate | ].
    unfold char_eq. destruct (Ascii.eqb_spec (PyStr.lower_char a) (PyStr.lower_char b)) as [ E | ];
      [ | discriminate ].
    intros H. apply IH in H as (w & -> & Hw).
    exists (String b w). split; [ reflexivity | ]. cbn [PyStr.lower]. now rewrite Hw, E.
Qed.

Lemma digits_sound_bounded {A} s : forall lo hi (k : string -> option A) a,
  digits lo hi s k = Some a ->
  exists rest, accepts false (Digits lo hi) s rest /\ k rest = Some a.
Proof.
  assert (Hstop : forall lo hi (k : string -> option A) a t,
             match lo with O => k t | S _ => None end = Some a ->
             exists rest, accepts false (Digits lo hi) t rest /\ k rest = Some a).
  { intros [ | lo ] hi k a t H; [ | discriminate ].
    exists t. split; [ | exact H ]. exists "". repeat split; auto; simpl; lia. }
  induction s as [ | c s IH ]; intros lo hi k a; cbn [digits].
  - apply Hstop.
  - destruct (PyStr.isdigit c && negb (exhausted hi)) eqn:E; [ | apply Hstop ].
    destruct (digits (Nat.pred lo) (dec hi) s k) as [ a' | ] eqn:Ed; [ | apply Hstop ].
    intros [= ->]. apply IH in Ed as (rest & (d & -> & Hd & Hlo & Hhi) & Hk).
    apply andb_true_iff in E as [Ec Ee]. apply negb_true_iff in Ee.
    exists rest. split; [ | exact Hk ].
    exists (String c d). cbn [PyStr.all_chars String.length]. rewrite Ec, Hd.
    repeat split; auto; [ lia | ].
    intros h ->. destruct h as [ | h ]; [ discriminate Ee | ].
    specialize (Hhi h eq_refl). lia.
Qed.

(** The matcher finds only what the pattern accepts ... *)
Lemma run_sound {A} ic r : forall s (k : string -> option A) a,
  run ic r s k = Some a -> exists rest, accepts ic r s rest /\ k rest = Some a.
Proof.
  induction r as [ p | lo hi | r1 IH1 r2 IH2 | r1 IH1 r2 IH2 | r1 IH1 | ];
    intros s k a; cbn [run accepts].
  - destruct (lit ic p s) as [ s' | ]; [ | discriminate ]. eauto.
  - intros H. apply digits_sound_bounded in H. exact H.
  - intros H. apply IH1 in H as (mid & H1 & H). apply IH2 in H as (rest & H2 & Hk). eauto.
  - destruct (run ic r1 s k) as [ a1 | ] eqn:E1.
    + intros [= <-]. apply IH1 in E1 as (rest & H1 & Hk). eauto.
    + intros H. apply IH2 in H as (rest & H2 & Hk). eauto.
  - destruct (run ic r1 s k) as [ a1 | ] eqn:E1.
    + intros [= <-]. apply IH1 in E1 as (rest & H1 & Hk). eauto.
    + eauto.
  - destruct (at_end s) eqn:E; [ | discriminate ]. eauto.
Qed.

(** ... and finds a match whenever the pattern accepts one. *)
Lemma run_complete {A} ic r : forall s rest (k : string -> option A),
  accepts ic r s rest -> is_Some (k rest) -> is_Some (run ic r s k).
Proof.
  induction r as [ p | lo hi | r1 IH1 r2 IH2 | r1 IH1 r2 IH2 | r1 IH1 | ];
    intros s rest k; cbn [run accepts].
  - intros ->. auto.
  - intros (d & -> & Hd & Hlo & Hhi) Hk. now apply digits_complete.
  - intros (mid & H1 & H2) Hk. apply (IH1 s mid); [ exact H1 | ].
    now apply (IH2 mid rest).
  - intros [ H | H ] Hk.
    + destruct (IH1 s rest k H Hk) as [a ->]. eauto.
    + destruct (run ic r1 s k); [ eauto | now apply (IH2 s rest) ].
  - intros [ H | -> ] Hk.
    + destruct (IH1 s rest k H Hk) as [a ->]. eauto.
    + destruct (run ic r1 s k); eauto.
  - intros [-> ->] Hk. exact Hk.
Qed.

Lemma match_accepts ic r s :
  truthy (match_ ic r s) = true <-> exists rest, accepts ic r s rest.
Proof.
  unfold match_. split.
  - destruct (run ic r s (fun rest => Some rest)) as [ rest | ] eqn:E; [ | discriminate ].
    intros _. apply run_sound in E as (rest' & H & _). eauto.
  - intros (rest & H).
    destruct (run_complete ic r s rest (fun rest => Some rest) H) as [a ->]; eauto.
Qed.

End MatcherExact.

(** ** The noise classifier rejects the titles of nine shapes, and no other *)

Section NoiseExact.
Import Wikipedia.

Lemma startswith_sound p : forall s,
  PyStr.startswith s p = true -> exists rest, s = p +:+ rest.
Proof.
  induction p as [ | a p IH ]; intros s.
  - intros _. exists s. reflexivity.
  - destruct s as [ | b s ]; cbn [PyStr.startswith]; [ discriminate | ].
    intros H. apply andb_true_iff in H as [E H].
    apply Ascii.eqb_eq in E as ->. apply IH in H as [rest ->]. exists rest. reflexivity.
Qed.

Lemma contains_char_sound c : forall s,
  PyStr.contains_char c s = true -> exists a b, s = a +:+ String c b.
Proof.
  induction s as [ | d s IH ]; cbn [PyStr.contains_char]; [ discriminate | ].
  intros H. apply orb_true_iff in H as [ E | H ].
  - apply Ascii.eqb_eq in E as ->. exists "", s. reflexivity.
  - apply IH in H as (a & b & ->). exists (String d a), b. reflexivity.
Qed.

Lemma contains_sound w : forall s,
  PyStr.contains w s = true -> exists a b, s = a +:+ w +:+ b.
Proof.
  assert (Hstart : forall s, PyStr.startswith s w = true -> exists a b, s = a +:+ w +:+ b).
  { intros s H. apply startswith_sound in H as [rest ->]. exists "", rest. reflexivity. }
  induction s as [ | d s IH ]; cbn [PyStr.contains]; intros H;
    apply orb_true_iff in H as [ H | H ]; auto; [ discriminate | ].
  apply IH in H as (a & b & ->). exists (String d a), b. reflexivity.
Qed.

Lemma at_end_line_end s : Re.at_end s = true <-> Shape.line_end s.
Proof.
  unfold Shape.line_end. destruct s as [ | c [ | d s ] ]; cbn [Re.at_end].
  - tauto.
  - rewrite Ascii.eqb_eq. split; [ intros ->; now right | intros [ H | H ]; congruence ].
  - split; [ discriminate | intros [ H | H ]; discriminate ].
Qed.

Lemma lower_char_underscore c : PyStr.lower_char c = "_"%char -> c = "_"%char.
Proof. destruct c as [ [] [] [] [] [] [] [] [] ]; vm_compute; congruence. Qed.

Lemma lower_char_comma c : PyStr.lower_char c = ","%char -> c = ","%char.
Proof. destruct c as [ [] [] [] [] [] [] [] [] ]; vm_compute; congruence. Qed.

Lemma written_underscore w : Spec.written "_" w -> w = "_".
Proof.
  unfold Spec.written. destruct w as [ | c [ | d w ] ]; cbn [PyStr.lower]; try discriminate.
  intros [= H]. now rewrite (lower_char_underscore c H).
Qed.

Lemma written_comma_underscore w : Spec.written ",_" w -> w = ",_".
Proof.
  unfold Spec.written. destruct w as [ | c [ | d [ | e w ] ] ]; cbn [PyStr.lower];
    try discriminate.
  intros [= H1 H2]. now rewrite (lower_char_comma c H1), (lower_char_underscore d H2).
Qed.

Lemma lit_accepts p s rest :
  Re.accepts true (Re.Lit p) s rest <-> exists w, Spec.written p w /\ s = w +:+ rest.
Proof.
  cbn [Re.accepts]. split.
  - intros H. apply lit_ignorecase_sound in H as (w & -> & Hw). eauto.
  - intros (w & Hw & ->). now apply lit_written.
Qed.

Lemma digits_accepts ic n s rest :
  Re.accepts ic (Re.Digits n (Some n)) s rest <-> exists d, Spec.digits n d /\ s = d +:+ rest.
Proof.
  cbn [Re.accepts]. unfold Spec.digits. split.
  - intros (d & -> & Hd & Hlo & Hhi). specialize (Hhi n eq_refl).
    exists d. repeat split; auto. lia.
  - intros (d & [Hl Hd] & ->). exists d. repeat split; auto; [ lia | ].
    intros h [= <-]. lia.
Qed.

Lemma day_accepts ic s rest :
  Re.accepts ic (Re.Digits 1 (Some 2%nat)) s rest <->
  exists d, (Spec.digits 1 d \/ Spec.digits 2 d) /\ s = d +:+ rest.
Proof.
  cbn [Re.accepts]. unfold Spec.digits. split.
  - intros (d & -> & Hd & Hlo & Hhi). specialize (Hhi 2%nat eq_refl).
    exists d. split; [ | reflexivity ].
    destruct (Nat.eq_dec (String.length d) 1%nat); [ left | right ]; split; auto; lia.
  - intros (d & [ [Hl Hd] | [Hl Hd] ] & ->); exists d; repeat split; auto; try lia;
      intros h [= <-]; lia.
Qed.

Lemma eos_accepts ic s rest :
  Re.accepts ic Re.Eos s rest <-> rest = s /\ Shape.line_end s.
Proof. cbn [Re.accepts]. now rewrite at_end_line_end. Qed.

Lemma months_accepts s rest :
  Re.accepts true MONTHS s rest <->
  exists month m, In month Spec.months /\ Spec.written month m /\ s = m +:+ rest.
Proof.
  unfold MONTHS. cbn [Re.accepts]. split.
  - intros H.
    repeat (destruct H as [ H | H ];
            [ apply lit_ignorecase_sound in H as (w & -> & Hw);
              refine (ex_intro _ _ (ex_intro _ w (conj _ (conj Hw eq_refl))));
              unfold Spec.months; cbn [In];
              repeat (first [ left; reflexivity | right ])
            | ]).
    apply lit_ignorecase_sound in H as (w & -> & Hw).
    refine (ex_intro _ _ (ex_intro _ w (conj _ (conj Hw eq_refl)))).
    unfold Spec.months; cbn [In]. repeat (first [ left; reflexivity | right ]).
  - intros (month & m & Hin & Hw & ->). unfold Spec.months in Hin. cbn [In] in Hin.
    repeat (destruct Hin as [ <- | Hin ];
            [ repeat (first [ exact (lit_written _ _ _ Hw)
                            | left; exact (lit_written _ _ _ Hw)
                            | right ])
            | ]).
    destruct Hin.
Qed.

Lemma date_accepts title :
  (exists rest, Re.accepts true DATE_RE title rest) <-> Shape.date title.
Proof.
  unfold DATE_RE, Shape.date. split.
  - intros (rest & H). cbn [Re.accepts] in H.
    destruct H as (m1 & Hm & m2 & Hu & m3 & Hday & m4 & Hopt & -> & He).
    apply months_accepts in Hm as (month & m & Hin & Hw & ->).
    apply lit_ignorecase_sound in Hu as (u & -> & Hu). apply written_underscore in Hu as ->.
    apply (proj1 (day_accepts true _ _)) in Hday as (day & Hday & ->).
    apply at_end_line_end in He.
    exists month, m, day, m4. repeat (split; [ assumption | ]).
    destruct Hopt as [ (m5 & Hc & Hy) | -> ]; [ | now left ].
    apply lit_ignorecase_sound in Hc as (c & -> & Hc).
    apply written_comma_underscore in Hc as ->.
    apply (proj1 (digits_accepts true _ _ _)) in Hy as (year & Hy & ->).
    right. exists year. split; [ exact Hy | reflexivity ].
  - intros (month & m & day & e & Hin & Hw & Hday & He & Ht).
    exists e. cbn [Re.accepts].
    assert (Hu : forall t, Re.lit true "_" ("_" +:+ t) = Some t)
      by (intros t; now apply (lit_written "_" "_")).
    assert (Hc : forall t, Re.lit true ",_" (",_" +:+ t) = Some t)
      by (intros t; now apply (lit_written ",_" ",_")).
    destruct Ht as [ -> | (year & Hy & ->) ].
    + exists ("_" +:+ day +:+ e). split; [ apply months_accepts; eauto | ].
      exists (day +:+ e). split; [ apply Hu | ].
      exists e. split; [ apply (proj2 (day_accepts true _ _)); eauto | ].
      exists e. split; [ now right | ].
      split; [ reflexivity | now apply at_end_line_end ].
    + exists ("_" +:+ day +:+ ",_" +:+ year +:+ e). split; [ apply months_accepts; eauto | ].
      exists (day +:+ ",_" +:+ year +:+ e). split; [ apply Hu | ].
      exists (",_" +:+ year +:+ e). split; [ apply (proj2 (day_accepts true _ _)); eauto | ].
      exists e. split.
      * left. exists (year +:+ e). split; [ apply Hc | ].
        apply (proj2 (digits_accepts true _ _ _)). eauto.
      * split; [ reflexivity | now apply at_end_line_end ].
Qed.

Lemma year_accepts title :
  (exists rest, Re.accepts false YEAR_RE title rest) <-> Shape.year title.
Proof.
  unfold YEAR_RE, Shape.year. split.
  - intros (rest & m & Hy & He).
    apply (proj1 (digits_accepts false _ _ _)) in Hy as (y & Hy & ->).
    apply eos_accepts in He as [-> He]. exists y, m. auto.
  - intros (y & e & Hy & He & ->). exists e, e. split.
    + apply (proj2 (digits_accepts false _ _ _)). eauto.
    + apply eos_accepts. auto.
Qed.

Lemma year_in_accepts title :
  (exists rest, Re.accepts true YEAR_IN_RE title rest) <-> Shape.year_in title.
Proof.
  unfold YEAR_IN_RE, Shape.year_in. split.
  - intros (rest & m & Hy & Hw).
    apply (proj1 (digits_accepts true _ _ _)) in Hy as (y & Hy & ->).
    apply lit_accepts in Hw as (w & Hw & ->). exists y, w, rest. auto.
  - intros (y & w & rest & Hy & Hw & ->). exists rest, (w +:+ rest). split.
    + apply (proj2 (digits_accepts true _ _ _)). eauto.
    + apply lit_accepts. eauto.
Qed.

Lemma list_of_accepts title :
  (exists rest, Re.accepts true LIST_RE title rest) <-> Shape.list_of title.
Proof.
  unfold LIST_RE, Shape.list_of. split.
  - intros (rest & Hw). apply lit_accepts in Hw as (w & Hw & ->). eauto.
  - intros (w & rest & Hw & ->). exists rest. apply lit_accepts. eauto.
Qed.

Lemma deaths_in_accepts title :
  (exists rest, Re.accepts true DEATHS_RE title rest) <-> Shape.deaths_in title.
Proof.
  unfold DEATHS_RE, Shape.deaths_in. split.
  - intros (rest & m1 & Hw & m2 & Hy & He).
    apply lit_accepts in Hw as (w & Hw & ->).
    apply (proj1 (digits_accepts true _ _ _)) in Hy as (y & Hy & ->).
    apply eos_accepts in He as [-> He]. exists w, y, m2. auto.
  - intros (w & y & e & Hw & Hy & He & ->). exists e, (y +:+ e). split.
    + apply lit_accepts. eauto.
    + exists e. split.
      * apply (proj2 (digits_accepts true _ _ _)). eauto.
      * apply eos_accepts. auto.
Qed.

Lemma prefixed_tests title :
  existsb (PyStr.startswith title) STOP_PREFIXES
  || existsb (fun ns => PyStr.startswith title ns) STOP_NAMESPACES = true <->
  Shape.prefixed title.
Proof.
  unfold Shape.prefixed. rewrite <- existsb_app, existsb_exists. split.
  - intros (p & Hin & H). apply startswith_sound in H as [rest ->]. eauto.
  - intros (p & rest & Hin & ->). exists p. split; [ exact Hin | apply startswith_append ].
Qed.

Lemma separated_test title :
  PyStr.contains_char ":" title = true <-> Shape.separated title.
Proof.
  unfold Shape.separated. split.
  - intros H. apply contains_char_sound in H as (a & b & ->). eauto.
  - intros (a & b & ->). apply contains_char_append.
Qed.

Lemma worded_test title :
  existsb (fun word => PyStr.contains word (PyStr.lower title))
    (elements INAPPROPRIATE_WORDS) = true <-> Shape.worded title.
Proof.
  unfold Shape.worded. rewrite existsb_exists. split.
  - intros (word & Hin & H). apply contains_sound in H as (a & b & H).
    exists word, a, b. split; [ | exact H ].
    apply (proj1 (elem_of_elements _ _)), (proj2 (list_elem_of_In _ _)). exact Hin.
  - intros (word & a & b & Hin & H). exists word. split.
    + apply (proj1 (list_elem_of_In _ _)), (proj2 (elem_of_elements _ _)). exact Hin.
    + rewrite H. apply contains_append.
Qed.

End NoiseExact.

(** X6: among the titles of ASCII characters, the noise classifier of the
    encyclopedia script answers true for exactly the titles of one of nine
    shapes: the stop title, a title that
    starts with a stop prefix or a namespace prefix, a title with a colon,
    a date (month, underscore, one or two digits, perhaps a comma, an
    underscore and a four-digit year), a four-digit year, a year followed
    by _in_, a title that starts with List_of_, Deaths_in_ with a
    four-digit year, and a title whose lower-casing contains one of the
    inappropriate words.  The patterns that end in [$] also accept one
    line feed after the text, and the letters of all patterns but the bare
    year are taken in any case. *)
Theorem looks_like_noise_exact title :
  PyStr.isascii title = true ->
  (Wikipedia.looks_like_noise title = true <-> Shape.noise title).
Proof.
  intros _. rewrite looks_like_noise_or. unfold Shape.noise.
  rewrite <- date_accepts, <- year_accepts, <- year_in_accepts, <- list_of_accepts,
    <- deaths_in_accepts, <- !match_accepts, <- prefixed_tests, <- separated_test,
    <- worded_test.
  unfold Shape.stop_title. rewrite !orb_true_iff, bool_decide_eq_true. tauto.
Qed.

(** ** The slug of an encyclopedia title *)

Section SlugMore.
Import PyStr.

Lemma to_slug_char c :
  exists d,
    Wikipedia.to_slug (String c "") = String d "" /\
    negb (Ascii.eqb d " " || Ascii.eqb d "_" || isupper d) = true /\
    Wikipedia.to_slug (String d "") = String d "" /\
    between 0 127 d = between 0 127 c.
Proof.
  destruct c as [ [ | ] [ | ] [ | ] [ | ] [ | ] [ | ] [ | ] [ | ] ];
    eexists;
    (split; [ vm_compute; reflexivity
            | split; [ | split ]; vm_compute; reflexivity ]).
Qed.

Lemma to_slug_step c s :
  Wikipedia.to_slug (String c s) = Wikipedia.to_slug (String c "") +:+ Wikipedia.to_slug s.
Proof. reflexivity. Qed.

End SlugMore.

(** X7: for a text of ASCII characters, the slug of the encyclopedia script
    is a text of ASCII characters without space, underscore and upper-case
    letter; making the slug of a slug changes nothing; and the slug of a
    text in two parts is the slug of the first part followed by the slug
    of the second. *)
Theorem to_slug_url_friendly :
  (forall text,
     PyStr.isascii text = true ->
     PyStr.isascii (Wikipedia.to_slug text) = true /\
     PyStr.all_chars
       (fun c => negb (Ascii.eqb c " " || Ascii.eqb c "_" || PyStr.isupper c))
       (Wikipedia.to_slug text) = true /\
     Wikipedia.to_slug (Wikipedia.to_slug text) = Wikipedia.to_slug text) /\
  (forall a b,
     PyStr.isascii a = true -> PyStr.isascii b = true ->
     Wikipedia.to_slug (a +:+ b) = Wikipedia.to_slug a +:+ Wikipedia.to_slug b).
Proof.
  split.
  - induction text as [ | c s IH ]; [ repeat split | ].
    unfold PyStr.isascii. cbn [PyStr.all_chars]. intros H.
    apply andb_true_iff in H as [Hc Hs]. destruct (IH Hs) as (IH1 & IH2 & IH3).
    rewrite to_slug_step. destruct (to_slug_char c) as (d & -> & Hd & Hdd & Ha).
    change (String d "" +:+ Wikipedia.to_slug s) with (String d (Wikipedia.to_slug s)).
    split; [ | split ].
    + unfold PyStr.isascii in *. cbn [PyStr.all_chars]. now rewrite Ha, Hc, IH1.
    + cbn [PyStr.all_chars]. now rewrite Hd, IH2.
    + rewrite to_slug_step, Hdd, IH3. reflexivity.
  - intros a b _ _. induction a as [ | c a IH ]; [ reflexivity | ].
    change (String c a +:+ b) with (String c (a +:+ b)).
    rewrite (to_slug_step c (a +:+ b)), (to_slug_step c a), IH.
    destruct (to_slug_char c) as (d & -> & _). reflexivity.
Qed.

(** X7, at the name of a page in two parts. *)
Lemma to_slug_url_friendly_witness :
  Wikipedia.to_slug "Ada Lovelace_(1815)" = "ada-lovelace-(1815)" /\
  Wikipedia.to_slug (Wikipedia.to_slug "Ada Lovelace_(1815)")
  = Wikipedia.to_slug "Ada Lovelace_(1815)" /\
  Wikipedia.to_slug ("Ada Lovelace" +:+ "_(1815)")
  = Wikipedia.to_slug "Ada Lovelace" +:+ Wikipedia.to_slug "_(1815)".
Proof.
  split; [ reflexivity | split ].
  - apply (proj1 to_slug_url_friendly "Ada Lovelace_(1815)"). reflexivity.
  - apply (proj2 to_slug_url_friendly "Ada Lovelace" "_(1815)"); reflexivity.
Defined.

(** ** The articles that the encyclopedia script fetches *)

Section FetchMore.
Import Wikipedia.
Variable wiki_summary : string -> string -> option summary.
Variable quote : string -> string.

Lemma verify_length lang it : (length (verify wiki_summary quote lang it) <= 1)%nat.
Proof.
  unfold verify. destruct (wiki_summary _ _) as [ s | ]; [ | simpl; lia ].
  destruct (bool_decide _); simpl; lia.
Qed.

Lemma concat_verify_length lang items :
  (length (List.concat (List.map (verify wiki_summary quote lang) items)) <= length items)%nat.
Proof.
  induction items as [ | it items IH ]; simpl; [ lia | ].
  rewrite List.length_app. pose proof (verify_length lang it). lia.
Qed.

Lemma verify_In lang it a :
  In a (verify wiki_summary quote lang it) ->
  exists s,
    wiki_summary (i_title it) lang = Some s /\ s_type s = Some "standard" /\
    a_source a = "wikipedia" /\ a_region a = "GLOBAL" /\ a_lang a = lang /\
    a_url a <> "" /\ a_title a = s_title s /\ a_raw_metric a = i_views it /\
    a_description a = s_description s /\ a_thumbnail a = s_thumbnail s.
Proof.
  unfold verify. destruct (wiki_summary _ _) as [ s | ]; [ | intros [] ].
  destruct (bool_decide (s_type s = Some "standard")) eqn:E; [ | intros [] ].
  apply bool_decide_eq_true in E. intros [ <- | [] ]. exists s. cbn.
  repeat (split; [ first [ reflexivity | assumption ] | ]).
  split; [ | repeat split ].
  destruct (s_canonical s) as [ [ | c u ] | ]; cbn; discriminate.
Qed.

Lemma candidates_In days it :
  In it (candidates days) ->
  exists p,
    In p (List.concat days) /\ looks_like_noise (article p) = false /\
    i_title it = article p /\ i_views it = views p.
Proof.
  unfold candidates. intros H. apply in_map_iff in H as (p & <- & H).
  apply filter_In in H as [Hp Hn]. apply negb_true_iff in Hn.
  exists p. auto.
Qed.

Lemma firstn_In_list {A} n (l : list A) x : In x (List.firstn n l) -> In x l.
Proof.
  intros H. rewrite <- (List.firstn_skipn n l). apply in_or_app. now left.
Qed.

Lemma candidates_length days : (length (candidates days) <= length (List.concat days))%nat.
Proof.
  unfold candidates. rewrite List.length_map.
  induction (List.concat days) as [ | p l IH ]; simpl; [ lia | ].
  destruct (negb _); simpl; lia.
Qed.

End FetchMore.

(** X8: the articles that [fetch_wiki_top_real] returns, whatever the
    summary service answers.  There are at most [max_items], at most
    [max_summaries], and at most as many as entries in the page view
    listing.  Each one stems from an entry of the listing whose title the
    noise classifier accepts and for which the summary service answers with
    a page of type "standard": it has the title, description and thumbnail
    of that answer, the views of the entry as raw metric, the source
    "wikipedia", the region "GLOBAL", the language of the call and a link
    that is not empty. *)
Theorem fetch_wiki_top_real_provenance
  (wiki_summary : string -> string -> option Wikipedia.summary) (quote : string -> string)
  (lang : string) (max_items max_summaries : nat) (days : list (list Wikipedia.pageview)) :
  let real := Wikipedia.fetch_wiki_top_real wiki_summary quote lang max_items max_summaries days in
  (length real <= max_items)%nat /\
  (length real <= max_summaries)%nat /\
  (length real <= length (List.concat days))%nat /\
  Forall (fun a =>
            Wikipedia.a_source a = "wikipedia" /\ Wikipedia.a_region a = "GLOBAL" /\
            Wikipedia.a_lang a = lang /\ Wikipedia.a_url a <> "" /\
            exists p s,
              In p (List.concat days) /\
              Wikipedia.looks_like_noise (Wikipedia.article p) = false /\
              wiki_summary (Wikipedia.article p) lang = Some s /\
              Wikipedia.s_type s = Some "standard" /\
              Wikipedia.a_title a = Wikipedia.s_title s /\
              Wikipedia.a_raw_metric a = Wikipedia.views p /\
              Wikipedia.a_description a = Wikipedia.s_description s /\
              Wikipedia.a_thumbnail a = Wikipedia.s_thumbnail s) real.
Proof.
  intros real.
  assert (Hp : Permutation real
                 (Wikipedia.verified wiki_summary quote lang max_items max_summaries days))
    by apply sort_reverse_perm.
  pose proof (concat_verify_length wiki_summary quote lang
                (List.firstn max_summaries
                   (List.firstn max_items (Wikipedia.candidates days)))) as Hl.
  fold (Wikipedia.verified wiki_summary quote lang max_items max_summaries days) in Hl.
  rewrite <- (Permutation_length Hp) in Hl.
  rewrite !List.length_firstn in Hl.
  pose proof (candidates_length days).
  repeat split; try lia.
  apply List.Forall_forall. intros a Ha.
  apply (Permutation_in _ Hp) in Ha. unfold Wikipedia.verified in Ha.
  apply in_concat in Ha as (l & Hl' & Ha). apply in_map_iff in Hl' as (it & <- & Hit).
  apply firstn_In_list, firstn_In_list, candidates_In in Hit as (p & Hp' & Hn & Ht & Hv).
  apply verify_In in Ha as (s & Hs & Hty & H1 & H2 & H3 & H4 & H5 & H6 & H7 & H8).
  repeat (split; [ assumption | ]).
  rewrite Ht in Hs. rewrite Hv in H6.
  exists p, s. repeat (split; [ assumption | ]). assumption.
Qed.

(** ** A run of the encyclopedia normalizer *)

Section EncyclopediaRun.
Import Wikipedia.

Lemma score_of_outcome raw :
  (exists q, PyFloat.int_true_divide raw 1000 = Ok q /\
             score_of raw = Ok (PyFloat.min (PyFloat.Float q) (PyFloat.Int 1000))) \/
  (PyFloat.int_true_divide raw 1000 = Raise OverflowError /\
   score_of raw = Raise OverflowError).
Proof.
  unfold score_of, PyFloat.int_true_divide. change (1000 =? 0) with false. cbv iota.
  destruct (raw =? 0); [ left; eauto | ].
  destruct (PyFloat.round_quotient _ _ _); simpl; eauto.
Qed.

Lemma normalize_outcome observed_at a :
  match normalize observed_at a with
  | Ok t =>
      PyFloat.int_true_divide (a_raw_metric a) 1000 <> Raise OverflowError /\
      title t = a_title a /\
      option_map to_slug (a_title a) = Some (slug t) /\
      url t = a_url a /\ raw_metric t = str (a_raw_metric a) /\
      source t = a_source a /\ region t = a_region a /\
      description t = a_description a /\ thumbnail t = a_thumbnail a /\
      lang t = a_lang a /\ Wikipedia.observed_at t = observed_at
  | Raise e =>
      (e = OverflowError /\
       PyFloat.int_true_divide (a_raw_metric a) 1000 = Raise OverflowError) \/
      (e = AttributeError /\ a_title a = None)
  end.
Proof.
  unfold normalize.
  destruct (score_of_outcome (a_raw_metric a)) as [ (q & Hq & ->) | [Hq ->] ]; simpl.
  - destruct (a_title a) as [ t | ]; [ | now right ].
    simpl. rewrite Hq. repeat split. discriminate.
  - now left.
Qed.

Lemma normalize_all_outcome observed_at articles : forall acc,
  match normalize_all observed_at articles acc with
  | Ok topics =>
      exists new,
        topics = acc ++ new /\
        Forall2 (fun a t => normalize observed_at a = Ok t) articles new
  | Raise e =>
      Exists (fun a => normalize observed_at a = Raise e) articles
  end.
Proof.
  induction articles as [ | a articles IH ]; intros acc; simpl.
  - exists nil. rewrite app_nil_r. split; constructor.
  - destruct (normalize observed_at a) as [ t | e ] eqn:E; simpl.
    + specialize (IH (acc ++ [t])).
      destruct (normalize_all observed_at articles (acc ++ [t])) as [ topics | e ].
      * destruct IH as (new & -> & HF). exists (t :: new). rewrite <- app_assoc.
        split; [ reflexivity | now constructor ].
      * now apply Exists_cons_tl.
    + now apply Exists_cons_hd.
Qed.

End EncyclopediaRun.

(** X9: a run of [extract_trending_topics] of the encyclopedia script
    gives all records or none.  When every article has a title and a raw
    metric whose thousandth is in the range of the floats, the run returns
    one record for each article, in the order of the articles, with the
    title, link, source, region, description, thumbnail and language of
    the article, the slug of its title, the decimal text of its raw metric
    and the one reading of the clock.  When one article has no title, or a
    raw metric that large, the run raises, an [AttributeError] or an
    [OverflowError], and returns no record at all. *)
Theorem encyclopedia_run_all_or_nothing articles w :
  (Forall (fun a =>
             Wikipedia.a_title a <> None /\
             PyFloat.int_true_divide (Wikipedia.a_raw_metric a) 1000 <> Raise OverflowError)
     articles ->
   exists topics,
     Wikipedia.extract_trending_topics articles w = (Ok topics, tick w) /\
     Forall2 (fun a t =>
                Wikipedia.title t = Wikipedia.a_title a /\
                option_map Wikipedia.to_slug (Wikipedia.a_title a) = Some (Wikipedia.slug t) /\
                Wikipedia.url t = Wikipedia.a_url a /\
                Wikipedia.raw_metric t = Wikipedia.str (Wikipedia.a_raw_metric a) /\
                Wikipedia.source t = Wikipedia.a_source a /\
                Wikipedia.region t = Wikipedia.a_region a /\
                Wikipedia.description t = Wikipedia.a_description a /\
                Wikipedia.thumbnail t = Wikipedia.a_thumbnail a /\
                Wikipedia.lang t = Wikipedia.a_lang a /\
                Wikipedia.observed_at t = clock w (reads w))
       articles topics) /\
  (Exists (fun a =>
             Wikipedia.a_title a = None \/
             PyFloat.int_true_divide (Wikipedia.a_raw_metric a) 1000 = Raise OverflowError)
     articles ->
   exists e,
     Wikipedia.extract_trending_topics articles w = (Raise e, tick w) /\
     (e = AttributeError \/ e = OverflowError)).
Proof.
  unfold Wikipedia.extract_trending_topics, bind, now, lift.
  pose proof (normalize_all_outcome (clock w (reads w)) articles nil) as H.
  destruct (Wikipedia.normalize_all (clock w (reads w)) articles nil) as [ topics | e ].
  - destruct H as (new & -> & HF). simpl. split.
    + intros _. exists new. split; [ reflexivity | ].
      induction HF as [ | a t articles new Ht HF IH ]; constructor; auto.
      pose proof (normalize_outcome (clock w (reads w)) a) as Ho. rewrite Ht in Ho. tauto.
    + intros Hbad. exfalso.
      induction HF as [ | a t articles new Ht HF IH ]; [ inversion Hbad | ].
      pose proof (normalize_outcome (clock w (reads w)) a) as Ho. rewrite Ht in Ho.
      destruct Ho as (Hno & _ & Hslug & _).
      inversion Hbad as [ ? ? [ Hn | Hov ] | ? ? Hbad' ]; subst.
      * rewrite Hn in Hslug. discriminate.
      * contradiction.
      * exact (IH Hbad').
  - split.
    + intros Hgood. exfalso. apply List.Exists_exists in H as (a & Ha & Hr).
      pose proof (proj1 (List.Forall_forall _ _) Hgood a Ha) as [Ht Hv].
      pose proof (normalize_outcome (clock w (reads w)) a) as Ho. rewrite Hr in Ho.
      destruct Ho as [ [_ Ho] | [_ Ho] ]; contradiction.
    + intros _. exists e. split; [ reflexivity | ].
      apply List.Exists_exists in H as (a & Ha & Hr).
      pose proof (normalize_outcome (clock w (reads w)) a) as Ho. rewrite Hr in Ho.
      destruct Ho as [ [-> _] | [-> _] ]; auto.
Qed.

(** X9, at a run on two articles with a title, and at a run in which the
    second article has none. *)
Lemma encyclopedia_run_all_or_nothing_witness :
  let article title views :=
    {| Wikipedia.a_source := "wikipedia"; Wikipedia.a_title := title;
       Wikipedia.a_url := "https://en.wikipedia.org/wiki/Ada_Lovelace";
       Wikipedia.a_region := "GLOBAL"; Wikipedia.a_raw_metric := views;
       Wikipedia.a_description := None; Wikipedia.a_thumbnail := None;
       Wikipedia.a_lang := "en" |} in
  let w := {| clock := fun n => Z.of_nat n; reads := 0 |} in
  (exists topics,
     Wikipedia.extract_trending_topics
       [ article (Some "Ada Lovelace") 90210; article (Some "Alan_Turing") 4711 ] w
     = (Ok topics, tick w) /\
     List.map Wikipedia.slug topics = [ "ada-lovelace"; "alan-turing" ]) /\
  (exists e,
     Wikipedia.extract_trending_topics
       [ article (Some "Ada Lovelace") 90210; article None 4711 ] w
     = (Raise e, tick w)).
Proof.
  intros article w. split.
  - destruct (proj1 (encyclopedia_run_all_or_nothing
                       [ article (Some "Ada Lovelace") 90210;
                         article (Some "Alan_Turing") 4711 ] w))
      as (topics & H & HF).
    + repeat constructor; vm_compute; discriminate.
    + exists topics. split; [ exact H | ].
      vm_compute in H. injection H as <-. reflexivity.
  - destruct (proj2 (encyclopedia_run_all_or_nothing
                       [ article (Some "Ada Lovelace") 90210; article None 4711 ] w))
      as (e & H & _).
    + apply Exists_cons_tl, Exists_cons_hd. left. reflexivity.
    + exists e. exact H.
Defined.

(** ** The range of the score *)

Section ScoreRange.
Import PyFloat.

Lemma float_not_below_zero q : has_sign false q -> float_lt_int q 0 = false.
Proof.
  destruct q as [ s | s | | s m e ]; simpl; try (intros ->); try reflexivity.
  destruct e as [ | p | p ]; apply Z.ltb_ge; lia.
Qed.

Lemma score_within raw s :
  0 <= raw -> Spec.score raw = Ok s -> within 0 1000 s.
Proof.
  unfold Spec.score. intros Hraw.
  destruct (int_true_divide raw 1000) as [ q | e ] eqn:E; simpl; [ | discriminate ].
  apply int_true_divide_sign in E.
  replace (xorb (raw <? 0) (1000 <? 0)) with false in E
    by (symmetry; rewrite (proj2 (Z.ltb_ge raw 0) Hraw); reflexivity).
  intros [= <-]. unfold min.
  destruct (number_lt (Int 1000) (Float q)) eqn:Elt.
  - repeat split.
  - unfold within. rewrite Elt. simpl.
    rewrite (float_not_below_zero q E), (has_sign_not_nan _ q E). auto.
Qed.

End ScoreRange.

(** X10: in the encyclopedia and in the video script, the score of a record
    whose raw metric is not negative is a number from 0 to 1000, never a
    NaN. *)
Theorem score_within_bounds :
  (forall articles w topics w',
     Wikipedia.extract_trending_topics articles w = (Ok topics, w') ->
     Forall2 (fun a t =>
                0 <= Wikipedia.a_raw_metric a -> PyFloat.within 0 1000 (Wikipedia.score t))
       articles topics) /\
  (forall videos w topics w',
     YouTube.extract_trending_topics videos w = (Ok topics, w') ->
     Forall (fun t => 0 <= YouTube.raw_metric t -> PyFloat.within 0 1000 (YouTube.score t))
       topics).
Proof.
  split.
  - intros articles w topics w' H.
    apply wikipedia_extract_spec in H as [_ HF].
    induction HF as [ | a t articles topics Ht HF IH ]; constructor; auto.
    intros Hraw. apply (score_within (Wikipedia.a_raw_metric a)); [ exact Hraw | ].
    now apply (wikipedia_normalize_score (clock w (reads w))).
  - intros videos w topics w' H. rewrite youtube_extract_spec in H.
    injection H as <- _. apply List.Forall_forall. intros t Ht Hraw.
    apply youtube_appended_In in Ht as (v & _ & Hv).
    apply (score_within (YouTube.raw_metric t)); [ exact Hraw | ].
    exact (youtube_normalize_score _ v t Hv).
Qed.

(** X10, at a run of the video script on a video with 1,234,567 views and
    one with 0 views. *)
Lemma score_within_bounds_witness :
  let video title views :=
    {| YouTube.id := Some "dQw4w9WgXcQ"; YouTube.snippet_title := Text title;
       YouTube.snippet_channelTitle := Absent; YouTube.snippet_publishedAt := Absent;
       YouTube.snippet_description := Absent;
       YouTube.statistics_viewCount := Text views |} in
  let w := {| clock := fun n => Z.of_nat n; reads := 0 |} in
  exists topics,
    YouTube.extract_trending_topics [ video "First" "1234567"; video "Second" "0" ] w
    = (Ok topics, tick w) /\
    List.map YouTube.raw_metric topics = [ 1234567; 0 ] /\
    Forall (fun t => PyFloat.within 0 1000 (YouTube.score t)) topics.
Proof.
  intros video w.
  destruct (YouTube.extract_trending_topics [ video "First" "1234567"; video "Second" "0" ] w)
    as [ r w' ] eqn:E.
  pose proof E as E'. vm_compute in E'. injection E' as <- <-.
  eexists. split; [ reflexivity | ]. split; [ reflexivity | ].
  pose proof (proj2 score_within_bounds
                [ video "First" "1234567"; video "Second" "0" ] w _ _ E) as HF.
  apply List.Forall_forall. intros t Ht.
  apply (proj1 (List.Forall_forall _ _) HF t Ht).
  destruct Ht as [ <- | [ <- | [] ] ]; vm_compute; discriminate.
Defined.

(** ** The slug of a video title *)

Section VideoSlugMore.
Import PyStr.

Ltac each_char c := destruct c as [ [ | ] [ | ] [ | ] [ | ] [ | ] [ | ] [ | ] [ | ] ].

Lemma kept_lower_plain c :
  kept (lower_char c) = true ->
  (isdigit (lower_char c) || islower (lower_char c)) || isspace (lower_char c) = true.
Proof. each_char c; vm_compute; intros H; try reflexivity; discriminate H. Qed.

Lemma kept_lower_space c :
  (if kept (lower_char c) then isspace (lower_char c) else true) = negb (isalnum c).
Proof. each_char c; vm_compute; reflexivity. Qed.

Lemma filtered_plain s :
  all_chars (fun c => (isdigit c || islower c) || isspace c)
    (filter_chars kept (lower s)) = true.
Proof.
  induction s as [ | c s IH ]; [ reflexivity | ].
  cbn [lower filter_chars]. destruct (kept (lower_char c)) eqn:E; [ | exact IH ].
  cbn [all_chars]. now rewrite (kept_lower_plain c E), IH.
Qed.

Lemma filtered_spaces s :
  all_chars isspace (filter_chars kept (lower s))
  = all_chars (fun c => negb (isalnum c)) s.
Proof.
  induction s as [ | c s IH ]; [ reflexivity | ].
  cbn [lower filter_chars all_chars]. rewrite <- kept_lower_space, <- IH.
  destruct (kept (lower_char c)); reflexivity.
Qed.

(** The words of a text are not empty and have no white space. *)
Lemma split_words (P : ascii -> bool) s :
  all_chars (fun c => P c || isspace c) s = true ->
  Forall (fun w => w <> "" /\ all_chars P w = true) (split s).
Proof.
  induction s as [ | c s IH ]; [ constructor | ].
  cbn [all_chars]. intros H. apply andb_true_iff in H as [Hc Hs].
  specialize (IH Hs). rewrite split_cons.
  destruct (isspace c) eqn:E; [ exact IH | ].
  rewrite orb_false_r in Hc.
  assert (H1 : String c "" <> "" /\ all_chars P (String c "") = true)
    by (split; [ discriminate | cbn [all_chars]; now rewrite Hc ]).
  destruct s as [ | d s ]; [ now repeat constructor | ].
  destruct (isspace d); [ now constructor | ].
  destruct (split (String d s)) as [ | w ws ]; [ now repeat constructor | ].
  apply Forall_cons_iff in IH as [ [_ Hw] Hws ]. constructor; [ | exact Hws ].
  split; [ discriminate | cbn [all_chars]; now rewrite Hc, Hw ].
Qed.

Lemma split_is_nil s : split s = nil <-> all_chars isspace s = true.
Proof.
  induction s as [ | c s IH ]; [ easy | ].
  rewrite split_cons. cbn [all_chars]. destruct (isspace c) eqn:E; [ exact IH | ].
  split; [ | discriminate ].
  destruct s as [ | d s ]; [ discriminate | ].
  destruct (isspace d); [ discriminate | ].
  destruct (split (String d s)); discriminate.
Qed.

Lemma join_is_empty sep ws :
  Forall (fun w => w <> "") ws -> join sep ws = "" -> ws = nil.
Proof.
  intros H. destruct ws as [ | w ws ]; [ reflexivity | ].
  apply Forall_cons_iff in H as [Hw _].
  destruct w as [ | c w ]; [ contradiction | ].
  rewrite join_cons_char. discriminate.
Qed.

Lemma firstn_is_nil {A} n (l : list A) : List.firstn (S n) l = nil -> l = nil.
Proof. destruct l; [ reflexivity | discriminate ]. Qed.

End VideoSlugMore.

(** X11: the slug that the video script makes of a title of ASCII
    characters consists of at most five words joined by hyphens, where
    every word is not empty and is made of digits and lower-case letters
    only; the slug is empty exactly for the titles without a letter and
    without a digit. *)
Theorem video_slug_shape title :
  PyStr.isascii title = true ->
  (exists words,
     YouTube.slug_of title = PyStr.join "-" words /\
     (length words <= 5)%nat /\
     Forall (fun w => w <> "" /\
                      PyStr.all_chars (fun c => PyStr.isdigit c || PyStr.islower c) w = true)
       words) /\
  (YouTube.slug_of title = "" <->
   PyStr.all_chars (fun c => negb (PyStr.isalnum c)) title = true).
Proof.
  intros _. unfold YouTube.slug_of. fold PyStr.kept.
  pose proof (split_words (fun c => PyStr.isdigit c || PyStr.islower c) _
                (filtered_plain title)) as Hw.
  assert (H5 : Forall (fun w => w <> "" /\
                 PyStr.all_chars (fun c => PyStr.isdigit c || PyStr.islower c) w = true)
                 (List.firstn 5 (PyStr.split (PyStr.filter_chars PyStr.kept (PyStr.lower title))))).
  { apply List.Forall_forall. intros w Hin.
    apply (proj1 (List.Forall_forall _ _) Hw). exact (firstn_In_list _ _ _ Hin). }
  split.
  - eexists. split; [ reflexivity | ]. split; [ | exact H5 ].
    rewrite List.length_firstn. lia.
  - rewrite <- filtered_spaces, <- split_is_nil. split.
    + intros H. apply join_is_empty in H.
      * exact (firstn_is_nil _ _ H).
      * apply List.Forall_forall. intros w Hin.
        exact (proj1 (proj1 (List.Forall_forall _ _) H5 w Hin)).
    + intros ->. reflexivity.
Qed.

(** ** The records of the video script *)

Section VideoRecords.
Import YouTube.

Lemma take_length n : forall s, (String.length (PyStr.take n s) <= n)%nat.
Proof.
  induction n as [ | n IH ]; intros [ | c s ]; simpl; try lia.
  specialize (IH s). lia.
Qed.

Lemma normalize_record observed_at v t :
  normalize observed_at v = Ok (Some t) ->
  source t = "youtube" /\ region t = "US" /\
  url t = "https://www.youtube.com/watch?v=" +:+ format_id (id v) /\
  (exists raw, get (snippet_title v) "" = Some raw /\ title t = PyStr.strip raw) /\
  PyStr.strip (title t) = title t /\
  slug t = slug_of (title t) /\
  view_count_of (statistics_viewCount v) = Ok (raw_metric t) /\
  (exists d, get (snippet_description v) "" = Some d /\ description t = PyStr.take 200 d) /\
  (String.length (description t) <= 200)%nat /\
  channel t = get (snippet_channelTitle v) "" /\
  published_at t = get (snippet_publishedAt v) "" /\
  YouTube.observed_at t = observed_at.
Proof.
  unfold normalize.
  destruct (get (snippet_title v) "") as [ raw | ]; [ | discriminate ].
  destruct (PyStr.is_empty (PyStr.strip raw)); [ discriminate | ].
  destruct (view_count_of _) as [ n | e ]; cbn [rbind]; [ | discriminate ].
  destruct (PyFloat.int_true_divide n 1000); cbn [rbind]; [ | discriminate ].
  destruct (get (snippet_description v) "") as [ d | ]; [ | discriminate ].
  intros [= <-].
  split; [ reflexivity | ]. split; [ reflexivity | ]. split; [ reflexivity | ].
  split; [ exists raw; split; reflexivity | ].
  split; [ apply strip_idempotent | ]. split; [ reflexivity | ].
  split; [ reflexivity | ].
  split; [ exists d; split; reflexivity | ].
  split; [ exact (take_length 200 d) | ].
  repeat split.
Qed.

Lemma appended_length observed_at v : (length (appended observed_at v) <= 1)%nat.
Proof.
  unfold appended. destruct (normalize observed_at v) as [ [ t | ] | e ]; simpl; lia.
Qed.

Lemma flat_map_appended_length observed_at videos :
  (length (List.flat_map (appended observed_at) videos) <= length videos)%nat.
Proof.
  induction videos as [ | v videos IH ]; simpl; [ lia | ].
  rewrite List.length_app. pose proof (appended_length observed_at v). lia.
Qed.

(** A video that cannot be read gives no record. *)
Lemma appended_unreadable observed_at v :
  snippet_title v = Null \/
  (exists e, view_count_of (statistics_viewCount v) = Raise e) \/
  snippet_description v = Null ->
  appended observed_at v = nil.
Proof.
  unfold appended, normalize. intros [ H | [ [e H] | H ] ]; rewrite H; simpl.
  - reflexivity.
  - destruct (get (snippet_title v) "") as [ raw | ]; [ | reflexivity ].
    destruct (PyStr.is_empty _); reflexivity.
  - destruct (get (snippet_title v) "") as [ raw | ]; [ | reflexivity ].
    destruct (PyStr.is_empty _); [ reflexivity | ].
    destruct (view_count_of _); simpl; [ | reflexivity ].
    destruct (PyFloat.int_true_divide _ 1000); reflexivity.
Qed.

End VideoRecords.

(** X12: a run of [extract_trending_topics] of the video script returns,
    without an exception and after one reading of the clock, at most one
    record for each video.  Each record stems from a video of the input:
    its title is the title of the video without the white space around it,
    its slug is made of that title, its raw metric is the view count read
    as an integer, its description is the first 200 characters of the
    description of the video and so has at most 200 characters, its link is
    the watch link of the identifier, its source is "youtube" and its
    region "US". *)
Theorem video_records_wellformed videos w :
  exists topics,
    YouTube.extract_trending_topics videos w = (Ok topics, tick w) /\
    (length topics <= length videos)%nat /\
    Forall (fun t =>
              YouTube.source t = "youtube" /\ YouTube.region t = "US" /\
              PyStr.strip (YouTube.title t) = YouTube.title t /\
              YouTube.slug t = YouTube.slug_of (YouTube.title t) /\
              (String.length (YouTube.description t) <= 200)%nat /\
              exists v raw d,
                In v videos /\
                get (YouTube.snippet_title v) "" = Some raw /\
                YouTube.title t = PyStr.strip raw /\
                YouTube.view_count_of (YouTube.statistics_viewCount v)
                = Ok (YouTube.raw_metric t) /\
                get (YouTube.snippet_description v) "" = Some d /\
                YouTube.description t = PyStr.take 200 d /\
                YouTube.url t
                = "https://www.youtube.com/watch?v=" +:+ YouTube.format_id (YouTube.id v))
      topics.
Proof.
  rewrite youtube_extract_spec. eexists. split; [ reflexivity | ].
  split; [ apply flat_map_appended_length | ].
  apply List.Forall_forall. intros t Ht.
  apply youtube_appended_In in Ht as (v & Hv & Hn).
  apply normalize_record in Hn
    as (H1 & H2 & H3 & (raw & Hraw & Ht) & H4 & H5 & H6 & (d & Hd & Hdt) & H7 & _).
  repeat (split; [ assumption | ]).
  exists v, raw, d. repeat (split; [ assumption | ]). assumption.
Qed.

(** X13: the video script drops a video that it cannot read and goes on:
    when the title or the description of a video is null, or its view
    count is not the text of an integer, the run returns the records of
    the other videos as if the video were not in the input. *)
Theorem unreadable_video_is_skipped before v behind w :
  YouTube.snippet_title v = Null \/
  (exists e, YouTube.view_count_of (YouTube.statistics_viewCount v) = Raise e) \/
  YouTube.snippet_description v = Null ->
  YouTube.extract_trending_topics (before ++ v :: behind) w
  = YouTube.extract_trending_topics (before ++ behind) w.
Proof.
  intros H. rewrite !youtube_extract_spec, !flat_map_app. cbn [flat_map].
  now rewrite (appended_unreadable _ v H).
Qed.

(** X13, at a video whose view count is the text 1.5K between two videos
    that can be read. *)
Lemma unreadable_video_is_skipped_witness :
  let video title views :=
    {| YouTube.id := Some "dQw4w9WgXcQ"; YouTube.snippet_title := Text title;
       YouTube.snippet_channelTitle := Absent; YouTube.snippet_publishedAt := Absent;
       YouTube.snippet_description := Absent;
       YouTube.statistics_viewCount := Text views |} in
  let w := {| clock := fun n => Z.of_nat n; reads := 0 |} in
  YouTube.view_count_of (YouTube.statistics_viewCount (video "Second" "1.5K"))
  = Raise ValueError /\
  YouTube.extract_trending_topics
    ([ video "First" "1200" ] ++ video "Second" "1.5K" :: [ video "Third" "800" ]) w
  = YouTube.extract_trending_topics ([ video "First" "1200" ] ++ [ video "Third" "800" ]) w.
Proof.
  intros video w. split; [ reflexivity | ].
  apply (unreadable_video_is_skipped [ video "First" "1200" ] (video "Second" "1.5K")
           [ video "Third" "800" ] w).
  right. left. exists ValueError. reflexivity.
Defined.

(** X6, at the year 2024 followed by a line feed, which the classifier
    rejects, and at a title of none of the shapes. *)
Lemma looks_like_noise_exact_witness :
  Wikipedia.looks_like_noise ("2024" +:+ String "010" "") = true /\
  ~ Shape.noise "Artificial_intelligence".
Proof.
  split.
  - apply (proj2 (looks_like_noise_exact ("2024" +:+ String "010" "") eq_refl)).
    right; right; right; right; left.
    exists "2024", (String "010" ""). split; [ split; reflexivity | ].
    split; [ now right | reflexivity ].
  - intros H. apply (proj2 (looks_like_noise_exact "Artificial_intelligence" eq_refl)) in H.
    vm_compute in H. discriminate H.
Defined.

(** X11, at a title of punctuation marks only. *)
Lemma video_slug_shape_witness : YouTube.slug_of "?!? ... !" = "".
Proof. apply (proj2 (proj2 (video_slug_shape "?!? ... !" eq_refl))). reflexivity. Defined.
